(** * DMI weather integration: API client, refresh coordinator, entities

    A shallow embedding of [custom_components/dmi/api.py] and
    [custom_components/dmi/coordinator.py], and of what the entities of
    [weather.py] and [sensor.py] read from the coordinator, with the tables
    of [const.py] they use.

    The Python code works on the values produced by [json.loads]; they are
    embedded as the inductive type [json].  Every operation the code applies
    to such a value ([.get], iteration, [len], indexing, truthiness, the
    subtraction of 273.15) is embedded with the exception it raises on a
    value of the wrong type, so the functions below are total and return a
    [result].  A Python [float] is a primitive binary64 [float], an [int] is
    in [Z], and a [str] is a [string], one character of the [str] for each
    character of the [string].

    The network is a parameter: a [ClientSession] says what each request
    gives, and the coordinator's client says how each of its two calls ends.
    Log records are left out. *)

From Stdlib Require Import ZArith List String Ascii Bool Lia Floats DecimalString.
Import ListNotations.

Set Warnings "-register-all,-inexact-float".

Local Open Scope string_scope.
Local Open Scope list_scope.

(** ** Values of the Python run time *)

(** What [json.loads] returns.  A [JDict] lists the items of the dict in
    insertion order; lookup takes the first item with the key. *)
Inductive json : Type :=
| JNull
| JBool (b : bool)
| JInt (z : Z)
| JFloat (f : float)
| JStr (s : string)
| JList (l : list json)
| JDict (d : list (string * json)).

(** Exceptions, all of them subclasses of [Exception].  Every constructor
    carries [msg], the text [str(err)] gives; the three exceptions raised
    with [raise ... from err] carry the cause as well. *)
Inductive exn : Type :=
| AttributeError (msg : string)
| TypeError (msg : string)
| KeyError (msg : string)
| IndexError (msg : string)
| OverflowError (msg : string)
| ValueError (msg : string)
| OtherException (msg : string)
| TimeoutError (msg : string)
| ClientError (msg : string)                 (* aiohttp.ClientError, any subclass not below *)
| ClientResponseError (status : Z) (msg : string)
| ServerTimeoutError (msg : string)          (* aiohttp: ClientError and TimeoutError *)
| RateLimitExceeded (msg : string) (cause : option exn)
| CannotConnect (msg : string) (cause : option exn)
| UpdateFailed (msg : string) (cause : option exn).

Definition str (err : exn) : string :=
  match err with
  | AttributeError m | TypeError m | KeyError m | IndexError m | OverflowError m
  | ValueError m | OtherException m | TimeoutError m | ClientError m
  | ClientResponseError _ m | ServerTimeoutError m
  | RateLimitExceeded m _ | CannotConnect m _ | UpdateFailed m _ => m
  end.

(** [isinstance] for the classes the [except] clauses name. *)
Definition is_ClientResponseError (err : exn) : bool :=
  match err with ClientResponseError _ _ => true | _ => false end.

Definition is_ClientError (err : exn) : bool :=
  match err with
  | ClientError _ | ClientResponseError _ _ | ServerTimeoutError _ => true
  | _ => false
  end.

Definition is_TimeoutError (err : exn) : bool :=
  match err with TimeoutError _ | ServerTimeoutError _ => true | _ => false end.

Definition is_RateLimitExceeded (err : exn) : bool :=
  match err with RateLimitExceeded _ _ => true | _ => false end.

Definition is_CannotConnect (err : exn) : bool :=
  match err with CannotConnect _ _ => true | _ => false end.

(** The outcome of a call: a value, or a raised exception. *)
Inductive result (A : Type) : Type :=
| Return (a : A)
| Raise (err : exn).

Arguments Return {A} a.
Arguments Raise {A} err.

Definition bind {A B : Type} (r : result A) (k : A -> result B) : result B :=
  match r with
  | Return a => k a
  | Raise err => Raise err
  end.

Notation "x <- c ;; k" := (bind c (fun x => k))
  (at level 61, c at next level, right associativity).

(** ** The operations of Python the client applies to JSON values *)

Module Py.

Definition type_name (v : json) : string :=
  match v with
  | JNull => "NoneType"
  | JBool _ => "bool"
  | JInt _ => "int"
  | JFloat _ => "float"
  | JStr _ => "str"
  | JList _ => "list"
  | JDict _ => "dict"
  end.

Fixpoint assoc {V : Type} (k : string) (d : list (string * V)) : option V :=
  match d with
  | [] => None
  | (k', v) :: rest => if String.eqb k' k then Some v else assoc k rest
  end.

(** [v.get(k, default)]: only a dict has the method. *)
Definition get (v : json) (k : string) (default : json) : result json :=
  match v with
  | JDict d =>
      Return (match assoc k d with Some x => x | None => default end)
  | _ =>
      Raise (AttributeError
               ("'" ++ type_name v ++ "' object has no attribute 'get'"))
  end.

(** [bool(v)]. *)
Definition truthy (v : json) : bool :=
  match v with
  | JNull => false
  | JBool b => b
  | JInt z => negb (Z.eqb z 0)
  | JFloat f => negb (PrimFloat.eqb f 0%float)
  | JStr s => negb (String.eqb s "")
  | JList l => match l with [] => false | _ => true end
  | JDict d => match d with [] => false | _ => true end
  end.

Definition is_none (v : json) : bool :=
  match v with JNull => true | _ => false end.

Fixpoint chars (s : string) : list json :=
  match s with
  | EmptyString => []
  | String c rest => JStr (String c EmptyString) :: chars rest
  end.

(** [for x in v]: the elements of a list, the characters of a str, the keys
    of a dict. *)
Definition iter (v : json) : result (list json) :=
  match v with
  | JList l => Return l
  | JStr s => Return (chars s)
  | JDict d => Return (map (fun kv => JStr (fst kv)) d)
  | _ => Raise (TypeError ("'" ++ type_name v ++ "' object is not iterable"))
  end.

(** [len(v)]. *)
Definition len (v : json) : result nat :=
  match v with
  | JList l => Return (List.length l)
  | JStr s => Return (String.length s)
  | JDict d => Return (List.length d)
  | _ => Raise (TypeError ("object of type '" ++ type_name v ++ "' has no len()"))
  end.

Definition nat_repr (n : nat) : string :=
  NilEmpty.string_of_uint (Nat.to_uint n).

(** [v[i]] for a non-negative index.  A dict parsed from JSON has only
    string keys, so an integer subscript is a KeyError. *)
Definition getitem (v : json) (i : nat) : result json :=
  match v with
  | JList l =>
      match nth_error l i with
      | Some x => Return x
      | None => Raise (IndexError "list index out of range")
      end
  | JStr s =>
      match nth_error (chars s) i with
      | Some x => Return x
      | None => Raise (IndexError "string index out of range")
      end
  | JDict _ => Raise (KeyError (nat_repr i))
  | _ => Raise (TypeError ("'" ++ type_name v ++ "' object is not subscriptable"))
  end.

(** [float(z)] as CPython converts an int in mixed arithmetic: rounded to
    the nearest double, ties to even, OverflowError beyond the range. *)
Definition float_of_int (z : Z) : result float :=
  match SpecFloat.binary_normalize FloatOps.prec FloatOps.emax z 0 false with
  | SpecFloat.S754_infinity _ =>
      Raise (OverflowError "int too large to convert to float")
  | sf => Return (FloatOps.SF2Prim sf)
  end.

(** [v - c] for a float constant [c]. *)
Definition sub_float (v : json) (c : float) : result float :=
  match v with
  | JFloat f => Return (PrimFloat.sub f c)
  | JInt z => f <- float_of_int z ;; Return (PrimFloat.sub f c)
  | JBool b => Return (PrimFloat.sub (if b then 1%float else 0%float) c)
  | _ =>
      Raise (TypeError ("unsupported operand type(s) for -: '"
                          ++ type_name v ++ "' and 'float'"))
  end.

End Py.

(** ** api.py: the client of the DMI Open Data API *)

Module Api.

Definition BASE_URL : string := "https://opendataapi.dmi.dk".
Definition METOBS_URL : string := BASE_URL ++ "/v2/metObs".
Definition FORECAST_URL : string := BASE_URL ++ "/v1/forecastedr".

(** The value of a query parameter.  [QPoint lon lat] is the text
    [POINT(lon lat)] that the f-string of [get_forecast] builds. *)
Inductive qval : Type :=
| QStr (s : string)
| QInt (z : Z)
| QPoint (lon lat : float).

Definition query : Type := list (string * qval).

(** What the code sees of an [aiohttp] response: the status, what
    [raise_for_status()] does ([None]: it returns) and what
    [await response.json()] gives. *)
Record response : Type := {
  status : Z;
  raise_for_status : option exn;
  response_json : result json
}.

(** What entering [session.get(url, params=params)] gives: it raises, or it
    yields a response. *)
Inductive http : Type :=
| Fails (err : exn)
| Responds (r : response).

(** The session the client holds: the behaviour of the network on each
    request. *)
Definition ClientSession : Type := string -> query -> http.

Definition error_status (err : exn) : Z :=
  match err with ClientResponseError s _ => s | _ => 0%Z end.

Definition rate_limit_message : string := "DMI API rate limit exceeded".

(** [DMIApiClient._request]. *)
Definition _request (session : ClientSession) (url : string) (params : query)
  : result json :=
  let attempt : result json :=
    match session url params with
    | Fails err => Raise err
    | Responds r =>
        if Z.eqb (status r) 429 then
          Raise (RateLimitExceeded rate_limit_message None)
        else
          match raise_for_status r with
          | Some err => Raise err
          | None => response_json r
          end
    end in
  match attempt with
  | Return data => Return data
  | Raise err =>
      if is_ClientResponseError err then
        if Z.eqb (error_status err) 429 then
          Raise (RateLimitExceeded rate_limit_message (Some err))
        else
          Raise (CannotConnect ("API error: " ++ str err) (Some err))
      else if is_ClientError err then
        Raise (CannotConnect ("Connection error: " ++ str err) (Some err))
      else
        Raise err
  end.

(** *** get_stations *)

(** The dict [get_stations] builds for a feature. *)
Record station : Type := {
  stationId : json;
  name : json;
  longitude : json;
  latitude : json;
  type : json;
  parameterId : json
}.

(** [coordinates[i] if len(coordinates) > i else None]. *)
Definition coordinate (coordinates : json) (i : nat) : result json :=
  n <- Py.len coordinates ;;
  if Nat.ltb i n then Py.getitem coordinates i else Return JNull.

(** The body of the loop up to the dict display. *)
Definition station_of_feature (feature : json) : result station :=
  props <- Py.get feature "properties" (JDict []) ;;
  geometry <- Py.get feature "geometry" (JDict []) ;;
  coordinates <- Py.get geometry "coordinates" (JList [JNull; JNull]) ;;
  station_id <- Py.get props "stationId" JNull ;;
  station_name <- Py.get props "name" JNull ;;
  lon <- coordinate coordinates 0 ;;
  lat <- coordinate coordinates 1 ;;
  station_type <- Py.get props "type" JNull ;;
  parameter_ids <- Py.get props "parameterId" (JList []) ;;
  Return {| stationId := station_id;
            name := station_name;
            longitude := lon;
            latitude := lat;
            type := station_type;
            parameterId := parameter_ids |}.

(** The loop over the features; [stations] is the list built so far. *)
Fixpoint stations_loop (features : list json) (stations : list station)
  : result (list station) :=
  match features with
  | [] => Return stations
  | feature :: rest =>
      station <- station_of_feature feature ;;
      if Py.truthy (stationId station)
      then stations_loop rest (stations ++ [station])
      else stations_loop rest stations
  end.

Definition stations_query (active_only : bool) : query :=
  let params := [("limit", QInt 1000)] in
  if active_only then params ++ [("status", QStr "Active")] else params.

(** [DMIApiClient.get_stations]. *)
Definition get_stations (session : ClientSession) (active_only : bool)
  : result (list station) :=
  let url := (METOBS_URL ++ "/collections/station/items")%string in
  data <- _request session url (stations_query active_only) ;;
  features <- Py.get data "features" (JList []) ;;
  features <- Py.iter features ;;
  stations_loop features [].

(** *** get_observations *)

(** The dict stored for a parameter. *)
Record reading : Type := {
  value : json;
  observed : json
}.

(** The dict [get_observations] returns, as its items in insertion order.
    The keys are the truthy, hashable values found under ["parameterId"]. *)
Definition record : Type := list (json * reading).

Definition hashable (v : json) : bool :=
  match v with
  | JList _ | JDict _ => false
  | _ => true
  end.

(** A bool or an int as the integer it is. *)
Definition as_int (v : json) : option Z :=
  match v with
  | JBool b => Some (if b then 1%Z else 0%Z)
  | JInt z => Some z
  | _ => None
  end.

(** [f == z], which Python decides exactly. *)
Definition float_eq_int (f : float) (z : Z) : bool :=
  match FloatOps.Prim2SF f with
  | SpecFloat.S754_zero _ => Z.eqb z 0
  | SpecFloat.S754_finite s m e =>
      let m' := SpecFloat.cond_Zopp s (Zpos m) in
      if Z.leb 0 e then Z.eqb z (m' * 2 ^ e) else Z.eqb (z * 2 ^ (- e)) m'
  | _ => false
  end.

(** Whether a dict takes [k1] and [k2] for the same key: [k1 is k2 or
    k1 == k2].  [json.loads] returns one and the same object for every NaN,
    so two NaN keys are identical. *)
Definition key_eqb (k1 k2 : json) : bool :=
  match k1, k2 with
  | JNull, JNull => true
  | JStr s1, JStr s2 => String.eqb s1 s2
  | JFloat f1, JFloat f2 =>
      PrimFloat.eqb f1 f2 || (PrimFloat.is_nan f1 && PrimFloat.is_nan f2)
  | JFloat f, _ =>
      match as_int k2 with Some z => float_eq_int f z | None => false end
  | _, JFloat f =>
      match as_int k1 with Some z => float_eq_int f z | None => false end
  | _, _ =>
      match as_int k1, as_int k2 with
      | Some z1, Some z2 => Z.eqb z1 z2
      | _, _ => false
      end
  end.

(** [d[k]] read, as [d.get(k)]. *)
Fixpoint lookup (d : record) (k : json) : option reading :=
  match d with
  | [] => None
  | (k', v) :: rest => if key_eqb k' k then Some v else lookup rest k
  end.

(** [d[k] = v]: a key already in the dict keeps its place (and the key
    object first stored), a new key goes to the end. *)
Fixpoint setitem (d : record) (k : json) (v : reading) : record :=
  match d with
  | [] => [(k, v)]
  | (k', v') :: rest =>
      if key_eqb k' k then (k', v) :: rest else (k', v') :: setitem rest k v
  end.

(** The loop over the features; [observations] is the dict built so far. *)
Fixpoint observations_loop (features : list json) (observations : record)
  : result record :=
  match features with
  | [] => Return observations
  | feature :: rest =>
      props <- Py.get feature "properties" (JDict []) ;;
      param_id <- Py.get props "parameterId" JNull ;;
      if Py.truthy param_id then
        v <- Py.get props "value" JNull ;;
        o <- Py.get props "observed" JNull ;;
        if hashable param_id then
          observations_loop rest
            (setitem observations param_id {| value := v; observed := o |})
        else
          Raise (TypeError ("unhashable type: '" ++ Py.type_name param_id ++ "'"))
      else
        observations_loop rest observations
  end.

Definition observations_query (station_id : string) : query :=
  [("stationId", QStr station_id); ("period", QStr "latest")].

(** [DMIApiClient.get_observations]. *)
Definition get_observations (session : ClientSession) (station_id : string)
  : result record :=
  let url := (METOBS_URL ++ "/collections/observation/items")%string in
  data <- _request session url (observations_query station_id) ;;
  features <- Py.get data "features" (JList []) ;;
  features <- Py.iter features ;;
  observations_loop features [].

(** *** get_forecast *)

(** The dict built for a time step.  A key the code does not store is
    [None] here; ["temperature"] is always stored as a float. *)
Record forecast_entry : Type := {
  datetime : json;
  temperature : option float;
  wind_speed : option json;
  wind_dir : option json;
  humidity : option json;
  precipitation : option json;
  cloud_cover : option json
}.

(** The dict [get_forecast] returns. *)
Record forecast : Type := {
  hourly : list forecast_entry
}.

(** The six value arrays read from ["ranges"]. *)
Record parameter_data : Type := {
  temperature_data : json;
  wind_speed_data : json;
  wind_dir_data : json;
  humidity_data : json;
  precipitation_data : json;
  cloud_cover_data : json
}.

Definition KELVIN_OFFSET : float := 273.15%float.

(** The test [i < len(data) and data[i] is not None]; where it holds, the
    element [data[i]] the branch then reads. *)
Definition available (data : json) (i : nat) : result (option json) :=
  n <- Py.len data ;;
  if Nat.ltb i n then
    x <- Py.getitem data i ;;
    Return (if Py.is_none x then None else Some x)
  else
    Return None.

(** One pass through the body of the loop. *)
Definition forecast_entry_at (p : parameter_data) (i : nat) (time_value : json)
  : result forecast_entry :=
  t <- available (temperature_data p) i ;;
  celsius <- match t with
             | Some kelvin =>
                 c <- Py.sub_float kelvin KELVIN_OFFSET ;; Return (Some c)
             | None => Return None
             end ;;
  ws <- available (wind_speed_data p) i ;;
  wd <- available (wind_dir_data p) i ;;
  h <- available (humidity_data p) i ;;
  pr <- available (precipitation_data p) i ;;
  cc <- available (cloud_cover_data p) i ;;
  Return {| datetime := time_value;
            temperature := celsius;
            wind_speed := ws;
            wind_dir := wd;
            humidity := h;
            precipitation := pr;
            cloud_cover := cc |}.

(** [for i, time_value in enumerate(time_values)], from index [i] on;
    [hourly_forecast] is the list built so far. *)
Fixpoint forecast_loop (p : parameter_data) (i : nat) (time_values : list json)
    (hourly_forecast : list forecast_entry) : result (list forecast_entry) :=
  match time_values with
  | [] => Return hourly_forecast
  | time_value :: rest =>
      entry <- forecast_entry_at p i time_value ;;
      forecast_loop p (S i) rest (hourly_forecast ++ [entry])
  end.

(** [ranges.get(name, {}).get("values", [])]. *)
Definition range_values (ranges : json) (name : string) : result json :=
  range <- Py.get ranges name (JDict []) ;;
  Py.get range "values" (JList []).

Definition forecast_query (lat lon : float) : query :=
  [("coords", QPoint lon lat);
   ("crs", QStr "crs84");
   ("parameter-name",
    QStr "temperature-2m,wind-speed-10m,wind-dir-10m,relative-humidity,total-precipitation,cloud-cover");
   ("f", QStr "GeoJSON")].

(** The part of [get_forecast] after the request. *)
Definition parse_forecast (data : json) : result forecast :=
  ranges <- Py.get data "ranges" (JDict []) ;;
  domain <- Py.get data "domain" (JDict []) ;;
  axes <- Py.get domain "axes" (JDict []) ;;
  time_axis <- Py.get axes "t" (JDict []) ;;
  time_values <- Py.get time_axis "values" (JList []) ;;
  td <- range_values ranges "temperature-2m" ;;
  wsd <- range_values ranges "wind-speed-10m" ;;
  wdd <- range_values ranges "wind-dir-10m" ;;
  hd <- range_values ranges "relative-humidity" ;;
  pd <- range_values ranges "total-precipitation" ;;
  ccd <- range_values ranges "cloud-cover" ;;
  time_values <- Py.iter time_values ;;
  hourly_forecast <-
    forecast_loop {| temperature_data := td;
                     wind_speed_data := wsd;
                     wind_dir_data := wdd;
                     humidity_data := hd;
                     precipitation_data := pd;
                     cloud_cover_data := ccd |} 0 time_values [] ;;
  Return {| hourly := hourly_forecast |}.

(** [DMIApiClient.get_forecast]. *)
Definition get_forecast (session : ClientSession) (lat lon : float)
  : result forecast :=
  let url := (FORECAST_URL ++ "/collections/harmonie_dini_sf/position")%string in
  data <- _request session url (forecast_query lat lon) ;;
  parse_forecast data.

(** *** test_connection *)

(** [DMIApiClient.test_connection]: [except Exception] takes whatever
    [_request] raised. *)
Definition test_connection (session : ClientSession) : result bool :=
  let url := (METOBS_URL ++ "/collections/station/items")%string in
  match _request session url [("limit", QInt 1)] with
  | Return _ => Return true
  | Raise err =>
      Raise (CannotConnect ("Connection test failed: " ++ str err) (Some err))
  end.

End Api.

(** ** coordinator.py: the refresh cycle *)

Module Coordinator.

(** What [await]ing a call of the client gives inside
    [async with async_timeout.timeout(30)]: the call completes (it returns
    or raises), or the deadline passes while it is pending.  In the second
    case asyncio cancels the task; the cancellation is not an [Exception],
    so no [except Exception] on the way stops it, and the context manager
    turns it into a [TimeoutError]. *)
Inductive awaited (A : Type) : Type :=
| Completed (r : result A)
| DeadlineElapsed.

Arguments Completed {A} r.
Arguments DeadlineElapsed {A}.

(** [self.api], the two methods the cycle calls. *)
Record api_client : Type := {
  get_observations : string -> awaited Api.record;
  get_forecast : float -> float -> awaited Api.forecast
}.

(** The attributes of the coordinator that the cycle reads. *)
Record coordinator : Type := {
  api : api_client;
  station_id : string;
  latitude : option float;
  longitude : option float;
  include_forecast : bool
}.

(** The entry the coordinator is built from: [config_entry.data] and
    [config_entry.options], a missing key as [None]. *)
Record config_entry : Type := {
  CONF_STATION_ID : option string;
  CONF_LATITUDE : option float;
  CONF_LONGITUDE : option float;
  CONF_INCLUDE_FORECAST : option bool
}.

(** [DMIDataUpdateCoordinator.__init__], the attributes above. *)
Definition __init__ (entry : config_entry) (api_client : api_client)
  : coordinator :=
  {| api := api_client;
     station_id := match CONF_STATION_ID entry with Some s => s | None => "" end;
     latitude := CONF_LATITUDE entry;
     longitude := CONF_LONGITUDE entry;
     include_forecast :=
       match CONF_INCLUDE_FORECAST entry with Some b => b | None => true end |}.

(** The values the returned dict holds. *)
Inductive snapshot_value : Type :=
| Observations (observations : Api.record)
| Forecast (forecast : Api.forecast)
| PyNone
| Datetime (t : Z).

(** The dict [_async_update_data] returns, as its items in order. *)
Definition snapshot : Type := list (string * snapshot_value).

(** The block under [async with async_timeout.timeout(30)]. *)
Definition fetch (self : coordinator) (utcnow : Z) : awaited snapshot :=
  match get_observations (api self) (station_id self) with
  | DeadlineElapsed => DeadlineElapsed
  | Completed (Raise err) => Completed (Raise err)
  | Completed (Return observations) =>
      let data (forecast : snapshot_value) : awaited snapshot :=
        Completed (Return [("observations", Observations observations);
                           ("forecast", forecast);
                           ("last_updated", Datetime utcnow)]) in
      match include_forecast self, latitude self, longitude self with
      | true, Some lat, Some lon =>
          match get_forecast (api self) lat lon with
          | DeadlineElapsed => DeadlineElapsed
          | Completed (Return forecast) => data (Forecast forecast)
          | Completed (Raise err) =>
              (* except Exception: a warning is logged, forecast stays None *)
              data PyNone
          end
      | _, _, _ => data PyNone
      end
  end.

(** Leaving the [async with]: a deadline that passed raises
    [TimeoutError()]. *)
Definition timeout {A : Type} (block : awaited A) : result A :=
  match block with
  | Completed r => r
  | DeadlineElapsed => Raise (TimeoutError "")
  end.

(** [DMIDataUpdateCoordinator._async_update_data]; [utcnow] is what
    [dt_util.utcnow()] reads. *)
Definition _async_update_data (self : coordinator) (utcnow : Z)
  : result snapshot :=
  match timeout (fetch self utcnow) with
  | Return data => Return data
  | Raise err =>
      if is_RateLimitExceeded err then
        Raise (UpdateFailed ("Rate limit exceeded, will retry: " ++ str err)
                            (Some err))
      else if is_CannotConnect err then
        Raise (UpdateFailed ("Connection error: " ++ str err) (Some err))
      else if is_TimeoutError err then
        Raise (UpdateFailed ("Timeout fetching data: " ++ str err) (Some err))
      else
        Raise err
  end.

(** The coordinator's client when it is a [DMIApiClient] on [session];
    [obs_in_time] and [fc_in_time] say whether each request ends before the
    deadline. *)
Definition DMIApiClient (session : Api.ClientSession)
    (obs_in_time fc_in_time : bool) : api_client :=
  {| get_observations := fun station_id =>
       if obs_in_time
       then Completed (Api.get_observations session station_id)
       else DeadlineElapsed;
     get_forecast := fun lat lon =>
       if fc_in_time
       then Completed (Api.get_forecast session lat lon)
       else DeadlineElapsed |}.

End Coordinator.

(** ** The data the entities read *)

(** [coordinator.data] is [None] until a cycle has returned, and the last
    snapshot returned after that.  The entities apply [.get] to the values
    they find in it; the operations below do that on the values a snapshot
    can hold. *)
Module Data.

Import Coordinator.

(** What [container.get(key, {})] can give on a value of a snapshot: a
    reading, the list under ["hourly"] of a forecast, or the default [{}]. *)
Inductive item : Type :=
| Reading (r : Api.reading)
| Entries (l : list Api.forecast_entry)
| Empty.

(** [data.get(key, default)] on a snapshot. *)
Definition get (data : snapshot) (key : string) (default : snapshot_value)
  : snapshot_value :=
  match Py.assoc key data with
  | Some v => v
  | None => default
  end.

(** [container.get(key, {})]. *)
Definition get_item (container : snapshot_value) (key : string) : result item :=
  match container with
  | Observations observations =>
      Return (match Api.lookup observations (JStr key) with
              | Some r => Reading r
              | None => Empty
              end)
  | Forecast f =>
      Return (if String.eqb key "hourly" then Entries (Api.hourly f) else Empty)
  | PyNone =>
      Raise (AttributeError "'NoneType' object has no attribute 'get'")
  | Datetime _ =>
      Raise (AttributeError "'datetime.datetime' object has no attribute 'get'")
  end.

(** [bool(x)]: a reading has its two keys, so it is not empty. *)
Definition truthy (x : item) : bool :=
  match x with
  | Reading _ => true
  | Entries l => match l with [] => false | _ => true end
  | Empty => false
  end.

(** [x.get(k)]. *)
Definition item_get (x : item) (k : string) : result json :=
  match x with
  | Reading r =>
      Return (if String.eqb k "value" then Api.value r
              else if String.eqb k "observed" then Api.observed r
              else JNull)
  | Entries _ => Raise (AttributeError "'list' object has no attribute 'get'")
  | Empty => Return JNull
  end.

(** [int(f)] for a float: truncation towards zero. *)
Definition int_of_float (f : float) : result Z :=
  match FloatOps.Prim2SF f with
  | SpecFloat.S754_nan =>
      Raise (ValueError "cannot convert float NaN to integer")
  | SpecFloat.S754_infinity _ =>
      Raise (OverflowError "cannot convert float infinity to integer")
  | SpecFloat.S754_zero _ => Return 0%Z
  | SpecFloat.S754_finite s m e =>
      Return (SpecFloat.cond_Zopp s
                (if Z.leb 0 e then Zpos m * 2 ^ e else Zpos m / 2 ^ (- e)))%Z
  end.

Section Parsing.

(** [int(s)] and [float(s)] for a str: the number read, or [None] where
    Python raises ValueError. *)
Variable int_of_str : string -> option Z.
Variable float_of_str : string -> option float.

(** [int(v)]. *)
Definition int (v : json) : result Z :=
  match v with
  | JBool b => Return (if b then 1%Z else 0%Z)
  | JInt z => Return z
  | JFloat f => int_of_float f
  | JStr s =>
      match int_of_str s with
      | Some z => Return z
      | None =>
          Raise (ValueError ("invalid literal for int() with base 10: '" ++ s ++ "'"))
      end
  | _ =>
      Raise (TypeError
               ("int() argument must be a string, a bytes-like object or a real number, not '"
                  ++ Py.type_name v ++ "'"))
  end.

(** [float(v)]. *)
Definition to_float (v : json) : result float :=
  match v with
  | JBool b => Return (if b then 1%float else 0%float)
  | JInt z => Py.float_of_int z
  | JFloat f => Return f
  | JStr s =>
      match float_of_str s with
      | Some f => Return f
      | None =>
          Raise (ValueError ("could not convert string to float: '" ++ s ++ "'"))
      end
  | _ =>
      Raise (TypeError
               ("float() argument must be a string or a real number, not '"
                  ++ Py.type_name v ++ "'"))
  end.

End Parsing.

(** What [except (ValueError, TypeError)] catches. *)
Definition is_ValueError_or_TypeError (err : exn) : bool :=
  match err with
  | ValueError _ | TypeError _ => true
  | _ => false
  end.

(** [f < n] for a float and an int, which Python decides exactly; a NaN is
    below nothing. *)
Definition float_lt_int (f : float) (n : Z) : bool :=
  match FloatOps.Prim2SF f with
  | SpecFloat.S754_nan => false
  | SpecFloat.S754_infinity s => s
  | SpecFloat.S754_zero _ => Z.ltb 0 n
  | SpecFloat.S754_finite s m e =>
      let m' := SpecFloat.cond_Zopp s (Zpos m) in
      if Z.leb 0 e then Z.ltb (m' * 2 ^ e) n else Z.ltb m' (n * 2 ^ (- e))
  end.

(** The three conditions guessed from a cloud cover [cover], a float. *)
Definition condition_of_cover (cover : float) : string :=
  if float_lt_int cover 20 then "sunny"
  else if float_lt_int cover 60 then "partlycloudy"
  else "cloudy".

End Data.

(** ** const.py: the tables *)

Module Const.

(** [CONDITION_MAP]: WMO weather code to condition. *)
Definition CONDITION_MAP : list (Z * string) :=
  [(0, "sunny"); (1, "sunny"); (2, "partlycloudy"); (3, "cloudy");
   (45, "fog"); (48, "fog");
   (51, "rainy"); (53, "rainy"); (55, "rainy"); (56, "rainy"); (57, "rainy");
   (61, "rainy"); (63, "rainy"); (65, "pouring");
   (66, "snowy-rainy"); (67, "snowy-rainy");
   (71, "snowy"); (73, "snowy"); (75, "snowy"); (77, "snowy");
   (80, "rainy"); (81, "rainy"); (82, "pouring");
   (85, "snowy"); (86, "snowy");
   (95, "lightning-rainy"); (96, "hail"); (99, "hail")]%Z.

(** [CONDITION_MAP.get(code, default)]. *)
Fixpoint get (table : list (Z * string)) (code : Z) (default : string)
  : string :=
  match table with
  | [] => default
  | (c, condition) :: rest =>
      if Z.eqb c code then condition else get rest code default
  end.

(** The fields of a [SensorEntityDescription] that the tables set. *)
Record SensorEntityDescription : Type := {
  key : string;
  name : string;
  native_unit_of_measurement : string;
  device_class : option string;
  state_class : string;
  icon : option string
}.

Definition measurement (key name unit : string) (device_class : option string)
    (icon : option string) : SensorEntityDescription :=
  {| key := key;
     name := name;
     native_unit_of_measurement := unit;
     device_class := device_class;
     state_class := "measurement";
     icon := icon |}.

(** [SENSOR_TYPES]; the units are the UTF-8 texts of the source. *)
Definition SENSOR_TYPES : list SensorEntityDescription :=
  [measurement "temp_dry" "Temperature" "°C" (Some "temperature") None;
   measurement "temp_dew" "Dew Point" "°C" (Some "temperature") None;
   measurement "humidity" "Humidity" "%" (Some "humidity") None;
   measurement "pressure_at_sea" "Pressure" "hPa"
     (Some "atmospheric_pressure") None;
   measurement "wind_speed" "Wind Speed" "m/s" (Some "wind_speed") None;
   measurement "wind_max" "Wind Gust" "m/s" (Some "wind_speed") None;
   measurement "wind_dir" "Wind Direction" "°" None (Some "mdi:compass-outline");
   measurement "precip_past1h" "Precipitation" "mm" (Some "precipitation") None;
   measurement "visibility" "Visibility" "m" (Some "distance") None;
   measurement "cloud_cover" "Cloud Cover" "%" None (Some "mdi:cloud");
   measurement "radia_glob" "Solar Radiation" "W/m²" (Some "irradiance") None].

End Const.

(** ** weather.py: the weather entity *)

Module Weather.

Import Coordinator.

(** [DMIWeather.__init__]: the unique id of the entity. *)
Definition unique_id (entry_id : string) : string := entry_id ++ "_weather".

(** [DMIWeather._observations]. *)
Definition _observations (data : option snapshot) : snapshot_value :=
  match data with
  | None => Observations []
  | Some data => Data.get data "observations" (Observations [])
  end.

(** [DMIWeather._get_observation_value]. *)
Definition _get_observation_value (data : option snapshot) (key : string)
  : result json :=
  obs <- Data.get_item (_observations data) key ;;
  if Data.truthy obs then Data.item_get obs "value" else Return JNull.

Section Parsing.

Variable int_of_str : string -> option Z.
Variable float_of_str : string -> option float.

(** The second half of [condition]: the guess from the cloud cover. *)
Definition condition_from_cloud_cover (data : option snapshot)
  : result string :=
  cloud_cover <- _get_observation_value data "cloud_cover" ;;
  if Py.is_none cloud_cover then Return "cloudy"
  else
    match Data.to_float float_of_str cloud_cover with
    | Return cover => Return (Data.condition_of_cover cover)
    | Raise err =>
        if Data.is_ValueError_or_TypeError err then Return "cloudy"
        else Raise err
    end.

(** [DMIWeather.condition]. *)
Definition condition (data : option snapshot) : result string :=
  weather_code <- _get_observation_value data "weather" ;;
  if Py.is_none weather_code then condition_from_cloud_cover data
  else
    match Data.int int_of_str weather_code with
    | Return code => Return (Const.get Const.CONDITION_MAP code "cloudy")
    | Raise err =>
        if Data.is_ValueError_or_TypeError err
        then condition_from_cloud_cover data
        else Raise err
    end.

(** [DMIWeather.native_visibility]; [None] is [Return None]. *)
Definition native_visibility (data : option snapshot) : result (option float) :=
  visibility_m <- _get_observation_value data "visibility" ;;
  if Py.is_none visibility_m then Return None
  else
    match Data.to_float float_of_str visibility_m with
    | Return m => Return (Some (PrimFloat.div m 1000))
    | Raise err =>
        if Data.is_ValueError_or_TypeError err then Return None else Raise err
    end.

End Parsing.

(** [native_temperature], [humidity], [native_pressure],
    [native_wind_speed] and [wind_bearing]. *)
Definition native_temperature (data : option snapshot) : result json :=
  _get_observation_value data "temp_dry".

Definition humidity (data : option snapshot) : result json :=
  _get_observation_value data "humidity".

Definition native_pressure (data : option snapshot) : result json :=
  _get_observation_value data "pressure_at_sea".

Definition native_wind_speed (data : option snapshot) : result json :=
  _get_observation_value data "wind_speed".

Definition wind_bearing (data : option snapshot) : result json :=
  _get_observation_value data "wind_dir".

(** The [Forecast] dict of the host, the keys the entity sets; a key that
    is not set is [None]. *)
Module Host.

Record Forecast : Type := {
  datetime : json;
  native_temperature : option float;
  native_wind_speed : option json;
  wind_bearing : option json;
  humidity : option json;
  native_precipitation : option json;
  condition : option string
}.

End Host.

(** [cloud < n] for the cloud cover of an entry and an int. *)
Definition lt (cloud : json) (n : Z) : result bool :=
  match cloud with
  | JBool b => Return (Z.ltb (if b then 1 else 0) n)
  | JInt z => Return (Z.ltb z n)
  | JFloat f => Return (Data.float_lt_int f n)
  | _ =>
      Raise (TypeError ("'<' not supported between instances of '"
                          ++ Py.type_name cloud ++ "' and 'int'"))
  end.

(** The condition stored for an entry that has a cloud cover. *)
Definition condition_of_cloud (cloud : json) : result string :=
  sunny <- lt cloud 20 ;;
  if sunny : bool then Return "sunny"
  else
    partly <- lt cloud 60 ;;
    if partly : bool then Return "partlycloudy" else Return "cloudy".

(** The body of the loop of [async_forecast_hourly]. *)
Definition forecast_of_entry (entry : Api.forecast_entry)
  : result Host.Forecast :=
  cond <- match Api.cloud_cover entry with
          | Some cloud => c <- condition_of_cloud cloud ;; Return (Some c)
          | None => Return None
          end ;;
  Return {| Host.datetime := Api.datetime entry;
            Host.native_temperature := Api.temperature entry;
            Host.native_wind_speed := Api.wind_speed entry;
            Host.wind_bearing := Api.wind_dir entry;
            Host.humidity := Api.humidity entry;
            Host.native_precipitation := Api.precipitation entry;
            Host.condition := cond |}.

Fixpoint forecasts_loop (hourly : list Api.forecast_entry)
    (forecasts : list Host.Forecast) : result (list Host.Forecast) :=
  match hourly with
  | [] => Return forecasts
  | entry :: rest =>
      forecast <- forecast_of_entry entry ;;
      forecasts_loop rest (forecasts ++ [forecast])
  end.

(** [DMIWeather.async_forecast_hourly]; [None] is [Return None]. *)
Definition async_forecast_hourly (data : option snapshot)
  : result (option (list Host.Forecast)) :=
  match data with
  | None => Return None
  | Some data =>
      match Data.get data "forecast" PyNone with
      | PyNone => Return None
      | Forecast f =>
          match Api.hourly f with
          | [] => Return None
          | hourly => l <- forecasts_loop hourly [] ;; Return (Some l)
          end
      | Observations observations =>
          match Api.lookup observations (JStr "hourly") with
          | None => Return None
          | Some _ =>
              (* the entries are the keys of a reading, which are str *)
              Raise (AttributeError "'str' object has no attribute 'get'")
          end
      | Datetime _ =>
          Raise (AttributeError
                   "'datetime.datetime' object has no attribute 'get'")
      end
  end.

End Weather.

(** ** sensor.py: the sensor entities *)

Module Sensor.

Import Coordinator.

(** What a [DMISensor] holds besides the coordinator. *)
Record DMISensor : Type := {
  entity_description : Const.SensorEntityDescription;
  unique_id : string
}.

(** [DMISensor.__init__]. *)
Definition __init__ (entry_id : string)
    (description : Const.SensorEntityDescription) : DMISensor :=
  {| entity_description := description;
     unique_id := entry_id ++ "_" ++ Const.key description |}.

(** [set(observations.keys())], as the list of the keys. *)
Definition keys_of (observations : snapshot_value) : result (list json) :=
  match observations with
  | Observations r => Return (map fst r)
  | Forecast _ => Return [JStr "hourly"]
  | PyNone =>
      Raise (AttributeError "'NoneType' object has no attribute 'keys'")
  | Datetime _ =>
      Raise (AttributeError "'datetime.datetime' object has no attribute 'keys'")
  end.

(** [key in available_params]. *)
Definition mem (key : string) (available_params : list json) : bool :=
  existsb (fun k => Api.key_eqb k (JStr key)) available_params.

(** The loop over [SENSOR_TYPES]. *)
Fixpoint entities_loop (entry_id : string) (available_params : list json)
    (descriptions : list Const.SensorEntityDescription)
    (entities : list DMISensor) : list DMISensor :=
  match descriptions with
  | [] => entities
  | description :: rest =>
      entities_loop entry_id available_params rest
        (if mem (Const.key description) available_params
         then entities ++ [__init__ entry_id description]
         else entities)
  end.

(** [async_setup_entry]: the entities handed to [async_add_entities].  An
    empty dict is falsy like [None]. *)
Definition async_setup_entry (data : option snapshot) (entry_id : string)
  : result (list DMISensor) :=
  let observations :=
    match data with
    | None | Some [] => Observations []
    | Some data => Data.get data "observations" (Observations [])
    end in
  available_params <- keys_of observations ;;
  Return (entities_loop entry_id available_params Const.SENSOR_TYPES []).

(** [DMISensor.native_value]. *)
Definition native_value (self : DMISensor) (data : option snapshot)
  : result json :=
  match data with
  | None => Return JNull
  | Some data =>
      let observations := Data.get data "observations" (Observations []) in
      param_data <- Data.get_item observations
                      (Const.key (entity_description self)) ;;
      if Data.truthy param_data then Data.item_get param_data "value"
      else Return JNull
  end.

(** The values of the attributes. *)
Inductive attribute : Type :=
| OfJson (v : json)
| Text (s : string).

Section Isoformat.

(** [datetime.isoformat]. *)
Variable isoformat : Z -> string.

(** [DMISensor.extra_state_attributes], the dict as its items in order. *)
Definition extra_state_attributes (self : DMISensor) (data : option snapshot)
  : result (list (string * attribute)) :=
  match data with
  | None => Return []
  | Some data =>
      let observations := Data.get data "observations" (Observations []) in
      param_data <- Data.get_item observations
                      (Const.key (entity_description self)) ;;
      attributes <-
        (if Data.truthy param_data then
           observed <- Data.item_get param_data "observed" ;;
           if Py.truthy observed
           then Return [("observation_time", OfJson observed)]
           else Return []
         else Return []) ;;
      match Data.get data "last_updated" PyNone with
      | Datetime t =>
          Return (attributes ++ [("last_updated", Text (isoformat t))])
      | PyNone => Return attributes
      | Observations [] => Return attributes
      | Observations _ =>
          Raise (AttributeError "'dict' object has no attribute 'isoformat'")
      | Forecast _ =>
          Raise (AttributeError "'dict' object has no attribute 'isoformat'")
      end
  end.

End Isoformat.

End Sensor.

(** ** The documents of the API, as the specification reads them *)

Module Feed.

(** [v[k]] where [v] is an object that has the member. *)
Definition member (v : json) (k : string) : option json :=
  match v with
  | JDict d => Py.assoc k d
  | _ => None
  end.

(** The member, or [default] when there is none. *)
Definition member_or (v : json) (k : string) (default : json) : json :=
  match member v k with
  | Some x => x
  | None => default
  end.

Definition is_dict (v : json) : bool :=
  match v with JDict _ => true | _ => false end.

Definition is_list (v : json) : bool :=
  match v with JList _ => true | _ => false end.

(** A JSON null, which the client does not tell from a missing member, or
    a string. *)
Definition null_or_string (v : json) : bool :=
  match v with JNull | JStr _ => true | _ => false end.

(** Missing, null or the empty string. *)
Definition absent_or_empty (v : json) : bool :=
  match v with
  | JNull => true
  | JStr s => String.eqb s ""
  | _ => false
  end.

Definition properties (feature : json) : json :=
  member_or feature "properties" (JDict []).

(** A response with a 2xx status and a JSON body. *)
Definition ok (data : json) : Api.http :=
  Api.Responds {| Api.status := 200;
                  Api.raise_for_status := None;
                  Api.response_json := Return data |}.

(** The session answers the request with a response that is not an error
    and whose body parses to [data]. *)
Definition answers (session : Api.ClientSession) (url : string)
    (params : Api.query) (data : json) : Prop :=
  exists r,
    session url params = Api.Responds r /\
    Api.status r <> 429%Z /\
    Api.raise_for_status r = None /\
    Api.response_json r = Return data.

(** A session that answers every request with [h]. *)
Definition always (h : Api.http) : Api.ClientSession := fun _ _ => h.

(** *** Observation features *)

Definition parameter_id (feature : json) : json :=
  member_or (properties feature) "parameterId" JNull.

Definition reading_of (feature : json) : Api.reading :=
  {| Api.value := member_or (properties feature) "value" JNull;
     Api.observed := member_or (properties feature) "observed" JNull |}.

(** A feature of the observation collection: an object whose properties
    are an object and whose parameterId, if any, is a string. *)
Definition observation_feature (feature : json) : bool :=
  is_dict feature && is_dict (properties feature)
  && null_or_string (parameter_id feature).

(** The reading of the last feature of the feed that reports parameter
    [p]. *)
Fixpoint last_reading (p : string) (features : list json)
  : option Api.reading :=
  match features with
  | [] => None
  | feature :: rest =>
      match last_reading p rest with
      | Some r => Some r
      | None =>
          if Api.key_eqb (parameter_id feature) (JStr p)
          then Some (reading_of feature)
          else None
      end
  end.

(** C1 as the specification states it: the entry kept for a parameter has
    the latest [observed] timestamp among the features of that parameter.
    The timestamps are ISO 8601 texts in UTC, ordered as strings. *)
Definition retains_latest (features : list json) (r : Api.record) : Prop :=
  forall feature p t,
    In feature features ->
    parameter_id feature = JStr p ->
    Api.observed (reading_of feature) = JStr t ->
    exists kept t',
      Api.lookup r (JStr p) = Some kept /\
      Api.observed kept = JStr t' /\
      String.leb t t' = true.

Definition observation (p : string) (v : float) (t : string) : json :=
  JDict [("properties",
          JDict [("parameterId", JStr p);
                 ("value", JFloat v);
                 ("observed", JStr t)])].

(** The feed of [test_get_observations_keeps_latest], and the same feed with
    the two readings in the other order. *)
Definition ascending_feed : list json :=
  [observation "temp_dry" 14.0 "2024-01-15T11:00:00Z";
   observation "temp_dry" 15.5 "2024-01-15T12:00:00Z"].

Definition descending_feed : list json :=
  [observation "temp_dry" 15.5 "2024-01-15T12:00:00Z";
   observation "temp_dry" 14.0 "2024-01-15T11:00:00Z"].

Definition collection (features : list json) : json :=
  JDict [("features", JList features)].

(** *** Station features *)

Definition geometry (feature : json) : json :=
  member_or feature "geometry" (JDict []).

Definition coordinates (feature : json) : json :=
  member_or (geometry feature) "coordinates" (JList [JNull; JNull]).

Definition station_id (feature : json) : json :=
  member_or (properties feature) "stationId" JNull.

(** The element of an array at [i], null past its end. *)
Definition element (v : json) (i : nat) : json :=
  match v with
  | JList l => nth i l JNull
  | _ => JNull
  end.

(** The Station of a feature. *)
Definition station_of (feature : json) : Api.station :=
  {| Api.stationId := station_id feature;
     Api.name := member_or (properties feature) "name" JNull;
     Api.longitude := element (coordinates feature) 0;
     Api.latitude := element (coordinates feature) 1;
     Api.type := member_or (properties feature) "type" JNull;
     Api.parameterId := member_or (properties feature) "parameterId" (JList []) |}.

(** A feature of the station collection: an object whose properties and
    geometry are objects, whose coordinates are an array and whose
    stationId, if any, is a string. *)
Definition station_feature (feature : json) : bool :=
  is_dict feature && is_dict (properties feature)
  && is_dict (geometry feature) && is_list (coordinates feature)
  && null_or_string (station_id feature).

Definition has_station_id (feature : json) : bool :=
  negb (absent_or_empty (station_id feature)).

(** The feed of [test_get_stations_filters_invalid]. *)
Definition two_stations : list json :=
  [JDict [("properties", JDict [("name", JStr "Test Station")]);
          ("geometry", JDict [("coordinates", JList [JFloat 10.0; JFloat 55.0])])];
   JDict [("properties", JDict [("stationId", JStr "12345");
                                ("name", JStr "Valid Station")]);
          ("geometry", JDict [("coordinates", JList [JFloat 11.0; JFloat 56.0])])]].

(** *** Forecast documents *)

Definition ranges (data : json) : json :=
  member_or data "ranges" (JDict []).

Definition range (data : json) (name : string) : json :=
  member_or (ranges data) name (JDict []).

(** [ranges.<name>.values], the empty array when any part is missing. *)
Definition range_values (data : json) (name : string) : json :=
  member_or (range data name) "values" (JList []).

Definition domain (data : json) : json :=
  member_or data "domain" (JDict []).

Definition axes (data : json) : json :=
  member_or (domain data) "axes" (JDict []).

Definition t_axis (data : json) : json :=
  member_or (axes data) "t" (JDict []).

(** [domain.axes.t.values]. *)
Definition time_values (data : json) : json :=
  member_or (t_axis data) "values" (JList []).

(** The six parameters of the forecast request. *)
Inductive parameter : Type :=
| Temperature | WindSpeed | WindDir | Humidity | Precipitation | CloudCover.

Definition parameters : list parameter :=
  [Temperature; WindSpeed; WindDir; Humidity; Precipitation; CloudCover].

(** The name of the parameter upstream. *)
Definition range_name (prm : parameter) : string :=
  match prm with
  | Temperature => "temperature-2m"
  | WindSpeed => "wind-speed-10m"
  | WindDir => "wind-dir-10m"
  | Humidity => "relative-humidity"
  | Precipitation => "total-precipitation"
  | CloudCover => "cloud-cover"
  end.

(** The field of the parameter in a Forecast Entry. *)
Definition field (prm : parameter) (e : Api.forecast_entry) : option json :=
  match prm with
  | Temperature => option_map JFloat (Api.temperature e)
  | WindSpeed => Api.wind_speed e
  | WindDir => Api.wind_dir e
  | Humidity => Api.humidity e
  | Precipitation => Api.precipitation e
  | CloudCover => Api.cloud_cover e
  end.

Definition carries (prm : parameter) (e : Api.forecast_entry) : bool :=
  match field prm e with Some _ => true | None => false end.

(** The value arrays of a document. *)
Definition arrays (data : json) : Api.parameter_data :=
  {| Api.temperature_data := range_values data (range_name Temperature);
     Api.wind_speed_data := range_values data (range_name WindSpeed);
     Api.wind_dir_data := range_values data (range_name WindDir);
     Api.humidity_data := range_values data (range_name Humidity);
     Api.precipitation_data := range_values data (range_name Precipitation);
     Api.cloud_cover_data := range_values data (range_name CloudCover) |}.

(** The elements of an array. *)
Definition elements (v : json) : list json :=
  match v with
  | JList l => l
  | _ => []
  end.

(** A JSON number as the double Python computes with. *)
Definition as_float (v : json) : option float :=
  match v with
  | JFloat f => Some f
  | JInt z =>
      match Py.float_of_int z with
      | Return f => Some f
      | Raise _ => None
      end
  | JBool b => Some (if b then 1%float else 0%float)
  | _ => None
  end.

Definition null_or_number (v : json) : bool :=
  match v with
  | JNull => true
  | _ => match as_float v with Some _ => true | None => false end
  end.

(** A forecast document: an object; [ranges], each range in it, [domain],
    [axes] and [t], where present, are objects; the value arrays and the
    time axis, where present, are arrays; a temperature is a number or
    null. *)
Definition forecast_document (data : json) : bool :=
  is_dict data && is_dict (ranges data)
  && forallb (fun prm => is_dict (range data (range_name prm))
                         && is_list (range_values data (range_name prm)))
       parameters
  && is_dict (domain data) && is_dict (axes data) && is_dict (t_axis data)
  && is_list (time_values data)
  && forallb null_or_number (elements (range_values data (range_name Temperature))).

Definition forecast_url : string :=
  (Api.FORECAST_URL ++ "/collections/harmonie_dini_sf/position")%string.

(** The document of [test_get_forecast_handles_missing_data]. *)
Definition temperature_only : json :=
  JDict [("domain",
          JDict [("axes",
                  JDict [("t", JDict [("values", JList [JStr "2024-01-15T12:00:00Z"])])])]);
         ("ranges",
          JDict [("temperature-2m", JDict [("values", JList [JFloat 288.65])])])].

(** What the client makes of [temperature_only]. *)
Definition temperature_only_forecast : Api.forecast :=
  {| Api.hourly :=
       [{| Api.datetime := JStr "2024-01-15T12:00:00Z";
           Api.temperature := Some (PrimFloat.sub 288.65 273.15);
           Api.wind_speed := None;
           Api.wind_dir := None;
           Api.humidity := None;
           Api.precipitation := None;
           Api.cloud_cover := None |}] |}.

(** *** Feature collections *)

(** [data["features"]], the empty array when the body has no such
    member. *)
Definition features (data : json) : json :=
  member_or data "features" (JList []).

(** The body of the observation request: an object whose features, if
    any, are an array of observation features.  It may have any other
    member. *)
Definition observation_collection (data : json) : bool :=
  is_dict data && is_list (features data)
  && forallb observation_feature (elements (features data)).

(** The body of the station request, likewise. *)
Definition station_collection (data : json) : bool :=
  is_dict data && is_list (features data)
  && forallb station_feature (elements (features data)).

(** A GeoJSON FeatureCollection as the API sends it, with the members that
    come along with the features (see [MOCK_OBSERVATIONS_RESPONSE]). *)
Definition feature_collection (features : list json) : json :=
  JDict [("type", JStr "FeatureCollection");
         ("features", JList features);
         ("timeStamp", JStr "2024-01-15T12:00:09Z");
         ("numberReturned", JInt (Z.of_nat (List.length features)));
         ("links", JList [])].

(** Two features report the same parameter. *)
Definition same_parameter (feature other : json) : bool :=
  match parameter_id feature, parameter_id other with
  | JStr p, JStr q => String.eqb p q
  | _, _ => false
  end.

(** Both features are timestamped and [later] is not observed before
    [feature]. *)
Definition not_before (feature later : json) : bool :=
  match Api.observed (reading_of feature), Api.observed (reading_of later) with
  | JStr t, JStr t' => String.leb t t'
  | _, _ => false
  end.

(** The feed lists the readings of each parameter in ascending [observed]
    order. *)
Fixpoint ascending (features : list json) : bool :=
  match features with
  | [] => true
  | feature :: rest =>
      forallb (fun later =>
                 negb (same_parameter feature later) || not_before feature later)
        rest
      && ascending rest
  end.

End Feed.

(** ** The failures of the client, as the specification reads them *)

Module Failure.

(** The two conditions of the specification. *)
Inductive condition : Type := RateLimit | Connectivity.

Definition classify (err : exn) : option condition :=
  match err with
  | RateLimitExceeded _ _ => Some RateLimit
  | CannotConnect _ _ => Some Connectivity
  | _ => None
  end.

(** The exception a call raised, if any. *)
Definition raised {A : Type} (r : result A) : option exn :=
  match r with
  | Raise err => Some err
  | Return _ => None
  end.

(** The three operations that fetch data, with their arguments. *)
Inductive operation : Type :=
| GetStations (active_only : bool)
| GetObservations (station_id : string)
| GetForecast (lat lon : float).

Definition url_of (op : operation) : string :=
  match op with
  | GetStations _ => Api.METOBS_URL ++ "/collections/station/items"
  | GetObservations _ => Api.METOBS_URL ++ "/collections/observation/items"
  | GetForecast _ _ => Feed.forecast_url
  end.

Definition query_of (op : operation) : Api.query :=
  match op with
  | GetStations active_only => Api.stations_query active_only
  | GetObservations station_id => Api.observations_query station_id
  | GetForecast lat lon => Api.forecast_query lat lon
  end.

(** What the operation raises on a session. *)
Definition failure_of (session : Api.ClientSession) (op : operation)
  : option exn :=
  match op with
  | GetStations active_only => raised (Api.get_stations session active_only)
  | GetObservations station_id =>
      raised (Api.get_observations session station_id)
  | GetForecast lat lon => raised (Api.get_forecast session lat lon)
  end.

(** The request fails with [err] without a 429 status having been seen:
    on entering the request, in [raise_for_status()], or while the body is
    read. *)
Inductive fails_with : Api.http -> exn -> Prop :=
| fails_on_enter (err : exn) :
    fails_with (Api.Fails err) err
| fails_on_status (r : Api.response) (err : exn) :
    Api.status r <> 429%Z ->
    Api.raise_for_status r = Some err ->
    fails_with (Api.Responds r) err
| fails_on_body (r : Api.response) (err : exn) :
    Api.status r <> 429%Z ->
    Api.raise_for_status r = None ->
    Api.response_json r = Raise err ->
    fails_with (Api.Responds r) err.

(** An aiohttp response error of status 429. *)
Definition is_429 (err : exn) : bool :=
  match err with
  | ClientResponseError s _ => Z.eqb s 429
  | _ => false
  end.

(** A response of status 429, as in [test_rate_limit_error]. *)
Definition too_many_requests : Api.http :=
  Api.Responds {| Api.status := 429;
                  Api.raise_for_status := None;
                  Api.response_json := Return (JDict []) |}.

End Failure.

(** ** The cycle of the coordinator, as the specification reads it *)

Module Cycle.

Import Coordinator.

(** The three kinds of [UpdateFailed] of the specification; the code tells
    them apart by the message it builds. *)
Inductive failure_kind : Type := RateLimited | Connection | Timeout.

Definition kind_of (err : exn) : option failure_kind :=
  match err with
  | UpdateFailed msg _ =>
      if String.prefix "Rate limit exceeded, will retry: " msg
      then Some RateLimited
      else if String.prefix "Connection error: " msg then Some Connection
      else if String.prefix "Timeout fetching data: " msg then Some Timeout
      else None
  | _ => None
  end.

(** The forecast is disabled, a coordinate is unknown, or the fetch of the
    forecast failed. *)
Definition forecast_unavailable (self : coordinator) : Prop :=
  include_forecast self = false \/
  latitude self = None \/
  longitude self = None \/
  exists lat lon err,
    latitude self = Some lat /\ longitude self = Some lon /\
    get_forecast (api self) lat lon = Completed (Raise err).

(** C2 as the specification states it: with the observations fetched, the
    forecast enabled and both coordinates known, a fetch of the forecast
    that fails, in whatever way, leaves the cycle returning the snapshot
    without forecast. *)
Definition swallows_forecast_failure (self : coordinator) (utcnow : Z) : Prop :=
  forall observations lat lon,
    get_observations (api self) (station_id self)
    = Completed (Return observations) ->
    include_forecast self = true ->
    latitude self = Some lat ->
    longitude self = Some lon ->
    (forall f, get_forecast (api self) lat lon <> Completed (Return f)) ->
    _async_update_data self utcnow
    = Return [("observations", Observations observations);
              ("forecast", PyNone);
              ("last_updated", Datetime utcnow)].

(** The deadline passes during the fetch of the observations, or during
    the fetch of the forecast that follows it. *)
Definition deadline_elapses (self : coordinator) : Prop :=
  get_observations (api self) (station_id self) = DeadlineElapsed \/
  exists observations lat lon,
    get_observations (api self) (station_id self)
    = Completed (Return observations) /\
    include_forecast self = true /\
    latitude self = Some lat /\ longitude self = Some lon /\
    get_forecast (api self) lat lon = DeadlineElapsed.

(** The observations of the fixture [mock_api_client], in part. *)
Definition sample_observations : Api.record :=
  [(JStr "temp_dry",
    {| Api.value := JFloat 15.5; Api.observed := JStr "2024-01-15T12:00:00Z" |});
   (JStr "humidity",
    {| Api.value := JFloat 75.0; Api.observed := JStr "2024-01-15T12:00:00Z" |})].

(** A client whose two methods end as given, like the mocks of the tests. *)
Definition mock (observations : awaited Api.record)
    (forecast : awaited Api.forecast) : api_client :=
  {| get_observations := fun _ => observations;
     get_forecast := fun _ _ => forecast |}.

(** The coordinator of the tests on a client, with or without forecast and
    coordinates. *)
Definition station_06180 (api_client : api_client) (forecast : bool)
    (coordinates : bool) : coordinator :=
  __init__ {| CONF_STATION_ID := Some "06180";
              CONF_LATITUDE := if coordinates then Some 55.614%float else None;
              CONF_LONGITUDE := if coordinates then Some 12.6455%float else None;
              CONF_INCLUDE_FORECAST := Some forecast |}
           api_client.

(** The snapshot of a cycle without forecast. *)
Definition without_forecast (observations : Api.record) (utcnow : Z)
  : snapshot :=
  [("observations", Observations observations);
   ("forecast", PyNone);
   ("last_updated", Datetime utcnow)].

End Cycle.

(** The keys of a dict, in order. *)
Definition keys (r : Api.record) : list json := map fst r.

(** What one turn of the loop does on a feature of the documented shape:
    it stores the reading under a non-empty parameterId and skips the
    feature otherwise. *)
Definition stored (feature : json) (observations : Api.record) : Api.record :=
  match Feed.parameter_id feature with
  | JStr s =>
      if String.eqb s "" then observations
      else Api.setitem observations (JStr s) (Feed.reading_of feature)
  | _ => observations
  end.

(** The value array of a parameter. *)
Definition array_of (p : Api.parameter_data) (prm : Feed.parameter) : json :=
  match prm with
  | Feed.Temperature => Api.temperature_data p
  | Feed.WindSpeed => Api.wind_speed_data p
  | Feed.WindDir => Api.wind_dir_data p
  | Feed.Humidity => Api.humidity_data p
  | Feed.Precipitation => Api.precipitation_data p
  | Feed.CloudCover => Api.cloud_cover_data p
  end.


(** What the loop body reads of an array that is a list. *)
Definition read (l : list json) (i : nat) : option json :=
  match nth_error l i with
  | Some v => if Py.is_none v then None else Some v
  | None => None
  end.

(** ** What the further properties speak of *)

(** Every exception [r] can raise satisfies [P]. *)
Definition raises_only {A : Type} (P : exn -> Prop) (r : result A) : Prop :=
  forall err, r = Raise err -> P err.

(** The exceptions the interpreter raises in the parsing code. *)
Definition from_python (err : exn) : bool :=
  match err with
  | AttributeError _ | TypeError _ | KeyError _ | IndexError _
  | OverflowError _ => true
  | _ => false
  end.

(** [r] raises nothing but exceptions of the interpreter. *)
Definition python_only {A : Type} (r : result A) : Prop :=
  raises_only (fun err => from_python err = true) r.

(** The same coordinator with another [get_forecast]. *)
Definition with_forecast (self : Coordinator.coordinator)
    (get_forecast : float -> float -> Coordinator.awaited Api.forecast)
  : Coordinator.coordinator :=
  {| Coordinator.api :=
       {| Coordinator.get_observations :=
            Coordinator.get_observations (Coordinator.api self);
          Coordinator.get_forecast := get_forecast |};
     Coordinator.station_id := Coordinator.station_id self;
     Coordinator.latitude := Coordinator.latitude self;
     Coordinator.longitude := Coordinator.longitude self;
     Coordinator.include_forecast := Coordinator.include_forecast self |}.

(** The coordinator of a station on the client itself, both requests
    ending before the deadline. *)
Definition live (session : Api.ClientSession) (station_id : string)
    (coordinates : option (float * float)) (include_forecast : bool)
  : Coordinator.coordinator :=
  {| Coordinator.api := Coordinator.DMIApiClient session true true;
     Coordinator.station_id := station_id;
     Coordinator.latitude := option_map fst coordinates;
     Coordinator.longitude := option_map snd coordinates;
     Coordinator.include_forecast := include_forecast |}.

(** The same coordinator when the deadline of the cycle counts:
    [obs_in_time] and [fc_in_time] say whether each request ends before
    it. *)
Definition deployed (session : Api.ClientSession) (station_id : string)
    (coordinates : option (float * float)) (include_forecast : bool)
    (obs_in_time fc_in_time : bool) : Coordinator.coordinator :=
  {| Coordinator.api := Coordinator.DMIApiClient session obs_in_time fc_in_time;
     Coordinator.station_id := station_id;
     Coordinator.latitude := option_map fst coordinates;
     Coordinator.longitude := option_map snd coordinates;
     Coordinator.include_forecast := include_forecast |}.

(** The cycle requests the forecast and the request is still pending at
    the deadline. *)
Definition forecast_pending (coordinates : option (float * float))
    (include_forecast fc_in_time : bool) : bool :=
  match include_forecast, coordinates with
  | true, Some _ => negb fc_in_time
  | _, _ => false
  end.

(** What the snapshot of a live cycle holds under ["forecast"]. *)
Definition live_forecast (session : Api.ClientSession)
    (coordinates : option (float * float)) (include_forecast : bool)
  : Coordinator.snapshot_value :=
  match include_forecast, coordinates with
  | true, Some (lat, lon) =>
      match Api.get_forecast session lat lon with
      | Return f => Coordinator.Forecast f
      | Raise _ => Coordinator.PyNone
      end
  | _, _ => Coordinator.PyNone
  end.

(** The conditions the weather entity can report. *)
Definition conditions : list string :=
  ["sunny"; "partlycloudy"; "cloudy"; "fog"; "rainy"; "pouring";
   "snowy-rainy"; "snowy"; "lightning-rainy"; "hail"].

(** The snapshot holds observations under ["observations"], as every
    snapshot of the coordinator does. *)
Definition has_observations (data : option Coordinator.snapshot)
    (observations : Api.record) : Prop :=
  exists s,
    data = Some s /\
    Py.assoc "observations" s = Some (Coordinator.Observations observations).

(** A session that answers the request for the observations with [h] and
    every other request with [other]. *)
Definition observations_then (h other : Api.http) : Api.ClientSession :=
  fun url _ =>
    if String.eqb url (Api.METOBS_URL ++ "/collections/observation/items")
    then h else other.

(** A [str] parser that accepts nothing. *)
Definition no_parse {A : Type} (s : string) : option A := None.

(** A snapshot whose station reports a weather code and a cloud cover. *)
Definition rainy_snapshot : Coordinator.snapshot :=
  Cycle.without_forecast
    [(JStr "weather",
      {| Api.value := JInt 61; Api.observed := JStr "2024-01-15T12:00:00Z" |});
     (JStr "cloud_cover",
      {| Api.value := JFloat 10.0; Api.observed := JStr "2024-01-15T12:00:00Z" |})]
    1705320000.

(** A snapshot whose weather code is an infinite float. *)
Definition infinite_code_snapshot : Coordinator.snapshot :=
  Cycle.without_forecast
    [(JStr "weather",
      {| Api.value := JFloat infinity;
         Api.observed := JStr "2024-01-15T12:00:00Z" |})]
    1705320000.

(** The condition guessed from an integer cloud cover. *)
Definition condition_of_percent (z : Z) : string :=
  if Z.ltb z 20 then "sunny"
  else if Z.ltb z 60 then "partlycloudy"
  else "cloudy".

(** The forecast of the host that corresponds to entry [e]. *)
Definition shown_as (e : Api.forecast_entry) (fo : Weather.Host.Forecast)
  : Prop :=
  Weather.Host.datetime fo = Api.datetime e /\
  Weather.Host.native_temperature fo = Api.temperature e /\
  Weather.Host.native_wind_speed fo = Api.wind_speed e /\
  Weather.Host.wind_bearing fo = Api.wind_dir e /\
  Weather.Host.humidity fo = Api.humidity e /\
  Weather.Host.native_precipitation fo = Api.precipitation e /\
  (Weather.Host.condition fo = None <-> Api.cloud_cover e = None) /\
  (forall z, Api.cloud_cover e = Some (JInt z) ->
     Weather.Host.condition fo = Some (condition_of_percent z)).

(** A document like [temperature_only] with a cloud cover of 10 percent,
    and the snapshot of a cycle that fetched its forecast. *)
Definition clear_sky : json :=
  JDict [("domain",
          JDict [("axes",
                  JDict [("t", JDict [("values", JList [JStr "2024-01-15T12:00:00Z"])])])]);
         ("ranges",
          JDict [("temperature-2m", JDict [("values", JList [JFloat 288.65])]);
                 ("cloud-cover", JDict [("values", JList [JInt 10])])])].

Definition clear_sky_forecast : Api.forecast :=
  {| Api.hourly :=
       [{| Api.datetime := JStr "2024-01-15T12:00:00Z";
           Api.temperature := Some (PrimFloat.sub 288.65 273.15);
           Api.wind_speed := None;
           Api.wind_dir := None;
           Api.humidity := None;
           Api.precipitation := None;
           Api.cloud_cover := Some (JInt 10) |}] |}.

Definition clear_sky_snapshot : Coordinator.snapshot :=
  [("observations", Coordinator.Observations Cycle.sample_observations);
   ("forecast", Coordinator.Forecast clear_sky_forecast);
   ("last_updated", Coordinator.Datetime 1705320000)].

(** A document like [temperature_only] whose temperatures go on past the
    end of the time axis. *)
Definition surplus_temperature : json :=
  JDict [("domain",
          JDict [("axes",
                  JDict [("t", JDict [("values", JList [JStr "2024-01-15T12:00:00Z"])])])]);
         ("ranges",
          JDict [("temperature-2m",
                  JDict [("values", JList [JFloat 288.65; JFloat 289.15])])])].

(** The station reports the parameter of the description. *)
Definition reported (observations : Api.record)
    (description : Const.SensorEntityDescription) : bool :=
  match Api.lookup observations (JStr (Const.key description)) with
  | Some _ => true
  | None => false
  end.

(** An [isoformat] for the examples: the seconds since the epoch, in
    decimal. *)
Definition seconds (t : Z) : string :=
  NilEmpty.string_of_uint (N.to_uint (Z.to_N t)).

(** The data is a snapshot with these observations, taken at [t]. *)
Definition taken_at (data : option Coordinator.snapshot)
    (observations : Api.record) (t : Z) : Prop :=
  exists s,
    data = Some s /\
    Py.assoc "observations" s = Some (Coordinator.Observations observations) /\
    Py.assoc "last_updated" s = Some (Coordinator.Datetime t).

(** The feed of a station that reports the temperature twice and the
    humidity once, and a parameter that has no sensor. *)
Definition station_feed : list json :=
  [Feed.observation "temp_dry" 14.0 "2024-01-15T11:00:00Z";
   Feed.observation "humidity" 75.0 "2024-01-15T12:00:00Z";
   Feed.observation "temp_dry" 15.5 "2024-01-15T12:00:00Z";
   Feed.observation "leav_hum_dur_past1h" 0.0 "2024-01-15T12:00:00Z"].

(** * Properties *)

Lemma bind_Return {A B : Type} (a : A) (k : A -> result B) :
  bind (Return a) k = k a.
Proof. reflexivity. Qed.

Lemma bind_Raise {A B : Type} (err : exn) (k : A -> result B) :
  bind (Raise err) k = Raise err.
Proof. reflexivity. Qed.

Lemma bind_inv {A B : Type} (r : result A) (k : A -> result B) (b : B) :
  bind r k = Return b -> exists a, r = Return a /\ k a = Return b.
Proof.
  destruct r as [a | err]; simpl; intros H.
  - exists a. split; [reflexivity | exact H].
  - discriminate H.
Qed.

(** ** Facts about the embedded Python operations *)

Lemma get_dict (v : json) (k : string) (default : json) :
  Feed.is_dict v = true ->
  Py.get v k default = Return (Feed.member_or v k default).
Proof.
  destruct v; simpl; intros H; try discriminate H. reflexivity.
Qed.

Lemma get_Return (v : json) (k : string) (default x : json) :
  Py.get v k default = Return x ->
  Feed.is_dict v = true /\ x = Feed.member_or v k default.
Proof.
  destruct v; simpl; intros H; try discriminate H.
  injection H as <-. split; reflexivity.
Qed.

Lemma request_answers (session : Api.ClientSession) (url : string)
    (params : Api.query) (data : json) :
  Feed.answers session url params data ->
  Api._request session url params = Return data.
Proof.
  intros (r & Hs & Hstatus & Hraise & Hjson).
  unfold Api._request. rewrite Hs.
  apply Z.eqb_neq in Hstatus. rewrite Hstatus, Hraise, Hjson. reflexivity.
Qed.

Lemma answers_ok (data : json) (url : string) (params : Api.query) :
  Feed.answers (Feed.always (Feed.ok data)) url params data.
Proof.
  eexists. split; [reflexivity |]. simpl.
  split; [discriminate |]. split; reflexivity.
Qed.

(** ** get_observations: the last feature of a parameter wins *)

Lemma key_eqb_string_r (k : json) (s : string) :
  Api.key_eqb k (JStr s) = true -> k = JStr s.
Proof.
  destruct k; simpl; try discriminate.
  intros H. apply String.eqb_eq in H. now subst.
Qed.

Lemma key_eqb_string_l (k : json) (s : string) :
  Api.key_eqb (JStr s) k = true -> k = JStr s.
Proof.
  destruct k; simpl; try discriminate.
  intros H. apply String.eqb_eq in H. now subst.
Qed.

Lemma key_eqb_string_refl (s : string) : Api.key_eqb (JStr s) (JStr s) = true.
Proof. simpl. apply String.eqb_refl. Qed.

Lemma lookup_setitem (d : Api.record) (s p : string) (v : Api.reading) :
  Api.lookup (Api.setitem d (JStr s) v) (JStr p) =
  if String.eqb s p then Some v else Api.lookup d (JStr p).
Proof.
  induction d as [| [k' v'] d IH]; simpl.
  - reflexivity.
  - destruct (Api.key_eqb k' (JStr s)) eqn:Hk; simpl.
    + apply key_eqb_string_r in Hk. subst k'. simpl.
      destruct (String.eqb s p); reflexivity.
    + destruct (Api.key_eqb k' (JStr p)) eqn:Hp.
      * apply key_eqb_string_r in Hp. subst k'. simpl in Hk.
        rewrite String.eqb_sym in Hk. rewrite Hk. reflexivity.
      * exact IH.
Qed.

Lemma keys_setitem (d : Api.record) (s : string) (v : Api.reading) :
  keys (Api.setitem d (JStr s) v) =
  if existsb (fun k => Api.key_eqb k (JStr s)) (keys d)
  then keys d
  else keys d ++ [JStr s].
Proof.
  unfold keys. induction d as [| [k' v'] d IH]; simpl.
  - reflexivity.
  - destruct (Api.key_eqb k' (JStr s)) eqn:Hk; simpl.
    + reflexivity.
    + rewrite IH. destruct (existsb _ _); reflexivity.
Qed.

Lemma keys_setitem_NoDup (d : Api.record) (s : string) (v : Api.reading) :
  NoDup (keys d) -> NoDup (keys (Api.setitem d (JStr s) v)).
Proof.
  intros Hd. rewrite keys_setitem.
  destruct (existsb _ _) eqn:He; [exact Hd |].
  apply NoDup_app; [exact Hd | repeat constructor; intros [] | ].
  intros k Hin [<- | []].
  assert (Ht : existsb (fun k => Api.key_eqb k (JStr s)) (keys d) = true).
  { apply existsb_exists. exists (JStr s). split; [exact Hin |].
    apply key_eqb_string_refl. }
  congruence.
Qed.

Lemma keys_setitem_In (d : Api.record) (s : string) (v : Api.reading) (k : json) :
  In k (keys (Api.setitem d (JStr s) v)) -> In k (keys d) \/ k = JStr s.
Proof.
  rewrite keys_setitem. destruct (existsb _ _).
  - auto.
  - intros H. apply in_app_or in H. destruct H as [H | [<- | []]]; auto.
Qed.

Lemma observations_loop_step (feature : json) (rest : list json)
    (observations : Api.record) :
  Feed.observation_feature feature = true ->
  Api.observations_loop (feature :: rest) observations =
  Api.observations_loop rest (stored feature observations).
Proof.
  unfold Feed.observation_feature. intros H.
  apply andb_prop in H. destruct H as [H Hid].
  apply andb_prop in H. destruct H as [Hf Hp].
  unfold stored, Feed.reading_of, Feed.parameter_id in *.
  simpl Api.observations_loop.
  rewrite (get_dict _ _ _ Hf). fold (Feed.properties feature).
  rewrite bind_Return.
  rewrite !(get_dict _ _ _ Hp). rewrite !bind_Return.
  destruct (Feed.member_or (Feed.properties feature) "parameterId" JNull)
    as [| | | | s | |]; simpl in Hid; try discriminate Hid.
  - reflexivity.
  - simpl. destruct (String.eqb s ""); reflexivity.
Qed.

Lemma lookup_stored (feature : json) (observations : Api.record) (p : string) :
  Feed.observation_feature feature = true ->
  p <> "" ->
  Api.lookup (stored feature observations) (JStr p) =
  if Api.key_eqb (Feed.parameter_id feature) (JStr p)
  then Some (Feed.reading_of feature)
  else Api.lookup observations (JStr p).
Proof.
  intros Hok Hp. unfold stored.
  unfold Feed.observation_feature in Hok.
  apply andb_prop in Hok. destruct Hok as [_ Hid].
  destruct (Feed.parameter_id feature) as [| | | | s | |];
    simpl in Hid; try discriminate Hid.
  - reflexivity.
  - simpl. destruct (String.eqb s "") eqn:He.
    + apply String.eqb_eq in He. subst s.
      destruct (String.eqb "" p) eqn:Hq; [| reflexivity].
      apply String.eqb_eq in Hq. congruence.
    + apply lookup_setitem.
Qed.

Lemma stored_NoDup (feature : json) (observations : Api.record) :
  NoDup (keys observations) -> NoDup (keys (stored feature observations)).
Proof.
  intros H. unfold stored.
  destruct (Feed.parameter_id feature); try exact H.
  destruct (String.eqb s ""); [exact H |].
  now apply keys_setitem_NoDup.
Qed.

Lemma stored_In (feature : json) (observations : Api.record) (k : json) :
  In k (keys (stored feature observations)) ->
  In k (keys observations) \/
  exists p, k = JStr p /\ p <> "" /\ Feed.parameter_id feature = JStr p.
Proof.
  unfold stored.
  destruct (Feed.parameter_id feature) eqn:Hid; auto.
  destruct (String.eqb s "") eqn:He; auto.
  intros H. apply keys_setitem_In in H. destruct H as [H | ->]; auto.
  right. exists s. repeat split.
  intros ->. discriminate He.
Qed.

Lemma lookup_In (r : Api.record) (p : string) (kept : Api.reading) :
  Api.lookup r (JStr p) = Some kept -> In (JStr p) (keys r).
Proof.
  induction r as [| [k v] r IH]; simpl; intros H; [discriminate H |].
  destruct (Api.key_eqb k (JStr p)) eqn:Hk.
  - left. now apply key_eqb_string_r.
  - right. now apply IH.
Qed.

Lemma last_reading_In (p : string) (features : list json) (feature : json) :
  In feature features ->
  Feed.parameter_id feature = JStr p ->
  exists kept, Feed.last_reading p features = Some kept.
Proof.
  induction features as [| f rest IH]; intros Hin Hid; [destruct Hin |].
  simpl. destruct (Feed.last_reading p rest) as [kept |] eqn:Hl; [eauto |].
  destruct Hin as [-> | Hin].
  - rewrite Hid, key_eqb_string_refl. eauto.
  - destruct (IH Hin Hid) as (kept & Hk). discriminate Hk.
Qed.

(** The loop on a feed of the documented shape, from any dict built so
    far. *)
Lemma observations_loop_spec (features : list json) :
  forallb Feed.observation_feature features = true ->
  forall observations : Api.record,
  exists r,
    Api.observations_loop features observations = Return r /\
    (NoDup (keys observations) -> NoDup (keys r)) /\
    (forall k, In k (keys r) ->
       In k (keys observations) \/
       exists p feature,
         k = JStr p /\ p <> "" /\ In feature features /\
         Feed.parameter_id feature = JStr p) /\
    (forall p, p <> "" ->
       Api.lookup r (JStr p) =
       match Feed.last_reading p features with
       | Some kept => Some kept
       | None => Api.lookup observations (JStr p)
       end).
Proof.
  induction features as [| feature rest IH]; intros Hok observations.
  - exists observations. simpl. repeat split; auto.
  - simpl in Hok. apply andb_prop in Hok. destruct Hok as [Hf Hrest].
    destruct (IH Hrest (stored feature observations))
      as (r & Hr & Hnd & Hin & Hlk).
    exists r. rewrite (observations_loop_step _ _ _ Hf).
    split; [exact Hr |]. split; [| split].
    + intros H. apply Hnd. now apply stored_NoDup.
    + intros k Hk. destruct (Hin k Hk) as [H | (p & f & -> & Hp & Hf' & Hid)].
      * apply stored_In in H. destruct H as [H | (p & -> & Hp & Hid)]; auto.
        right. exists p, feature. simpl. auto.
      * right. exists p, f. simpl. auto.
    + intros p Hp. rewrite (Hlk p Hp). simpl.
      destruct (Feed.last_reading p rest); [reflexivity |].
      rewrite (lookup_stored _ observations _ Hf Hp).
      destruct (Api.key_eqb (Feed.parameter_id feature) (JStr p)); reflexivity.
Qed.

Lemma last_reading_Some (p : string) (features : list json)
    (kept : Api.reading) :
  Feed.last_reading p features = Some kept ->
  exists feature,
    In feature features /\
    Feed.parameter_id feature = JStr p /\
    kept = Feed.reading_of feature.
Proof.
  induction features as [| f rest IH]; simpl; intros H; [discriminate H |].
  destruct (Feed.last_reading p rest) as [r |] eqn:Hl.
  - injection H as <-. destruct (IH eq_refl) as (feature & Hin & Hid & Hr).
    exists feature. auto.
  - destruct (Api.key_eqb (Feed.parameter_id f) (JStr p)) eqn:Hk;
      [| discriminate H].
    injection H as <-. apply key_eqb_string_r in Hk. exists f. auto.
Qed.

Lemma leb_refl (t : string) : String.leb t t = true.
Proof. destruct (String.leb_total t t); assumption. Qed.

(** In a feed in ascending order the last reading of a parameter is not
    older than any reading of it. *)
Lemma ascending_last_reading (features : list json) :
  Feed.ascending features = true ->
  forall feature p t,
    In feature features ->
    Feed.parameter_id feature = JStr p ->
    Api.observed (Feed.reading_of feature) = JStr t ->
    exists kept t',
      Feed.last_reading p features = Some kept /\
      Api.observed kept = JStr t' /\
      String.leb t t' = true.
Proof.
  induction features as [| f rest IH]; intros Hasc feature p t Hin Hid Ht;
    [destruct Hin |].
  simpl in Hasc. apply andb_prop in Hasc. destruct Hasc as [Hf Hrest].
  simpl Feed.last_reading.
  destruct Hin as [-> | Hin].
  - destruct (Feed.last_reading p rest) as [kept |] eqn:Hl.
    + apply last_reading_Some in Hl.
      destruct Hl as (later & Hlater & Hlid & ->).
      rewrite forallb_forall in Hf. specialize (Hf later Hlater).
      unfold Feed.same_parameter in Hf.
      rewrite Hid, Hlid, String.eqb_refl in Hf. simpl in Hf.
      unfold Feed.not_before in Hf. rewrite Ht in Hf.
      destruct (Api.observed (Feed.reading_of later))
        as [| | | | t' | |] eqn:Ht'; try discriminate Hf.
      exists (Feed.reading_of later), t'. auto.
    + rewrite Hid, key_eqb_string_refl.
      exists (Feed.reading_of feature), t.
      split; [reflexivity |]. split; [exact Ht | apply leb_refl].
  - destruct (IH Hrest feature p t Hin Hid Ht) as (kept & t' & -> & Hk & Hle).
    eauto.
Qed.

(** On a body that is an object with an array of features, whatever its
    other members, [get_observations] is the loop over these features. *)
Lemma get_observations_collection (session : Api.ClientSession)
    (station_id : string) (data : json) :
  Feed.answers session
    (Api.METOBS_URL ++ "/collections/observation/items")%string
    (Api.observations_query station_id) data ->
  Feed.is_dict data = true ->
  Feed.is_list (Feed.features data) = true ->
  Api.get_observations session station_id
  = Api.observations_loop (Feed.elements (Feed.features data)) [].
Proof.
  intros Hans Hd Hl. unfold Api.get_observations.
  rewrite (request_answers _ _ _ _ Hans), bind_Return.
  rewrite (get_dict _ _ _ Hd), bind_Return. fold (Feed.features data).
  destruct (Feed.features data); try discriminate Hl. reflexivity.
Qed.

(** The record of a feed of the documented shape, entry by entry. *)
Lemma get_observations_spec (session : Api.ClientSession) (station_id : string)
    (data : json) :
  Feed.answers session
    (Api.METOBS_URL ++ "/collections/observation/items")%string
    (Api.observations_query station_id) data ->
  Feed.observation_collection data = true ->
  exists r,
    Api.get_observations session station_id = Return r /\
    NoDup (keys r) /\
    (forall k, In k (keys r) ->
       exists p feature,
         k = JStr p /\ p <> "" /\
         In feature (Feed.elements (Feed.features data)) /\
         Feed.parameter_id feature = JStr p) /\
    (forall p, p <> "" ->
       Api.lookup r (JStr p)
       = Feed.last_reading p (Feed.elements (Feed.features data))).
Proof.
  intros Hans Hok. unfold Feed.observation_collection in Hok.
  apply andb_prop in Hok. destruct Hok as [Hok Hfs].
  apply andb_prop in Hok. destruct Hok as [Hd Hl].
  destruct (observations_loop_spec _ Hfs []) as (r & Hr & Hnd & Hin & Hlk).
  exists r. rewrite (get_observations_collection _ _ _ Hans Hd Hl).
  split; [exact Hr |]. split; [apply Hnd; constructor |]. split.
  - intros k Hk. destruct (Hin k Hk) as [[] | H]. exact H.
  - intros p Hp. rewrite (Hlk p Hp).
    destruct (Feed.last_reading p _); reflexivity.
Qed.

(** C1, as amended.  When the request is answered with a feed of the
    documented shape (an object with an array of observation features,
    whatever its other members), [get_observations] returns a dict with
    one entry per parameterId, every key being the non-empty parameterId of
    some feature, and the entry of a parameter is the reading of the last
    feature of the feed that reports it, whatever its timestamp.  When the
    feed lists the readings of each parameter in ascending [observed]
    order, no reading of the parameter is later than the entry kept. *)
Theorem get_observations_last_wins
    (session : Api.ClientSession) (station_id : string) (data : json) :
  Feed.answers session
    (Api.METOBS_URL ++ "/collections/observation/items")%string
    (Api.observations_query station_id) data ->
  Feed.observation_collection data = true ->
  let features := Feed.elements (Feed.features data) in
  exists r,
    Api.get_observations session station_id = Return r /\
    NoDup (keys r) /\
    (forall k, In k (keys r) ->
       exists p feature,
         k = JStr p /\ p <> "" /\ In feature features /\
         Feed.parameter_id feature = JStr p) /\
    (forall p feature,
       p <> "" -> In feature features -> Feed.parameter_id feature = JStr p ->
       In (JStr p) (keys r)) /\
    (forall p, p <> "" -> Api.lookup r (JStr p) = Feed.last_reading p features) /\
    (Feed.ascending features = true ->
     forall p feature t,
       p <> "" -> In feature features -> Feed.parameter_id feature = JStr p ->
       Api.observed (Feed.reading_of feature) = JStr t ->
       exists kept t',
         Api.lookup r (JStr p) = Some kept /\
         Api.observed kept = JStr t' /\
         String.leb t t' = true).
Proof.
  intros Hans Hok features.
  destruct (get_observations_spec _ _ _ Hans Hok) as (r & Hr & Hnd & Hin & Hlast).
  fold features in Hin, Hlast.
  exists r. split; [exact Hr |]. split; [exact Hnd |].
  split; [exact Hin |]. split; [| split; [exact Hlast |]].
  - intros p feature Hp Hf Hid.
    destruct (last_reading_In p features feature Hf Hid) as (kept & Hk).
    apply lookup_In with (kept := kept). now rewrite (Hlast p Hp).
  - intros Hasc p feature t Hp Hf Hid Ht. rewrite (Hlast p Hp).
    apply (ascending_last_reading features Hasc feature p t Hf Hid Ht).
Qed.

(** The two readings of [test_get_observations_keeps_latest] in a
    FeatureCollection with its other members. *)
Lemma get_observations_last_wins_witness :
  let features :=
    Feed.elements (Feed.features (Feed.feature_collection Feed.ascending_feed)) in
  exists r,
    Api.get_observations
      (Feed.always (Feed.ok (Feed.feature_collection Feed.ascending_feed)))
      "06180" = Return r /\
    NoDup (keys r) /\
    (forall k, In k (keys r) ->
       exists p feature,
         k = JStr p /\ p <> "" /\ In feature features /\
         Feed.parameter_id feature = JStr p) /\
    (forall p feature,
       p <> "" -> In feature features -> Feed.parameter_id feature = JStr p ->
       In (JStr p) (keys r)) /\
    (forall p, p <> "" -> Api.lookup r (JStr p) = Feed.last_reading p features) /\
    (Feed.ascending features = true ->
     forall p feature t,
       p <> "" -> In feature features -> Feed.parameter_id feature = JStr p ->
       Api.observed (Feed.reading_of feature) = JStr t ->
       exists kept t',
         Api.lookup r (JStr p) = Some kept /\
         Api.observed kept = JStr t' /\
         String.leb t t' = true).
Proof.
  apply (get_observations_last_wins
           (Feed.always (Feed.ok (Feed.feature_collection Feed.ascending_feed)))
           "06180" (Feed.feature_collection Feed.ascending_feed)).
  - apply answers_ok.
  - reflexivity.
Defined.

(** C1 as stated fails: with the later reading first in the feed, the
    entry kept for [temp_dry] is the reading of 11:00, not that of 12:00. *)
Lemma get_observations_keeps_earlier :
  Api.get_observations (Feed.always (Feed.ok (Feed.collection Feed.descending_feed)))
    "06180"
  = Return [(JStr "temp_dry",
             {| Api.value := JFloat 14.0;
                Api.observed := JStr "2024-01-15T11:00:00Z" |})]
  /\ ~ Feed.retains_latest Feed.descending_feed
         [(JStr "temp_dry",
           {| Api.value := JFloat 14.0;
              Api.observed := JStr "2024-01-15T11:00:00Z" |})].
Proof.
  split; [reflexivity |].
  intros H.
  destruct (H (Feed.observation "temp_dry" 15.5 "2024-01-15T12:00:00Z")
              "temp_dry" "2024-01-15T12:00:00Z")
    as (kept & t' & Hk & Ht & Hle).
  - simpl. auto.
  - reflexivity.
  - reflexivity.
  - simpl in Hk. injection Hk as <-. simpl in Ht. injection Ht as <-.
    vm_compute in Hle. discriminate Hle.
Qed.

(** ** get_stations: the features without a stationId are dropped *)

Lemma coordinate_list (l : list json) (i : nat) :
  Api.coordinate (JList l) i = Return (nth i l JNull).
Proof.
  unfold Api.coordinate. simpl.
  destruct (Nat.ltb i (List.length l)) eqn:Hi.
  - apply Nat.ltb_lt in Hi.
    destruct (nth_error l i) as [x |] eqn:Hx.
    + now rewrite (nth_error_nth _ _ JNull Hx).
    + apply nth_error_None in Hx. lia.
  - apply Nat.ltb_ge in Hi. now rewrite nth_overflow.
Qed.

Lemma station_of_feature_spec (feature : json) :
  Feed.station_feature feature = true ->
  Api.station_of_feature feature = Return (Feed.station_of feature).
Proof.
  unfold Feed.station_feature. intros H.
  apply andb_prop in H. destruct H as [H _].
  apply andb_prop in H. destruct H as [H Hc].
  apply andb_prop in H. destruct H as [H Hg].
  apply andb_prop in H. destruct H as [Hf Hp].
  unfold Api.station_of_feature, Feed.station_of, Feed.station_id.
  rewrite (get_dict _ _ _ Hf). fold (Feed.properties feature).
  rewrite bind_Return.
  rewrite (get_dict _ _ _ Hf). fold (Feed.geometry feature).
  rewrite bind_Return.
  rewrite (get_dict _ _ _ Hg). fold (Feed.coordinates feature).
  rewrite bind_Return.
  rewrite !(get_dict _ _ _ Hp). rewrite !bind_Return.
  destruct (Feed.coordinates feature) as [| | | | | l |];
    simpl in Hc; try discriminate Hc.
  rewrite !coordinate_list. reflexivity.
Qed.

Lemma truthy_null_or_string (v : json) :
  Feed.null_or_string v = true ->
  Py.truthy v = negb (Feed.absent_or_empty v).
Proof.
  destruct v; simpl; intros H; try discriminate H; reflexivity.
Qed.

Lemma stations_loop_spec (features : list json) :
  forallb Feed.station_feature features = true ->
  forall stations : list Api.station,
    Api.stations_loop features stations =
    Return (stations ++ map Feed.station_of (filter Feed.has_station_id features)).
Proof.
  induction features as [| feature rest IH]; intros Hok stations; simpl.
  - now rewrite app_nil_r.
  - simpl in Hok. apply andb_prop in Hok. destruct Hok as [Hf Hrest].
    rewrite (station_of_feature_spec _ Hf). rewrite bind_Return.
    assert (Ht : Py.truthy (Api.stationId (Feed.station_of feature))
                 = Feed.has_station_id feature).
    { unfold Feed.has_station_id. simpl. apply truthy_null_or_string.
      unfold Feed.station_feature in Hf. apply andb_prop in Hf. tauto. }
    rewrite Ht. destruct (Feed.has_station_id feature).
    + rewrite (IH Hrest). simpl. now rewrite <- app_assoc.
    + apply (IH Hrest).
Qed.

(** C5.  When the request is answered with a feed of the documented shape
    (an object with an array of station features, whatever its other
    members), [get_stations] returns the Stations of the features whose
    stationId is neither absent nor empty, and no others, in the order of
    the feed. *)
Theorem get_stations_drops_missing_ids
    (session : Api.ClientSession) (active_only : bool) (data : json) :
  Feed.answers session
    (Api.METOBS_URL ++ "/collections/station/items")%string
    (Api.stations_query active_only) data ->
  Feed.station_collection data = true ->
  Api.get_stations session active_only =
  Return (map Feed.station_of
            (filter Feed.has_station_id (Feed.elements (Feed.features data)))).
Proof.
  intros Hans Hok. unfold Feed.station_collection in Hok.
  apply andb_prop in Hok. destruct Hok as [Hok Hfs].
  apply andb_prop in Hok. destruct Hok as [Hd Hl].
  unfold Api.get_stations.
  rewrite (request_answers _ _ _ _ Hans), bind_Return.
  rewrite (get_dict _ _ _ Hd), bind_Return. fold (Feed.features data).
  destruct (Feed.features data) as [| | | | | features |];
    try discriminate Hl.
  simpl. now rewrite (stations_loop_spec features Hfs).
Qed.

(** The feed of two features of which the first has no stationId, in a
    FeatureCollection with its other members, gives the one Station of the
    second. *)
Lemma get_stations_drops_missing_ids_witness :
  Api.get_stations
    (Feed.always (Feed.ok (Feed.feature_collection Feed.two_stations))) true
  = Return [{| Api.stationId := JStr "12345";
               Api.name := JStr "Valid Station";
               Api.longitude := JFloat 11.0;
               Api.latitude := JFloat 56.0;
               Api.type := JNull;
               Api.parameterId := JList [] |}].
Proof.
  apply (get_stations_drops_missing_ids
           (Feed.always (Feed.ok (Feed.feature_collection Feed.two_stations)))
           true (Feed.feature_collection Feed.two_stations)).
  - apply answers_ok.
  - reflexivity.
Defined.

(** ** get_forecast: what an entry holds *)


Lemma available_list (l : list json) (i : nat) :
  Api.available (JList l) i =
  Return (match nth_error l i with
          | Some v => if Py.is_none v then None else Some v
          | None => None
          end).
Proof.
  unfold Api.available. simpl.
  destruct (Nat.ltb i (List.length l)) eqn:Hi.
  - destruct (nth_error l i) as [x |] eqn:Hx; simpl; [reflexivity |].
    apply Nat.ltb_lt in Hi. apply nth_error_None in Hx. lia.
  - apply Nat.ltb_ge in Hi. apply nth_error_None in Hi. now rewrite Hi.
Qed.

Lemma sub_float_Return (v : json) (c t : float) :
  Py.sub_float v c = Return t ->
  exists k, Feed.as_float v = Some k /\ t = PrimFloat.sub k c.
Proof.
  destruct v; simpl; intros H; try discriminate H.
  - injection H as <-. eexists. split; reflexivity.
  - destruct (Py.float_of_int z) as [f |]; simpl in H; [| discriminate H].
    injection H as <-. eexists. split; reflexivity.
  - injection H as <-. eexists. split; reflexivity.
Qed.

Lemma sub_float_number (v : json) (c k : float) :
  Feed.as_float v = Some k ->
  Py.sub_float v c = Return (PrimFloat.sub k c).
Proof.
  destruct v; simpl; intros H; try discriminate H.
  - now injection H as <-.
  - destruct (Py.float_of_int z) as [f |]; [| discriminate H].
    now injection H as <-.
  - now injection H as <-.
Qed.

(** What a returned entry says about the arrays it was read from. *)
Lemma forecast_entry_at_inv (p : Api.parameter_data) (i : nat)
    (time_value : json) (e : Api.forecast_entry) :
  Api.forecast_entry_at p i time_value = Return e ->
  Api.datetime e = time_value /\
  (exists t0,
     Api.available (Api.temperature_data p) i = Return t0 /\
     match t0 with
     | Some kelvin =>
         exists c, Py.sub_float kelvin Api.KELVIN_OFFSET = Return c /\
                   Api.temperature e = Some c
     | None => Api.temperature e = None
     end) /\
  (forall prm, prm <> Feed.Temperature ->
     Api.available (array_of p prm) i = Return (Feed.field prm e)).
Proof.
  unfold Api.forecast_entry_at. intros H.
  apply bind_inv in H. destruct H as (t0 & Ht0 & H).
  apply bind_inv in H. destruct H as (celsius & Hc & H).
  apply bind_inv in H. destruct H as (ws & Hws & H).
  apply bind_inv in H. destruct H as (wd & Hwd & H).
  apply bind_inv in H. destruct H as (h & Hh & H).
  apply bind_inv in H. destruct H as (pr & Hpr & H).
  apply bind_inv in H. destruct H as (cc & Hcc & H).
  injection H as <-. simpl.
  split; [reflexivity |]. split.
  - exists t0. split; [exact Ht0 |].
    destruct t0 as [kelvin |].
    + apply bind_inv in Hc. destruct Hc as (c & Hsub & Hc).
      injection Hc as <-. exists c. split; [exact Hsub | reflexivity].
    + now injection Hc as <-.
  - intros prm Hprm. destruct prm; simpl; try assumption.
    now elim Hprm.
Qed.

Lemma forecast_loop_inv (p : Api.parameter_data) (time_values : list json) :
  forall (i : nat) (hourly_forecast h : list Api.forecast_entry),
    Api.forecast_loop p i time_values hourly_forecast = Return h ->
    exists es,
      h = hourly_forecast ++ es /\
      List.length es = List.length time_values /\
      forall j e, nth_error es j = Some e ->
        exists time_value,
          nth_error time_values j = Some time_value /\
          Api.forecast_entry_at p (i + j) time_value = Return e.
Proof.
  induction time_values as [| time_value rest IH]; intros i acc h H; simpl in H.
  - injection H as <-. exists []. rewrite app_nil_r.
    split; [reflexivity |]. split; [reflexivity |].
    intros j e Hj. destruct j; discriminate Hj.
  - apply bind_inv in H. destruct H as (entry & He & H).
    apply IH in H. destruct H as (es & -> & Hlen & Hes).
    exists (entry :: es). rewrite <- app_assoc. simpl.
    split; [reflexivity |]. split; [now rewrite Hlen |].
    intros [| j] e Hj; simpl in Hj.
    + injection Hj as <-. exists time_value. rewrite Nat.add_0_r.
      split; [reflexivity | exact He].
    + destruct (Hes j e Hj) as (tv & Htv & Hat).
      exists tv. rewrite Nat.add_succ_r. split; assumption.
Qed.

Lemma range_values_Return (data ranges : json) (name : string) (x : json) :
  ranges = Feed.ranges data ->
  Api.range_values ranges name = Return x ->
  x = Feed.range_values data name.
Proof.
  intros -> H. unfold Api.range_values in H.
  apply bind_inv in H. destruct H as (range & Hr & H).
  apply get_Return in Hr. destruct Hr as [_ ->].
  apply get_Return in H. destruct H as [_ ->]. reflexivity.
Qed.

(** A parsed forecast is the result of the loop over the time axis and the
    value arrays of the document. *)
Lemma parse_forecast_inv (data : json) (fc : Api.forecast) :
  Api.parse_forecast data = Return fc ->
  exists time_values,
    Py.iter (Feed.time_values data) = Return time_values /\
    Api.forecast_loop (Feed.arrays data) 0 time_values [] = Return (Api.hourly fc).
Proof.
  unfold Api.parse_forecast. intros H.
  apply bind_inv in H. destruct H as (ranges & Hranges & H).
  apply get_Return in Hranges. destruct Hranges as [_ Hranges].
  apply bind_inv in H. destruct H as (domain & Hd & H).
  apply get_Return in Hd. destruct Hd as [_ ->].
  apply bind_inv in H. destruct H as (axes & Ha & H).
  apply get_Return in Ha. destruct Ha as [_ ->].
  apply bind_inv in H. destruct H as (time_axis & Ht & H).
  apply get_Return in Ht. destruct Ht as [_ ->].
  apply bind_inv in H. destruct H as (tvs & Htv & H).
  apply get_Return in Htv. destruct Htv as [_ ->].
  apply bind_inv in H. destruct H as (td & Htd & H).
  apply (range_values_Return data) in Htd; [| exact Hranges].
  apply bind_inv in H. destruct H as (wsd & Hwsd & H).
  apply (range_values_Return data) in Hwsd; [| exact Hranges].
  apply bind_inv in H. destruct H as (wdd & Hwdd & H).
  apply (range_values_Return data) in Hwdd; [| exact Hranges].
  apply bind_inv in H. destruct H as (hd & Hhd & H).
  apply (range_values_Return data) in Hhd; [| exact Hranges].
  apply bind_inv in H. destruct H as (pd & Hpd & H).
  apply (range_values_Return data) in Hpd; [| exact Hranges].
  apply bind_inv in H. destruct H as (ccd & Hccd & H).
  apply (range_values_Return data) in Hccd; [| exact Hranges].
  apply bind_inv in H. destruct H as (time_values & Hiter & H).
  apply bind_inv in H. destruct H as (hourly_forecast & Hloop & H).
  injection H as <-. subst. exists time_values. split; assumption.
Qed.

Lemma array_of_arrays (data : json) (prm : Feed.parameter) :
  array_of (Feed.arrays data) prm = Feed.range_values data (Feed.range_name prm).
Proof. destruct prm; reflexivity. Qed.

(** Every entry of a parsed forecast was built by the loop body at its
    index. *)
Lemma parse_forecast_entry (data : json) (fc : Api.forecast) (i : nat)
    (e : Api.forecast_entry) :
  Api.parse_forecast data = Return fc ->
  nth_error (Api.hourly fc) i = Some e ->
  exists time_value,
    Api.forecast_entry_at (Feed.arrays data) i time_value = Return e.
Proof.
  intros Hp He. apply parse_forecast_inv in Hp.
  destruct Hp as (tvs & _ & Hloop).
  apply forecast_loop_inv in Hloop. destruct Hloop as (es & Hes & _ & Hat).
  simpl in Hes. rewrite Hes in He.
  destruct (Hat i e He) as (tv & _ & H). exists tv. exact H.
Qed.

Lemma getitem_len (data : json) (i : nat) (v : json) :
  Py.getitem data i = Return v ->
  exists n, Py.len data = Return n /\ i < n.
Proof.
  destruct data; simpl; intros H; try discriminate H.
  - destruct (nth_error (Py.chars s) i) eqn:Hn; [| discriminate H].
    exists (String.length s). split; [reflexivity |].
    assert (Hl : List.length (Py.chars s) = String.length s).
    { clear. induction s; simpl; congruence. }
    rewrite <- Hl. apply nth_error_Some. congruence.
  - destruct (nth_error l i) eqn:Hn; [| discriminate H].
    exists (List.length l). split; [reflexivity |].
    apply nth_error_Some. congruence.
Qed.

Lemma available_complete (data : json) (i : nat) (v : json) :
  Py.getitem data i = Return v -> v <> JNull ->
  Api.available data i = Return (Some v).
Proof.
  intros Hget Hv. unfold Api.available.
  destruct (getitem_len _ _ _ Hget) as (n & -> & Hi).
  rewrite bind_Return. apply Nat.ltb_lt in Hi. rewrite Hi, Hget.
  rewrite bind_Return. destruct v; try reflexivity. now elim Hv.
Qed.




(** ** get_forecast: one entry per time step *)

Lemma read_Some (l : list json) (i : nat) :
  (exists x, read l i = Some x) <->
  (exists v, nth_error l i = Some v /\ v <> JNull).
Proof.
  unfold read. split.
  - intros (x & H). destruct (nth_error l i) as [v |]; [| discriminate H].
    exists v. split; [reflexivity |]. intros ->. discriminate H.
  - intros (v & -> & Hv). destruct v; simpl; eauto. now elim Hv.
Qed.

Lemma read_number (l : list json) (i : nat) (v : json) :
  forallb Feed.null_or_number l = true ->
  read l i = Some v ->
  exists k, Feed.as_float v = Some k.
Proof.
  unfold read. intros Hl H.
  destruct (nth_error l i) as [x |] eqn:Hx; [| discriminate H].
  apply nth_error_In in Hx.
  rewrite forallb_forall in Hl. specialize (Hl x Hx).
  destruct x; simpl in H; try discriminate H; injection H as <-;
    unfold Feed.null_or_number in Hl;
    match goal with
    | |- exists k, ?a = Some k => destruct a; [eauto | discriminate Hl]
    end.
Qed.

Section WellFormedArrays.

Variable p : Api.parameter_data.
Hypothesis arrays_are_lists :
  forall prm, Feed.is_list (array_of p prm) = true.
Hypothesis temperatures_are_numbers :
  forallb Feed.null_or_number (Feed.elements (Api.temperature_data p)) = true.

Lemma available_array (prm : Feed.parameter) (i : nat) :
  Api.available (array_of p prm) i
  = Return (read (Feed.elements (array_of p prm)) i).
Proof.
  specialize (arrays_are_lists prm).
  destruct (array_of p prm); try discriminate arrays_are_lists.
  apply available_list.
Qed.

Lemma forecast_entry_at_total (i : nat) (time_value : json) :
  exists e, Api.forecast_entry_at p i time_value = Return e.
Proof.
  unfold Api.forecast_entry_at.
  pose proof (available_array Feed.Temperature i) as Ht.
  pose proof (available_array Feed.WindSpeed i) as Hws.
  pose proof (available_array Feed.WindDir i) as Hwd.
  pose proof (available_array Feed.Humidity i) as Hh.
  pose proof (available_array Feed.Precipitation i) as Hpr.
  pose proof (available_array Feed.CloudCover i) as Hcc.
  simpl array_of in *.
  rewrite Ht, Hws, Hwd, Hh, Hpr, Hcc. rewrite bind_Return.
  assert (Hc : exists celsius,
             match read (Feed.elements (Api.temperature_data p)) i with
             | Some kelvin =>
                 c <- Py.sub_float kelvin Api.KELVIN_OFFSET ;; Return (Some c)
             | None => Return None
             end = Return celsius).
  { destruct (read _ i) as [kelvin |] eqn:Hr; [| eauto].
    destruct (read_number _ _ _ temperatures_are_numbers Hr) as (k & Hk).
    rewrite (sub_float_number _ _ _ Hk). simpl. eauto. }
  destruct Hc as (celsius & ->). simpl. eauto.
Qed.

Lemma forecast_loop_total (time_values : list json) :
  forall (i : nat) (hourly_forecast : list Api.forecast_entry),
  exists h, Api.forecast_loop p i time_values hourly_forecast = Return h.
Proof.
  induction time_values as [| time_value rest IH]; intros i acc; simpl.
  - eauto.
  - destruct (forecast_entry_at_total i time_value) as (e & ->).
    rewrite bind_Return. apply IH.
Qed.

(** An entry carries the field of a parameter exactly when the array of the
    parameter has a non-null element at the index of the entry. *)
Lemma entry_carries (i : nat) (time_value : json) (e : Api.forecast_entry)
    (prm : Feed.parameter) :
  Api.forecast_entry_at p i time_value = Return e ->
  (Feed.carries prm e = true <->
   exists v, nth_error (Feed.elements (array_of p prm)) i = Some v /\ v <> JNull).
Proof.
  intros H. apply forecast_entry_at_inv in H.
  destruct H as (_ & (t0 & Ht0 & Htemp) & Hrest).
  rewrite <- read_Some.
  assert (Hother : forall prm', prm' <> Feed.Temperature ->
            (Feed.carries prm' e = true <->
             exists x, read (Feed.elements (array_of p prm')) i = Some x)).
  { intros prm' Hprm. specialize (Hrest prm' Hprm).
    rewrite available_array in Hrest. injection Hrest as Hr.
    unfold Feed.carries. rewrite Hr.
    destruct (Feed.field prm' e); split; eauto; try discriminate.
    intros (x & Hx). discriminate Hx. }
  destruct prm; try (apply Hother; discriminate).
  unfold Feed.carries.
  change (Api.temperature_data p) with (array_of p Feed.Temperature) in Ht0.
  rewrite available_array in Ht0. injection Ht0 as Ht0.
  simpl array_of in *. rewrite Ht0.
  simpl Feed.field. destruct t0 as [kelvin |].
  - destruct Htemp as (c & _ & ->). simpl. split; eauto.
  - rewrite Htemp. simpl. split; [discriminate |].
    intros (x & Hx). discriminate Hx.
Qed.

End WellFormedArrays.

Lemma range_values_dict (data : json) (prm : Feed.parameter) :
  Feed.is_dict (Feed.ranges data) = true ->
  Feed.is_dict (Feed.range data (Feed.range_name prm)) = true ->
  Api.range_values (Feed.ranges data) (Feed.range_name prm)
  = Return (Feed.range_values data (Feed.range_name prm)).
Proof.
  intros Hr Hn. unfold Api.range_values.
  rewrite (get_dict _ _ _ Hr). fold (Feed.range data (Feed.range_name prm)).
  rewrite bind_Return. now rewrite (get_dict _ _ _ Hn).
Qed.

Lemma iter_list (v : json) :
  Feed.is_list v = true -> Py.iter v = Return (Feed.elements v).
Proof. destruct v; simpl; intros H; try discriminate H. reflexivity. Qed.

(** The shape of a forecast document, fact by fact. *)
Lemma forecast_document_inv (data : json) :
  Feed.forecast_document data = true ->
  Feed.is_dict data = true /\
  Feed.is_dict (Feed.ranges data) = true /\
  (forall prm,
     Feed.is_dict (Feed.range data (Feed.range_name prm)) = true /\
     Feed.is_list (Feed.range_values data (Feed.range_name prm)) = true) /\
  Feed.is_dict (Feed.domain data) = true /\
  Feed.is_dict (Feed.axes data) = true /\
  Feed.is_dict (Feed.t_axis data) = true /\
  Feed.is_list (Feed.time_values data) = true /\
  forallb Feed.null_or_number
    (Feed.elements (Feed.range_values data (Feed.range_name Feed.Temperature)))
  = true.
Proof.
  unfold Feed.forecast_document. intros H.
  repeat (apply andb_prop in H; destruct H as [H ?]).
  repeat split; try assumption.
  - match goal with
    | Hall : forallb _ Feed.parameters = true |- _ =>
        rewrite forallb_forall in Hall;
        assert (Hin : In prm Feed.parameters)
          by (destruct prm; simpl; tauto);
        specialize (Hall prm Hin); apply andb_prop in Hall; tauto
    end.
  - match goal with
    | Hall : forallb _ Feed.parameters = true |- _ =>
        rewrite forallb_forall in Hall;
        assert (Hin : In prm Feed.parameters)
          by (destruct prm; simpl; tauto);
        specialize (Hall prm Hin); apply andb_prop in Hall; tauto
    end.
Qed.

Lemma parse_forecast_document (data : json) :
  Feed.forecast_document data = true ->
  exists fc,
    Api.parse_forecast data = Return fc /\
    Api.forecast_loop (Feed.arrays data) 0
      (Feed.elements (Feed.time_values data)) [] = Return (Api.hourly fc).
Proof.
  intros Hdoc. apply forecast_document_inv in Hdoc.
  destruct Hdoc as (Hdata & Hranges & Hprm & Hdom & Hax & Ht & Htv & Htemp).
  destruct (forecast_loop_total (Feed.arrays data)) with
    (time_values := Feed.elements (Feed.time_values data)) (i := 0)
    (hourly_forecast := @nil Api.forecast_entry) as (h & Hh).
  { intros prm. rewrite array_of_arrays. apply Hprm. }
  { exact Htemp. }
  exists {| Api.hourly := h |}. split; [| exact Hh].
  unfold Api.parse_forecast.
  rewrite (get_dict _ _ _ Hdata). fold (Feed.ranges data). rewrite bind_Return.
  rewrite (get_dict _ _ _ Hdata). fold (Feed.domain data). rewrite bind_Return.
  rewrite (get_dict _ _ _ Hdom). fold (Feed.axes data). rewrite bind_Return.
  rewrite (get_dict _ _ _ Hax). fold (Feed.t_axis data). rewrite bind_Return.
  rewrite (get_dict _ _ _ Ht). fold (Feed.time_values data). rewrite bind_Return.
  change "temperature-2m" with (Feed.range_name Feed.Temperature).
  change "wind-speed-10m" with (Feed.range_name Feed.WindSpeed).
  change "wind-dir-10m" with (Feed.range_name Feed.WindDir).
  change "relative-humidity" with (Feed.range_name Feed.Humidity).
  change "total-precipitation" with (Feed.range_name Feed.Precipitation).
  change "cloud-cover" with (Feed.range_name Feed.CloudCover).
  rewrite (range_values_dict data Feed.Temperature Hranges (proj1 (Hprm _))).
  rewrite bind_Return.
  rewrite (range_values_dict data Feed.WindSpeed Hranges (proj1 (Hprm _))).
  rewrite bind_Return.
  rewrite (range_values_dict data Feed.WindDir Hranges (proj1 (Hprm _))).
  rewrite bind_Return.
  rewrite (range_values_dict data Feed.Humidity Hranges (proj1 (Hprm _))).
  rewrite bind_Return.
  rewrite (range_values_dict data Feed.Precipitation Hranges (proj1 (Hprm _))).
  rewrite bind_Return.
  rewrite (range_values_dict data Feed.CloudCover Hranges (proj1 (Hprm _))).
  rewrite bind_Return.
  rewrite (iter_list _ Htv). rewrite bind_Return.
  fold (Feed.arrays data). rewrite Hh. reflexivity.
Qed.

(** C7.  From a forecast document [get_forecast] returns one entry per
    element of the time axis, entry [i] dated by element [i]; the entry
    carries the field of a parameter exactly when the value array of the
    parameter has a non-null element at [i]; and where the document has no
    range for a parameter, no entry carries its field. *)
Theorem forecast_entry_per_time_step
    (session : Api.ClientSession) (lat lon : float) (data : json) :
  Feed.answers session Feed.forecast_url (Api.forecast_query lat lon) data ->
  Feed.forecast_document data = true ->
  exists fc,
    Api.get_forecast session lat lon = Return fc /\
    List.length (Api.hourly fc)
    = List.length (Feed.elements (Feed.time_values data)) /\
    forall i e, nth_error (Api.hourly fc) i = Some e ->
      nth_error (Feed.elements (Feed.time_values data)) i
      = Some (Api.datetime e) /\
      forall prm,
        (Feed.carries prm e = true <->
         exists v,
           nth_error
             (Feed.elements (Feed.range_values data (Feed.range_name prm))) i
           = Some v /\ v <> JNull) /\
        (Feed.member (Feed.ranges data) (Feed.range_name prm) = None ->
         Feed.carries prm e = false).
Proof.
  intros Hans Hdoc.
  destruct (parse_forecast_document data Hdoc) as (fc & Hparse & Hloop).
  pose proof (forecast_document_inv data Hdoc)
    as (_ & _ & Hprm & _ & _ & _ & _ & Htemp).
  exists fc. split.
  { unfold Api.get_forecast. fold Feed.forecast_url.
    now rewrite (request_answers _ _ _ _ Hans). }
  apply forecast_loop_inv in Hloop. destruct Hloop as (es & Hes & Hlen & Hat).
  simpl in Hes. rewrite Hes. split; [exact Hlen |].
  intros i e He. destruct (Hat i e He) as (tv & Htv & Hentry). simpl in Hentry.
  split.
  { apply forecast_entry_at_inv in Hentry. destruct Hentry as (-> & _).
    exact Htv. }
  intros prm.
  assert (Hiff : Feed.carries prm e = true <->
                 exists v,
                   nth_error
                     (Feed.elements
                        (Feed.range_values data (Feed.range_name prm))) i
                   = Some v /\ v <> JNull).
  { rewrite <- array_of_arrays.
    apply (entry_carries (Feed.arrays data)) with (time_value := tv);
      try assumption.
    intros prm'. rewrite array_of_arrays. apply Hprm. }
  split; [exact Hiff |].
  intros Hnone. apply not_true_is_false. intros Hc.
  apply Hiff in Hc. destruct Hc as (v & Hv & _).
  unfold Feed.range_values, Feed.range, Feed.member_or in Hv.
  rewrite Hnone in Hv. simpl in Hv. destruct i; discriminate Hv.
Qed.

(** The document that has only the temperature range: one entry, with the
    temperature and no other field. *)
Lemma forecast_entry_per_time_step_witness :
  exists fc,
    Api.get_forecast (Feed.always (Feed.ok Feed.temperature_only))
      55.6761 12.5683 = Return fc /\
    List.length (Api.hourly fc)
    = List.length (Feed.elements (Feed.time_values Feed.temperature_only)) /\
    forall i e, nth_error (Api.hourly fc) i = Some e ->
      nth_error (Feed.elements (Feed.time_values Feed.temperature_only)) i
      = Some (Api.datetime e) /\
      forall prm,
        (Feed.carries prm e = true <->
         exists v,
           nth_error
             (Feed.elements
                (Feed.range_values Feed.temperature_only (Feed.range_name prm))) i
           = Some v /\ v <> JNull) /\
        (Feed.member (Feed.ranges Feed.temperature_only) (Feed.range_name prm)
         = None ->
         Feed.carries prm e = false).
Proof.
  apply (forecast_entry_per_time_step
           (Feed.always (Feed.ok Feed.temperature_only)) 55.6761 12.5683
           Feed.temperature_only).
  - apply answers_ok.
  - reflexivity.
Defined.

(** ** The classification of failures *)

Lemma request_429 (session : Api.ClientSession) (url : string)
    (params : Api.query) (r : Api.response) :
  session url params = Api.Responds r ->
  Api.status r = 429%Z ->
  Api._request session url params
  = Raise (RateLimitExceeded Api.rate_limit_message None).
Proof.
  intros Hs Hst. unfold Api._request. rewrite Hs, Hst. reflexivity.
Qed.

(** What [_request] raises when the request fails with [err]. *)
Lemma request_fails (session : Api.ClientSession) (url : string)
    (params : Api.query) (err : exn) :
  Failure.fails_with (session url params) err ->
  Api._request session url params =
  if is_ClientResponseError err then
    if Z.eqb (Api.error_status err) 429
    then Raise (RateLimitExceeded Api.rate_limit_message (Some err))
    else Raise (CannotConnect ("API error: " ++ str err) (Some err))
  else if is_ClientError err
  then Raise (CannotConnect ("Connection error: " ++ str err) (Some err))
  else Raise err.
Proof.
  intros H. unfold Api._request.
  remember (session url params) as h eqn:Hh. clear Hh.
  destruct H as [e | r e Hst Hr | r e Hst Hr Hj].
  - reflexivity.
  - apply Z.eqb_neq in Hst. rewrite Hst, Hr. reflexivity.
  - apply Z.eqb_neq in Hst. rewrite Hst, Hr, Hj. reflexivity.
Qed.

(** The three fetching operations raise what [_request] raised. *)
Lemma failure_of_request (session : Api.ClientSession)
    (op : Failure.operation) (err : exn) :
  Api._request session (Failure.url_of op) (Failure.query_of op) = Raise err ->
  Failure.failure_of session op = Some err.
Proof.
  intros H.
  destruct op;
    unfold Failure.url_of, Failure.query_of, Feed.forecast_url in H;
    unfold Failure.failure_of, Api.get_stations, Api.get_observations,
      Api.get_forecast;
    rewrite H; reflexivity.
Qed.

(** C8, as amended.  [get_stations], [get_observations] and [get_forecast]
    raise the rate-limit condition on a response of status 429 and on an
    aiohttp response error of status 429, and the connectivity condition on
    every other aiohttp client error; [test_connection] raises the
    connectivity condition whatever its request raised, the rate-limit
    condition included. *)
Theorem client_failure_classification (session : Api.ClientSession) :
  (forall op,
     (forall r,
        session (Failure.url_of op) (Failure.query_of op) = Api.Responds r ->
        Api.status r = 429%Z ->
        Failure.failure_of session op
        = Some (RateLimitExceeded Api.rate_limit_message None)) /\
     (forall err,
        Failure.fails_with
          (session (Failure.url_of op) (Failure.query_of op)) err ->
        is_ClientError err = true ->
        exists raised,
          Failure.failure_of session op = Some raised /\
          Failure.classify raised
          = Some (if Failure.is_429 err
                  then Failure.RateLimit else Failure.Connectivity) /\
          (raised = RateLimitExceeded Api.rate_limit_message (Some err) \/
           exists msg, raised = CannotConnect msg (Some err)))) /\
  (forall err,
     Api._request session (Api.METOBS_URL ++ "/collections/station/items")%string
       [("limit", Api.QInt 1)] = Raise err ->
     Api.test_connection session
     = Raise (CannotConnect ("Connection test failed: " ++ str err) (Some err))).
Proof.
  split.
  - intros op. split.
    + intros r Hs Hst. apply failure_of_request.
      now apply request_429 with (r := r).
    + intros err Hf Hc. apply request_fails in Hf.
      destruct err; simpl in Hc; try discriminate Hc; simpl in Hf.
      * eexists. split; [apply failure_of_request; exact Hf |].
        split; [reflexivity |]. right. eauto.
      * destruct (Z.eqb status 429) eqn:Hst;
          (eexists; split; [apply failure_of_request; exact Hf |]);
          (split; [simpl; rewrite Hst; reflexivity |]);
          [left; reflexivity | right; eauto].
      * eexists. split; [apply failure_of_request; exact Hf |].
        split; [reflexivity |]. right. eauto.
  - intros err H. unfold Api.test_connection. now rewrite H.
Qed.

Lemma client_failure_classification_witness :
  Failure.failure_of (Feed.always Failure.too_many_requests)
    (Failure.GetStations true)
  = Some (RateLimitExceeded Api.rate_limit_message None)
  /\ (exists raised,
        Failure.failure_of
          (Feed.always (Api.Fails (ClientResponseError 500 "Internal Server Error")))
          (Failure.GetObservations "06180") = Some raised /\
        Failure.classify raised = Some Failure.Connectivity /\
        (raised = RateLimitExceeded Api.rate_limit_message
                    (Some (ClientResponseError 500 "Internal Server Error")) \/
         exists msg,
           raised = CannotConnect msg
                      (Some (ClientResponseError 500 "Internal Server Error"))))
  /\ Api.test_connection (Feed.always Failure.too_many_requests)
     = Raise (CannotConnect
                ("Connection test failed: " ++ Api.rate_limit_message)
                (Some (RateLimitExceeded Api.rate_limit_message None))).
Proof.
  split; [| split].
  - apply (proj1 (proj1
             (client_failure_classification (Feed.always Failure.too_many_requests))
             (Failure.GetStations true))
             {| Api.status := 429;
                Api.raise_for_status := None;
                Api.response_json := Return (JDict []) |});
      reflexivity.
  - apply (proj2 (proj1
             (client_failure_classification
                (Feed.always (Api.Fails (ClientResponseError 500 "Internal Server Error"))))
             (Failure.GetObservations "06180"))
             (ClientResponseError 500 "Internal Server Error")).
    + apply Failure.fails_on_enter.
    + reflexivity.
  - apply (proj2 (client_failure_classification
                    (Feed.always Failure.too_many_requests))
             (RateLimitExceeded Api.rate_limit_message None)).
    reflexivity.
Defined.

(** C8 as stated fails for [test_connection]: on a response of status 429
    it raises [CannotConnect], the connectivity condition. *)
Lemma test_connection_429_cannot_connect :
  Api.test_connection (Feed.always Failure.too_many_requests)
  = Raise (CannotConnect "Connection test failed: DMI API rate limit exceeded"
             (Some (RateLimitExceeded "DMI API rate limit exceeded" None)))
  /\ option_map Failure.classify
       (Failure.raised (Api.test_connection (Feed.always Failure.too_many_requests)))
     <> Some (Some Failure.RateLimit).
Proof.
  split; [reflexivity | discriminate].
Qed.

(** A plain [TimeoutError] of the request is none of the classes [_request]
    catches: the three fetching operations raise it as it is. *)
Lemma get_stations_timeout_unclassified :
  Api.get_stations (Feed.always (Api.Fails (TimeoutError "Request timed out"))) true
  = Raise (TimeoutError "Request timed out").
Proof. reflexivity. Qed.

(** C9.  [test_connection] returns [True] or raises [CannotConnect] with
    the failure of the request as its cause; it never returns [False]. *)
Theorem test_connection_never_false (session : Api.ClientSession) :
  Api.test_connection session <> Return false /\
  (Api.test_connection session = Return true \/
   exists err,
     Api.test_connection session
     = Raise (CannotConnect ("Connection test failed: " ++ str err) (Some err))).
Proof.
  unfold Api.test_connection.
  destruct (Api._request session _ _) as [data | err].
  - split; [discriminate | left; reflexivity].
  - split; [discriminate | right; eauto].
Qed.

(** ** The refresh cycle *)

Import Coordinator.

Lemma prefix_append (s t : string) : String.prefix s (s ++ t) = true.
Proof.
  induction s as [| c s IH]; simpl.
  - destruct t; reflexivity.
  - destruct (Ascii.ascii_dec c c) as [_ | Hc]; [exact IH | now elim Hc].
Qed.

(** The block of the cycle once the observations are there. *)
Lemma fetch_observed (self : coordinator) (utcnow : Z)
    (observations : Api.record) :
  get_observations (api self) (station_id self)
  = Completed (Return observations) ->
  fetch self utcnow =
  match include_forecast self, latitude self, longitude self with
  | true, Some lat, Some lon =>
      match get_forecast (api self) lat lon with
      | DeadlineElapsed => DeadlineElapsed
      | Completed (Return f) =>
          Completed (Return [("observations", Observations observations);
                             ("forecast", Forecast f);
                             ("last_updated", Datetime utcnow)])
      | Completed (Raise _) =>
          Completed (Return (Cycle.without_forecast observations utcnow))
      end
  | _, _, _ => Completed (Return (Cycle.without_forecast observations utcnow))
  end.
Proof.
  intros Ho. unfold fetch. rewrite Ho.
  destruct (include_forecast self); [| reflexivity].
  destruct (latitude self) as [lat |]; [| reflexivity].
  destruct (longitude self) as [lon |]; [| reflexivity].
  destruct (get_forecast (api self) lat lon) as [[f | err] |]; reflexivity.
Qed.

(** What a returned snapshot says about the cycle. *)
Lemma update_data_Return (self : coordinator) (utcnow : Z) (s : snapshot) :
  _async_update_data self utcnow = Return s ->
  exists observations,
    get_observations (api self) (station_id self)
    = Completed (Return observations) /\
    fetch self utcnow = Completed (Return s).
Proof.
  unfold _async_update_data. intros H.
  destruct (fetch self utcnow) as [[s' | err] |] eqn:Hf; simpl in H.
  - injection H as ->.
    unfold fetch in Hf.
    destruct (get_observations (api self) (station_id self))
      as [[observations | err] |]; try discriminate Hf.
    exists observations. split; reflexivity.
  - destruct (is_RateLimitExceeded err); [discriminate H |].
    destruct (is_CannotConnect err); [discriminate H |].
    destruct (is_TimeoutError err); discriminate H.
  - discriminate H.
Qed.

Lemma unavailable_snapshot (self : coordinator) (utcnow : Z)
    (observations : Api.record) :
  get_observations (api self) (station_id self)
  = Completed (Return observations) ->
  Cycle.forecast_unavailable self ->
  fetch self utcnow
  = Completed (Return (Cycle.without_forecast observations utcnow)).
Proof.
  intros Ho Hu. rewrite (fetch_observed _ _ _ Ho).
  destruct Hu as [-> | [Hu | [Hu | (lat & lon & err & -> & -> & Hf)]]].
  - reflexivity.
  - rewrite Hu. destruct (include_forecast self); reflexivity.
  - rewrite Hu. destruct (include_forecast self); [| reflexivity].
    destruct (latitude self); reflexivity.
  - rewrite Hf. destruct (include_forecast self); reflexivity.
Qed.

(** C2, as amended.  When the observations are fetched, the forecast is
    enabled and both coordinates are known, an exception that the fetch of
    the forecast raises before the deadline of the cycle, whichever it is,
    does not leave the cycle: the cycle returns the snapshot with the
    fetched observations and no forecast.  A fetch of the forecast that is
    still pending when the deadline passes is cancelled, which no
    [except Exception] stops: the cycle fails with the timeout
    [UpdateFailed], and nothing else makes it fail. *)
Theorem forecast_failure_is_swallowed (self : coordinator) (utcnow : Z)
    (observations : Api.record) (lat lon : float) :
  get_observations (api self) (station_id self)
  = Completed (Return observations) ->
  include_forecast self = true ->
  latitude self = Some lat ->
  longitude self = Some lon ->
  (forall err,
     get_forecast (api self) lat lon = Completed (Raise err) ->
     _async_update_data self utcnow
     = Return [("observations", Observations observations);
               ("forecast", PyNone);
               ("last_updated", Datetime utcnow)]) /\
  (get_forecast (api self) lat lon = DeadlineElapsed ->
   exists failure,
     _async_update_data self utcnow = Raise failure /\
     failure = UpdateFailed "Timeout fetching data: " (Some (TimeoutError "")) /\
     Cycle.kind_of failure = Some Cycle.Timeout) /\
  (forall failure,
     _async_update_data self utcnow = Raise failure ->
     get_forecast (api self) lat lon = DeadlineElapsed).
Proof.
  intros Ho Hi Hlat Hlon. unfold _async_update_data.
  rewrite (fetch_observed _ _ _ Ho), Hi, Hlat, Hlon.
  split; [| split].
  - intros err Hf. rewrite Hf. reflexivity.
  - intros Hf. rewrite Hf. eexists. split; [reflexivity |].
    split; reflexivity.
  - intros failure.
    destruct (get_forecast (api self) lat lon) as [[f | err] |];
      simpl; [discriminate | discriminate | reflexivity].
Qed.

(** The cycle of [test_async_update_data_forecast_error_continues]. *)
Lemma forecast_failure_is_swallowed_witness :
  let self :=
    Cycle.station_06180
      (Cycle.mock (Completed (Return Cycle.sample_observations))
         (Completed (Raise (OtherException "Forecast error"))))
      true true in
  (forall err,
     get_forecast (api self) 55.614 12.6455 = Completed (Raise err) ->
     _async_update_data self 1705320000
     = Return [("observations", Observations Cycle.sample_observations);
               ("forecast", PyNone);
               ("last_updated", Datetime 1705320000)]) /\
  (get_forecast (api self) 55.614 12.6455 = DeadlineElapsed ->
   exists failure,
     _async_update_data self 1705320000 = Raise failure /\
     failure = UpdateFailed "Timeout fetching data: " (Some (TimeoutError "")) /\
     Cycle.kind_of failure = Some Cycle.Timeout) /\
  (forall failure,
     _async_update_data self 1705320000 = Raise failure ->
     get_forecast (api self) 55.614 12.6455 = DeadlineElapsed).
Proof.
  apply (forecast_failure_is_swallowed
           (Cycle.station_06180
              (Cycle.mock (Completed (Return Cycle.sample_observations))
                 (Completed (Raise (OtherException "Forecast error"))))
              true true)
           1705320000 Cycle.sample_observations 55.614 12.6455);
    reflexivity.
Defined.

(** C2 as stated fails: a fetch of the forecast that is still pending when
    the deadline passes has failed, and the failure is not swallowed: the
    cycle raises the timeout [UpdateFailed] although the observations were
    fetched. *)
Lemma deadline_during_forecast :
  _async_update_data
    (Cycle.station_06180
       (Cycle.mock (Completed (Return Cycle.sample_observations)) DeadlineElapsed)
       true true) 0
  = Raise (UpdateFailed "Timeout fetching data: " (Some (TimeoutError "")))
  /\ ~ Cycle.swallows_forecast_failure
        (Cycle.station_06180
           (Cycle.mock (Completed (Return Cycle.sample_observations))
              DeadlineElapsed)
           true true) 0.
Proof.
  split; [reflexivity |].
  intros H.
  specialize (H Cycle.sample_observations 55.614%float 12.6455%float
                eq_refl eq_refl eq_refl eq_refl).
  assert (Hf : forall f : Api.forecast,
            get_forecast
              (api (Cycle.station_06180
                      (Cycle.mock (Completed (Return Cycle.sample_observations))
                         DeadlineElapsed)
                      true true))
              55.614 12.6455 <> Completed (Return f))
    by (intros f; discriminate).
  specialize (H Hf). discriminate H.
Qed.

(** C3.  A rate-limit failure of the fetch of the observations fails the
    cycle with the rate-limited [UpdateFailed], not the connection one; a
    connectivity failure fails it with the connection one; the passing of
    the deadline fails it with the timeout one; each carries the exception
    it was raised from. *)
Theorem observation_failure_kinds (self : coordinator) (utcnow : Z) :
  (forall msg cause,
     get_observations (api self) (station_id self)
     = Completed (Raise (RateLimitExceeded msg cause)) ->
     exists failure,
       _async_update_data self utcnow = Raise failure /\
       failure = UpdateFailed ("Rate limit exceeded, will retry: " ++ msg)
                   (Some (RateLimitExceeded msg cause)) /\
       Cycle.kind_of failure = Some Cycle.RateLimited /\
       Cycle.kind_of failure <> Some Cycle.Connection) /\
  (forall msg cause,
     get_observations (api self) (station_id self)
     = Completed (Raise (CannotConnect msg cause)) ->
     exists failure,
       _async_update_data self utcnow = Raise failure /\
       failure = UpdateFailed ("Connection error: " ++ msg)
                   (Some (CannotConnect msg cause)) /\
       Cycle.kind_of failure = Some Cycle.Connection) /\
  (Cycle.deadline_elapses self ->
   exists failure,
     _async_update_data self utcnow = Raise failure /\
     failure = UpdateFailed "Timeout fetching data: " (Some (TimeoutError "")) /\
     Cycle.kind_of failure = Some Cycle.Timeout).
Proof.
  split; [| split].
  - intros msg cause Ho. eexists. split; [| split; [reflexivity |]].
    + unfold _async_update_data, fetch. rewrite Ho. reflexivity.
    + assert (Hk : Cycle.kind_of (UpdateFailed
                              ("Rate limit exceeded, will retry: " ++ msg)
                              (Some (RateLimitExceeded msg cause)))
                   = Some Cycle.RateLimited).
      { unfold Cycle.kind_of. now rewrite prefix_append. }
      rewrite Hk. split; [reflexivity | discriminate].
  - intros msg cause Ho. eexists. split; [| split; [reflexivity |]].
    + unfold _async_update_data, fetch. rewrite Ho. reflexivity.
    + unfold Cycle.kind_of.
      change (String.prefix "Rate limit exceeded, will retry: "
                ("Connection error: " ++ msg)) with false.
      now rewrite prefix_append.
  - intros Hd. eexists. split; [| split; reflexivity].
    unfold _async_update_data.
    destruct Hd as [Ho | (observations & lat & lon & Ho & Hi & Hlat & Hlon & Hf)].
    + unfold fetch. rewrite Ho. reflexivity.
    + rewrite (fetch_observed _ _ _ Ho), Hi, Hlat, Hlon, Hf. reflexivity.
Qed.

(** The cycles of [test_async_update_data_rate_limit] and
    [test_async_update_data_connection_error], and a cycle whose deadline
    passes during the fetch of the observations. *)
Lemma observation_failure_kinds_witness :
  (exists failure,
     _async_update_data
       (Cycle.station_06180
          (Cycle.mock (Completed (Raise (RateLimitExceeded "Rate limit" None)))
             DeadlineElapsed) true true) 0
     = Raise failure /\
     failure = UpdateFailed ("Rate limit exceeded, will retry: " ++ "Rate limit")
                 (Some (RateLimitExceeded "Rate limit" None)) /\
     Cycle.kind_of failure = Some Cycle.RateLimited /\
     Cycle.kind_of failure <> Some Cycle.Connection)
  /\ (exists failure,
        _async_update_data
          (Cycle.station_06180
             (Cycle.mock (Completed (Raise (CannotConnect "Connection failed" None)))
                DeadlineElapsed) true true) 0
        = Raise failure /\
        failure = UpdateFailed ("Connection error: " ++ "Connection failed")
                    (Some (CannotConnect "Connection failed" None)) /\
        Cycle.kind_of failure = Some Cycle.Connection)
  /\ (exists failure,
        _async_update_data
          (Cycle.station_06180 (Cycle.mock DeadlineElapsed DeadlineElapsed)
             true true) 0
        = Raise failure /\
        failure = UpdateFailed "Timeout fetching data: " (Some (TimeoutError "")) /\
        Cycle.kind_of failure = Some Cycle.Timeout).
Proof.
  split; [| split].
  - apply (proj1 (observation_failure_kinds _ 0) "Rate limit" None). reflexivity.
  - apply (proj1 (proj2 (observation_failure_kinds _ 0)) "Connection failed" None).
    reflexivity.
  - apply (proj2 (proj2 (observation_failure_kinds _ 0))).
    left. reflexivity.
Defined.

(** C4.  In a snapshot the cycle returns, the forecast is absent whenever
    the forecast is disabled, a coordinate is unknown or the fetch of the
    forecast failed, and the observations are those fetched in this
    cycle. *)
Theorem snapshot_without_forecast (self : coordinator) (utcnow : Z)
    (s : snapshot) :
  _async_update_data self utcnow = Return s ->
  Cycle.forecast_unavailable self ->
  Py.assoc "forecast" s = Some PyNone /\
  exists observations,
    get_observations (api self) (station_id self)
    = Completed (Return observations) /\
    Py.assoc "observations" s = Some (Observations observations).
Proof.
  intros Hs Hu. apply update_data_Return in Hs.
  destruct Hs as (observations & Ho & Hf).
  rewrite (unavailable_snapshot _ _ _ Ho Hu) in Hf. injection Hf as <-.
  split; [reflexivity |]. exists observations. split; [exact Ho | reflexivity].
Qed.

(** The cycle of [test_async_update_data_without_coordinates]. *)
Lemma snapshot_without_forecast_witness :
  Py.assoc "forecast"
    (Cycle.without_forecast Cycle.sample_observations 1705320000)
  = Some PyNone /\
  exists observations,
    get_observations
      (api (Cycle.station_06180
              (Cycle.mock (Completed (Return Cycle.sample_observations))
                 (Completed (Return Feed.temperature_only_forecast)))
              true false))
      "06180"
    = Completed (Return observations) /\
    Py.assoc "observations"
      (Cycle.without_forecast Cycle.sample_observations 1705320000)
    = Some (Observations observations).
Proof.
  apply (snapshot_without_forecast
           (Cycle.station_06180
              (Cycle.mock (Completed (Return Cycle.sample_observations))
                 (Completed (Return Feed.temperature_only_forecast)))
              true false)
           1705320000).
  - reflexivity.
  - right. left. reflexivity.
Defined.

(** C10.  A snapshot the cycle returns has the three keys
    ["observations"], ["forecast"] and ["last_updated"] and no other; when
    the forecast is unavailable the key ["forecast"] is there, bound to
    [None]. *)
Theorem snapshot_has_three_keys (self : coordinator) (utcnow : Z)
    (s : snapshot) :
  _async_update_data self utcnow = Return s ->
  map fst s = ["observations"; "forecast"; "last_updated"] /\
  (Cycle.forecast_unavailable self ->
   In ("forecast", PyNone) s /\ Py.assoc "forecast" s = Some PyNone).
Proof.
  intros Hs. apply update_data_Return in Hs.
  destruct Hs as (observations & Ho & Hf). split.
  - rewrite (fetch_observed _ _ _ Ho) in Hf.
    destruct (include_forecast self), (latitude self) as [lat |],
      (longitude self) as [lon |];
      try (injection Hf as <-; reflexivity).
    destruct (get_forecast (api self) lat lon) as [[f | err] |];
      try discriminate Hf; injection Hf as <-; reflexivity.
  - intros Hu. rewrite (unavailable_snapshot _ _ _ Ho Hu) in Hf.
    injection Hf as <-. split; [simpl; auto | reflexivity].
Qed.

(** The cycle of [test_async_update_data_without_forecast]. *)
Lemma snapshot_has_three_keys_witness :
  map fst (Cycle.without_forecast Cycle.sample_observations 1705320000)
  = ["observations"; "forecast"; "last_updated"] /\
  (Cycle.forecast_unavailable
     (Cycle.station_06180
        (Cycle.mock (Completed (Return Cycle.sample_observations))
           (Completed (Return Feed.temperature_only_forecast)))
        false true) ->
   In ("forecast", PyNone)
     (Cycle.without_forecast Cycle.sample_observations 1705320000) /\
   Py.assoc "forecast"
     (Cycle.without_forecast Cycle.sample_observations 1705320000)
   = Some PyNone).
Proof.
  apply (snapshot_has_three_keys
           (Cycle.station_06180
              (Cycle.mock (Completed (Return Cycle.sample_observations))
                 (Completed (Return Feed.temperature_only_forecast)))
              false true)
           1705320000).
  reflexivity.
Defined.

(** ** The cases of the test suite *)

Example test_get_observations_keeps_latest :
  Api.get_observations (Feed.always (Feed.ok (Feed.collection Feed.ascending_feed)))
    "06180"
  = Return [(JStr "temp_dry",
             {| Api.value := JFloat 15.5;
                Api.observed := JStr "2024-01-15T12:00:00Z" |})].
Proof. reflexivity. Qed.

(** The feed of that test is in ascending order; with its two readings
    exchanged it is not. *)
Example ascending_feeds :
  Feed.ascending Feed.ascending_feed = true /\
  Feed.ascending Feed.descending_feed = false /\
  Feed.ascending station_feed = true.
Proof. repeat split; reflexivity. Qed.

Example test_get_forecast_handles_missing_data :
  Api.get_forecast (Feed.always (Feed.ok Feed.temperature_only)) 55.6761 12.5683
  = Return Feed.temperature_only_forecast.
Proof. reflexivity. Qed.

Example test_rate_limit_error :
  Api.get_stations (Feed.always Failure.too_many_requests) true
  = Raise (RateLimitExceeded "DMI API rate limit exceeded" None).
Proof. reflexivity. Qed.

Example test_client_error :
  Api.get_stations (Feed.always (Api.Fails (ClientError "Connection refused"))) true
  = Raise (CannotConnect "Connection error: Connection refused"
             (Some (ClientError "Connection refused"))).
Proof. reflexivity. Qed.

Example test_async_update_data_timeout :
  _async_update_data
    (Cycle.station_06180
       (Cycle.mock (Completed (Raise (TimeoutError "Timeout"))) DeadlineElapsed)
       true true) 0
  = Raise (UpdateFailed "Timeout fetching data: Timeout"
             (Some (TimeoutError "Timeout"))).
Proof. reflexivity. Qed.

(** The coordinator on the client itself: a response of status 429 to the
    request for the observations fails the cycle with the rate-limited
    [UpdateFailed]. *)
Example rate_limited_cycle :
  _async_update_data
    (Cycle.station_06180
       (DMIApiClient (Feed.always Failure.too_many_requests) true true)
       true true) 0
  = Raise (UpdateFailed
             "Rate limit exceeded, will retry: DMI API rate limit exceeded"
             (Some (RateLimitExceeded "DMI API rate limit exceeded" None))).
Proof. reflexivity. Qed.

(** * Further properties of the client *)

Lemma bind_Raise_inv {A B : Type} (r : result A) (k : A -> result B) (err : exn) :
  bind r k = Raise err ->
  r = Raise err \/ exists a, r = Return a /\ k a = Raise err.
Proof.
  destruct r as [a | e]; simpl; intros H.
  - right. exists a. split; [reflexivity | exact H].
  - left. now injection H as ->.
Qed.

Lemma raises_only_bind {A B : Type} (P : exn -> Prop) (r : result A)
    (k : A -> result B) :
  raises_only P r -> (forall a, r = Return a -> raises_only P (k a)) ->
  raises_only P (bind r k).
Proof.
  intros Hr Hk err H. apply bind_Raise_inv in H.
  destruct H as [H | (a & Ha & H)]; [now apply Hr | now apply (Hk a)].
Qed.

Lemma raises_only_Return {A : Type} (P : exn -> Prop) (a : A) :
  raises_only P (Return a).
Proof. intros err H. discriminate H. Qed.

(** ** get_stations: every station returned has an id *)

Lemma stations_loop_truthy (features : list json) :
  forall stations result : list Api.station,
    Forall (fun st => Py.truthy (Api.stationId st) = true) stations ->
    Api.stations_loop features stations = Return result ->
    Forall (fun st => Py.truthy (Api.stationId st) = true) result.
Proof.
  induction features as [| feature rest IH]; intros stations result Hs H;
    simpl in H.
  - now injection H as <-.
  - apply bind_inv in H. destruct H as (station & _ & H).
    destruct (Py.truthy (Api.stationId station)) eqn:Ht.
    + apply (IH _ _ (proj2 (Forall_app _ _ _) (conj Hs (Forall_cons _ Ht (Forall_nil _)))) H).
    + apply (IH _ _ Hs H).
Qed.

(** Whatever the response, a station that [get_stations] returns has a
    truthy [stationId]: no caller has to filter the list again. *)
Theorem get_stations_ids_truthy (session : Api.ClientSession)
    (active_only : bool) (stations : list Api.station) :
  Api.get_stations session active_only = Return stations ->
  Forall (fun st => Py.truthy (Api.stationId st) = true) stations.
Proof.
  unfold Api.get_stations. intros H.
  apply bind_inv in H. destruct H as (data & _ & H).
  apply bind_inv in H. destruct H as (features & _ & H).
  apply bind_inv in H. destruct H as (items & _ & H).
  apply (stations_loop_truthy items [] stations (Forall_nil _) H).
Qed.

Lemma get_stations_ids_truthy_witness :
  Forall (fun st => Py.truthy (Api.stationId st) = true)
    (map Feed.station_of (filter Feed.has_station_id Feed.two_stations)).
Proof.
  apply (get_stations_ids_truthy
           (Feed.always (Feed.ok (Feed.collection Feed.two_stations))) true).
  reflexivity.
Defined.

(** ** get_observations: the keys of the record *)

Lemma keys_setitem_In_any (d : Api.record) (k k' : json) (v : Api.reading) :
  In k' (keys (Api.setitem d k v)) -> In k' (keys d) \/ k' = k.
Proof.
  unfold keys. induction d as [| [k0 v0] d IH]; simpl.
  - intros [<- | []]. now right.
  - destruct (Api.key_eqb k0 k); simpl.
    + intros H. now left.
    + intros [<- | H]; [left; now left |].
      destruct (IH H) as [H' | ->]; [left; now right | now right].
Qed.

Lemma length_setitem (d : Api.record) (k : json) (v : Api.reading) :
  List.length (Api.setitem d k v) <= S (List.length d).
Proof.
  induction d as [| [k0 v0] d IH]; simpl; [lia |].
  destruct (Api.key_eqb k0 k); simpl; lia.
Qed.

Lemma observations_loop_keys (features : list json) :
  forall observations r : Api.record,
    Forall (fun k => Py.truthy k = true /\ Api.hashable k = true)
      (keys observations) ->
    Api.observations_loop features observations = Return r ->
    Forall (fun k => Py.truthy k = true /\ Api.hashable k = true) (keys r) /\
    List.length r <= List.length observations + List.length features.
Proof.
  induction features as [| feature rest IH]; intros observations r Hk H;
    simpl in H.
  - injection H as <-. split; [exact Hk | lia].
  - apply bind_inv in H. destruct H as (props & _ & H).
    apply bind_inv in H. destruct H as (param_id & _ & H).
    destruct (Py.truthy param_id) eqn:Ht.
    + apply bind_inv in H. destruct H as (v & _ & H).
      apply bind_inv in H. destruct H as (o & _ & H).
      destruct (Api.hashable param_id) eqn:Hh; [| discriminate H].
      apply IH in H.
      * destruct H as [H Hlen]. split; [exact H |].
        pose proof (length_setitem observations param_id
                      {| Api.value := v; Api.observed := o |}).
        simpl. lia.
      * apply Forall_forall. intros k Hin.
        apply keys_setitem_In_any in Hin. destruct Hin as [Hin | ->].
        -- rewrite Forall_forall in Hk. now apply Hk.
        -- now split.
    + apply IH in H; [| exact Hk]. destruct H as [H Hlen].
      split; [exact H | simpl; lia].
Qed.

(** Whatever the response, every key of the record that [get_observations]
    returns is a truthy, hashable [parameterId] (never null, never the
    empty string), and the record has at most one entry per feature. *)
Theorem get_observations_keys_truthy (session : Api.ClientSession)
    (station_id : string) (r : Api.record) :
  Api.get_observations session station_id = Return r ->
  Forall (fun k => Py.truthy k = true /\ Api.hashable k = true) (keys r) /\
  exists data features,
    Api._request session
      (Api.METOBS_URL ++ "/collections/observation/items")%string
      (Api.observations_query station_id) = Return data /\
    Py.iter (Feed.member_or data "features" (JList [])) = Return features /\
    List.length r <= List.length features.
Proof.
  unfold Api.get_observations. intros H.
  apply bind_inv in H. destruct H as (data & Hreq & H).
  apply bind_inv in H. destruct H as (features & Hf & H).
  apply get_Return in Hf. destruct Hf as [_ ->].
  apply bind_inv in H. destruct H as (items & Hit & H).
  apply observations_loop_keys in H; [| constructor].
  destruct H as [H Hlen]. split; [exact H |].
  exists data, items. repeat split; assumption.
Qed.

Lemma get_observations_keys_truthy_witness :
  Forall (fun k => Py.truthy k = true /\ Api.hashable k = true)
    (keys [(JStr "temp_dry",
            {| Api.value := JFloat 14.0;
               Api.observed := JStr "2024-01-15T11:00:00Z" |})]) /\
  exists data features,
    Api._request
      (Feed.always (Feed.ok (Feed.collection Feed.descending_feed)))
      (Api.METOBS_URL ++ "/collections/observation/items")%string
      (Api.observations_query "06180") = Return data /\
    Py.iter (Feed.member_or data "features" (JList [])) = Return features /\
    List.length [(JStr "temp_dry",
                  {| Api.value := JFloat 14.0;
                     Api.observed := JStr "2024-01-15T11:00:00Z" |})]
    <= List.length features.
Proof.
  apply (get_observations_keys_truthy
           (Feed.always (Feed.ok (Feed.collection Feed.descending_feed)))
           "06180").
  reflexivity.
Defined.

(** ** No error of aiohttp leaves the client *)

Lemma request_Raise_inv (session : Api.ClientSession) (url : string)
    (params : Api.query) (err : exn) :
  Api._request session url params = Raise err ->
  is_ClientError err = false /\
  (Failure.classify err <> None \/
   Failure.fails_with (session url params) err).
Proof.
  unfold Api._request.
  destruct (session url params) as [e | r] eqn:Hs.
  - destruct (is_ClientResponseError e) eqn:Hre.
    + destruct (Z.eqb (Api.error_status e) 429); intros H; injection H as <-;
        (split; [reflexivity | left; discriminate]).
    + destruct (is_ClientError e) eqn:Hce; intros H; injection H as <-.
      * split; [reflexivity | left; discriminate].
      * split; [exact Hce | right; constructor].
  - destruct (Z.eqb (Api.status r) 429) eqn:Hst.
    + simpl. intros H. injection H as <-.
      split; [reflexivity | left; discriminate].
    + apply Z.eqb_neq in Hst.
      destruct (Api.raise_for_status r) as [e |] eqn:Hr.
      * destruct (is_ClientResponseError e) eqn:Hre.
        -- destruct (Z.eqb (Api.error_status e) 429); intros H;
             injection H as <-; (split; [reflexivity | left; discriminate]).
        -- destruct (is_ClientError e) eqn:Hce; intros H; injection H as <-.
           ++ split; [reflexivity | left; discriminate].
           ++ split; [exact Hce | right; now constructor].
      * destruct (Api.response_json r) as [data | e] eqn:Hj;
          [intros H; discriminate H |].
        destruct (is_ClientResponseError e) eqn:Hre.
        -- destruct (Z.eqb (Api.error_status e) 429); intros H;
             injection H as <-; (split; [reflexivity | left; discriminate]).
        -- destruct (is_ClientError e) eqn:Hce; intros H; injection H as <-.
           ++ split; [reflexivity | left; discriminate].
           ++ split; [exact Hce | right; now constructor 3].
Qed.

Lemma get_python (v : json) (k : string) (default : json) :
  python_only (Py.get v k default).
Proof. intros err H. destruct v; simpl in H; try discriminate H;
  now injection H as <-. Qed.

Lemma iter_python (v : json) : python_only (Py.iter v).
Proof. intros err H. destruct v; simpl in H; try discriminate H;
  now injection H as <-. Qed.

Lemma len_python (v : json) : python_only (Py.len v).
Proof. intros err H. destruct v; simpl in H; try discriminate H;
  now injection H as <-. Qed.

Lemma getitem_python (v : json) (i : nat) : python_only (Py.getitem v i).
Proof.
  intros err H. destruct v; simpl in H; try (now injection H as <-).
  - destruct (nth_error (Py.chars s) i); [discriminate H | now injection H as <-].
  - destruct (nth_error l i); [discriminate H | now injection H as <-].
Qed.

Lemma sub_float_python (v : json) (c : float) : python_only (Py.sub_float v c).
Proof.
  intros err H. destruct v; simpl in H; try discriminate H;
    try (now injection H as <-).
  unfold Py.float_of_int in H.
  destruct (SpecFloat.binary_normalize _ _ _ _ _); simpl in H;
    try discriminate H.
  now injection H as <-.
Qed.

Ltac python_step :=
  first
    [ apply raises_only_Return
    | apply get_python | apply iter_python | apply len_python
    | apply getitem_python | apply sub_float_python
    | apply raises_only_bind; [| intros ? _] ].

Lemma coordinate_python (coordinates : json) (i : nat) :
  python_only (Api.coordinate coordinates i).
Proof.
  unfold Api.coordinate. python_step; [python_step |].
  destruct (Nat.ltb i a); python_step.
Qed.

Lemma station_of_feature_python (feature : json) :
  python_only (Api.station_of_feature feature).
Proof.
  unfold Api.station_of_feature.
  repeat first [apply coordinate_python | python_step].
Qed.

Lemma stations_loop_python (features : list json) :
  forall stations, python_only (Api.stations_loop features stations).
Proof.
  induction features as [| feature rest IH]; intros stations; simpl.
  - python_step.
  - python_step; [apply station_of_feature_python |].
    destruct (Py.truthy (Api.stationId a)); apply IH.
Qed.

Lemma observations_loop_python (features : list json) :
  forall observations,
    python_only (Api.observations_loop features observations).
Proof.
  induction features as [| feature rest IH]; intros observations; simpl.
  - python_step.
  - do 2 (python_step; [python_step |]).
    destruct (Py.truthy a0); [| apply IH].
    do 2 (python_step; [python_step |]).
    destruct (Api.hashable a0); [apply IH |].
    intros err H. now injection H as <-.
Qed.

Lemma available_python (data : json) (i : nat) :
  python_only (Api.available data i).
Proof.
  unfold Api.available. python_step; [python_step |].
  destruct (Nat.ltb i a); repeat python_step.
Qed.

Lemma forecast_entry_at_python (p : Api.parameter_data) (i : nat)
    (time_value : json) :
  python_only (Api.forecast_entry_at p i time_value).
Proof.
  unfold Api.forecast_entry_at.
  python_step; [apply available_python |].
  python_step; [destruct a; repeat python_step |].
  repeat first [apply available_python | python_step].
Qed.

Lemma forecast_loop_python (p : Api.parameter_data) (time_values : list json) :
  forall i hourly_forecast,
    python_only (Api.forecast_loop p i time_values hourly_forecast).
Proof.
  induction time_values as [| time_value rest IH]; intros i acc; simpl.
  - python_step.
  - python_step; [apply forecast_entry_at_python | apply IH].
Qed.

Lemma parse_forecast_python (data : json) :
  python_only (Api.parse_forecast data).
Proof.
  unfold Api.parse_forecast, Api.range_values.
  repeat first [apply forecast_loop_python | python_step].
Qed.

Lemma from_python_not_client (err : exn) :
  from_python err = true -> is_ClientError err = false.
Proof. destruct err; simpl; intros H; try discriminate H; reflexivity. Qed.

(** An exception that leaves [get_stations], [get_observations] or
    [get_forecast] is never an error of aiohttp: it is one of the two
    exceptions of the client, an exception of the interpreter raised while
    the document is read, or an exception of the request that is not an
    error of aiohttp, passed on as it came.  [test_connection] raises
    nothing but [CannotConnect]. *)
Theorem client_raises_no_aiohttp_error (session : Api.ClientSession) :
  (forall op err,
     Failure.failure_of session op = Some err ->
     is_ClientError err = false /\
     (Failure.classify err <> None \/
      from_python err = true \/
      Failure.fails_with
        (session (Failure.url_of op) (Failure.query_of op)) err)) /\
  (forall err,
     Api.test_connection session = Raise err ->
     Failure.classify err = Some Failure.Connectivity).
Proof.
  split.
  - intros op err H.
    assert (Hparse : forall A (parse : json -> result A),
              (forall data, python_only (parse data)) ->
              Failure.raised
                (bind (Api._request session (Failure.url_of op)
                         (Failure.query_of op)) parse) = Some err ->
              is_ClientError err = false /\
              (Failure.classify err <> None \/
               from_python err = true \/
               Failure.fails_with
                 (session (Failure.url_of op) (Failure.query_of op)) err)).
    { intros A parse Hp Hr.
      destruct (bind _ parse) as [a | e] eqn:Hb; [discriminate Hr |].
      injection Hr as ->. apply bind_Raise_inv in Hb.
      destruct Hb as [Hb | (data & _ & Hb)].
      - apply request_Raise_inv in Hb. tauto.
      - apply Hp in Hb. split; [now apply from_python_not_client | tauto]. }
    destruct op; simpl in H.
    + apply (Hparse _ (fun data =>
               features <- Py.get data "features" (JList []) ;;
               features <- Py.iter features ;;
               Api.stations_loop features [])); [| exact H].
      intros data. repeat first [apply stations_loop_python | python_step].
    + apply (Hparse _ (fun data =>
               features <- Py.get data "features" (JList []) ;;
               features <- Py.iter features ;;
               Api.observations_loop features [])); [| exact H].
      intros data. repeat first [apply observations_loop_python | python_step].
    + apply (Hparse _ Api.parse_forecast); [| exact H].
      apply parse_forecast_python.
  - intros err H. unfold Api.test_connection in H.
    destruct (Api._request session _ _); [discriminate H |].
    now injection H as <-.
Qed.

Lemma client_raises_no_aiohttp_error_witness :
  is_ClientError (CannotConnect "Connection error: Connection refused"
                    (Some (ClientError "Connection refused"))) = false /\
  (Failure.classify (CannotConnect "Connection error: Connection refused"
                       (Some (ClientError "Connection refused"))) <> None \/
   from_python (CannotConnect "Connection error: Connection refused"
                  (Some (ClientError "Connection refused"))) = true \/
   Failure.fails_with
     (Feed.always (Api.Fails (ClientError "Connection refused"))
        (Failure.url_of (Failure.GetStations true))
        (Failure.query_of (Failure.GetStations true)))
     (CannotConnect "Connection error: Connection refused"
        (Some (ClientError "Connection refused")))).
Proof.
  apply (proj1 (client_raises_no_aiohttp_error
                  (Feed.always (Api.Fails (ClientError "Connection refused"))))
           (Failure.GetStations true)).
  reflexivity.
Defined.

(** ** get_forecast: the values within the time axis are kept *)

(** In a forecast that [get_forecast] returns, whatever the document, there
    is one entry for each element the loop finds on the time axis.  A
    non-null value found upstream at an index below that number is in the
    entry of its index: a temperature as that number minus 273.15, any
    other value as it is.  A value at an index past the end of the time
    axis is dropped: the forecast has no entry of that index. *)
Theorem forecast_values_within_time_axis
    (session : Api.ClientSession) (lat lon : float) (fc : Api.forecast) :
  Api.get_forecast session lat lon = Return fc ->
  exists data time_values,
    Api._request session Feed.forecast_url (Api.forecast_query lat lon)
      = Return data /\
    Py.iter (Feed.time_values data) = Return time_values /\
    List.length (Api.hourly fc) = List.length time_values /\
    forall i prm v,
      Py.getitem (Feed.range_values data (Feed.range_name prm)) i = Return v ->
      v <> JNull ->
      if Nat.ltb i (List.length time_values) then
        exists e,
          nth_error (Api.hourly fc) i = Some e /\
          match prm with
          | Feed.Temperature =>
              exists kelvin,
                Feed.as_float v = Some kelvin /\
                Api.temperature e = Some (PrimFloat.sub kelvin 273.15)
          | _ => Feed.field prm e = Some v
          end
      else nth_error (Api.hourly fc) i = None.
Proof.
  unfold Api.get_forecast. intros H.
  apply bind_inv in H. destruct H as (data & Hreq & Hparse).
  destruct (parse_forecast_inv _ _ Hparse) as (time_values & Hiter & Hloop).
  apply forecast_loop_inv in Hloop. destruct Hloop as (es & Hes & Hlen & _).
  simpl in Hes. rewrite <- Hes in Hlen.
  exists data, time_values.
  split; [exact Hreq |]. split; [exact Hiter |]. split; [exact Hlen |].
  intros i prm v Hget Hv. rewrite <- Hlen.
  destruct (Nat.ltb i (List.length (Api.hourly fc))) eqn:Hi.
  - apply Nat.ltb_lt in Hi.
    destruct (nth_error (Api.hourly fc) i) as [e |] eqn:He;
      [| apply nth_error_None in He; lia].
    exists e. split; [reflexivity |].
    destruct (parse_forecast_entry _ _ _ _ Hparse He) as (tv & Hat).
    apply forecast_entry_at_inv in Hat.
    destruct Hat as (_ & (t0 & Ht0 & Htemp) & Hrest).
    pose proof (available_complete _ _ _ Hget Hv) as Hav.
    rewrite <- array_of_arrays in Hav.
    destruct prm;
      try (rewrite Hrest in Hav by discriminate; injection Hav as Hf; exact Hf).
    change (array_of (Feed.arrays data) Feed.Temperature)
      with (Api.temperature_data (Feed.arrays data)) in Hav.
    rewrite Hav in Ht0. injection Ht0 as <-.
    destruct Htemp as (c & Hsub & Hc).
    apply sub_float_Return in Hsub. destruct Hsub as (k & Hk & ->).
    exists k. split; assumption.
  - apply Nat.ltb_ge in Hi. now apply nth_error_None.
Qed.

(** A document with one time step and two temperatures: the second
    temperature is in no entry. *)
Lemma forecast_values_within_time_axis_witness :
  exists data time_values,
    Api._request (Feed.always (Feed.ok surplus_temperature)) Feed.forecast_url
      (Api.forecast_query 55.6761 12.5683) = Return data /\
    Py.iter (Feed.time_values data) = Return time_values /\
    List.length (Api.hourly Feed.temperature_only_forecast)
    = List.length time_values /\
    forall i prm v,
      Py.getitem (Feed.range_values data (Feed.range_name prm)) i = Return v ->
      v <> JNull ->
      if Nat.ltb i (List.length time_values) then
        exists e,
          nth_error (Api.hourly Feed.temperature_only_forecast) i = Some e /\
          match prm with
          | Feed.Temperature =>
              exists kelvin,
                Feed.as_float v = Some kelvin /\
                Api.temperature e = Some (PrimFloat.sub kelvin 273.15)
          | _ => Feed.field prm e = Some v
          end
      else nth_error (Api.hourly Feed.temperature_only_forecast) i = None.
Proof.
  apply (forecast_values_within_time_axis
           (Feed.always (Feed.ok surplus_temperature)) 55.6761 12.5683
           Feed.temperature_only_forecast).
  reflexivity.
Defined.

(** * Further properties of the cycle *)

(** When the forecast is disabled, a coordinate is unknown or the fetch of
    the observations does not return, the cycle does not depend on
    [get_forecast]: the forecast is not requested. *)
Theorem forecast_not_requested (self : coordinator) (utcnow : Z)
    (other : float -> float -> awaited Api.forecast) :
  (include_forecast self = false \/
   latitude self = None \/
   longitude self = None \/
   forall observations,
     get_observations (api self) (station_id self)
     <> Completed (Return observations)) ->
  _async_update_data (with_forecast self other) utcnow
  = _async_update_data self utcnow.
Proof.
  intros H. unfold _async_update_data, fetch. simpl.
  destruct (get_observations (api self) (station_id self))
    as [[observations | err] |] eqn:Ho; try reflexivity.
  destruct H as [H | [H | [H | H]]].
  - now rewrite H.
  - rewrite H. now destruct (include_forecast self).
  - rewrite H. destruct (include_forecast self); [| reflexivity].
    now destruct (latitude self).
  - now elim (H observations).
Qed.

(** The coordinator of [test_async_update_data_without_forecast] gives the
    same snapshot on a client whose forecast would fail. *)
Lemma forecast_not_requested_witness :
  _async_update_data
    (with_forecast
       (Cycle.station_06180
          (Cycle.mock (Completed (Return Cycle.sample_observations))
             (Completed (Return Feed.temperature_only_forecast)))
          false true)
       (fun _ _ => Completed (Raise (OtherException "not called"))))
    1705320000
  = _async_update_data
      (Cycle.station_06180
         (Cycle.mock (Completed (Return Cycle.sample_observations))
            (Completed (Return Feed.temperature_only_forecast)))
         false true)
      1705320000.
Proof.
  apply (forecast_not_requested
           (Cycle.station_06180
              (Cycle.mock (Completed (Return Cycle.sample_observations))
                 (Completed (Return Feed.temperature_only_forecast)))
              false true)
           1705320000).
  left. reflexivity.
Defined.

Lemma live_get_observations (session : Api.ClientSession) (station_id : string)
    (coordinates : option (float * float)) (include : bool) :
  get_observations (api (live session station_id coordinates include))
    (Coordinator.station_id (live session station_id coordinates include))
  = Completed (Api.get_observations session station_id).
Proof. reflexivity. Qed.

Lemma live_observations_fail (session : Api.ClientSession) (station_id : string)
    (coordinates : option (float * float)) (include : bool) (utcnow : Z)
    (err : exn) :
  Api._request session
    (Api.METOBS_URL ++ "/collections/observation/items")%string
    (Api.observations_query station_id) = Raise err ->
  _async_update_data (live session station_id coordinates include) utcnow
  = if is_RateLimitExceeded err then
      Raise (UpdateFailed ("Rate limit exceeded, will retry: " ++ str err)
               (Some err))
    else if is_CannotConnect err then
      Raise (UpdateFailed ("Connection error: " ++ str err) (Some err))
    else if is_TimeoutError err then
      Raise (UpdateFailed ("Timeout fetching data: " ++ str err) (Some err))
    else Raise err.
Proof.
  intros H. unfold _async_update_data, fetch.
  rewrite live_get_observations. unfold Api.get_observations. rewrite H.
  reflexivity.
Qed.

(** The cycle on the client itself, when the request for the observations
    fails.  A response of status 429 fails the cycle with the rate-limited
    [UpdateFailed]; an error of aiohttp fails it with the rate-limited one
    if it is a response error of status 429 and with the connection one
    otherwise; a plain [TimeoutError], which the client passes on, fails it
    with the timeout one; any other exception leaves the cycle as it came,
    not as an [UpdateFailed]. *)
Theorem live_cycle_failures (session : Api.ClientSession) (station_id : string)
    (coordinates : option (float * float)) (include : bool) (utcnow : Z) :
  let self := live session station_id coordinates include in
  let h := session (Api.METOBS_URL ++ "/collections/observation/items")%string
             (Api.observations_query station_id) in
  (forall r, h = Api.Responds r -> Api.status r = 429%Z ->
     _async_update_data self utcnow
     = Raise (UpdateFailed
                "Rate limit exceeded, will retry: DMI API rate limit exceeded"
                (Some (RateLimitExceeded Api.rate_limit_message None)))) /\
  (forall err, Failure.fails_with h err -> is_ClientError err = true ->
     exists msg cause,
       _async_update_data self utcnow = Raise (UpdateFailed msg (Some cause)) /\
       Cycle.kind_of (UpdateFailed msg (Some cause))
       = Some (if Failure.is_429 err
               then Cycle.RateLimited else Cycle.Connection) /\
       (cause = RateLimitExceeded Api.rate_limit_message (Some err) \/
        exists m, cause = CannotConnect m (Some err))) /\
  (forall m, Failure.fails_with h (TimeoutError m) ->
     _async_update_data self utcnow
     = Raise (UpdateFailed ("Timeout fetching data: " ++ m)
                (Some (TimeoutError m)))) /\
  (forall err, Failure.fails_with h err ->
     is_ClientError err = false -> is_TimeoutError err = false ->
     Failure.classify err = None ->
     _async_update_data self utcnow = Raise err).
Proof.
  intros self h. subst self h. repeat split.
  - intros r Hs Hst.
    rewrite (live_observations_fail _ _ _ _ _ _ (request_429 _ _ _ _ Hs Hst)).
    reflexivity.
  - intros err Hf Hc. apply request_fails in Hf.
    destruct err; simpl in Hc; try discriminate Hc; simpl in Hf.
    + rewrite (live_observations_fail _ _ _ _ _ _ Hf). simpl.
      do 2 eexists. split; [reflexivity |]. split; [reflexivity |].
      right. eauto.
    + destruct (Z.eqb status 429) eqn:Hst;
        rewrite (live_observations_fail _ _ _ _ _ _ Hf); simpl;
        do 2 eexists; (split; [reflexivity |]);
        (split; [rewrite Hst; reflexivity |]);
        [left; reflexivity | right; eauto].
    + rewrite (live_observations_fail _ _ _ _ _ _ Hf). simpl.
      do 2 eexists. split; [reflexivity |]. split; [reflexivity |].
      right. eauto.
  - intros m Hf. apply request_fails in Hf. simpl in Hf.
    rewrite (live_observations_fail _ _ _ _ _ _ Hf). reflexivity.
  - intros err Hf Hc Ht Hcl. apply request_fails in Hf.
    assert (Hre : is_ClientResponseError err = false)
      by (destruct err; simpl in Hc |- *; congruence).
    rewrite Hre, Hc in Hf.
    rewrite (live_observations_fail _ _ _ _ _ _ Hf). rewrite Ht.
    destruct err; simpl in Hcl |- *; try discriminate Hcl; reflexivity.
Qed.

Lemma live_cycle_failures_witness :
  _async_update_data
    (live (Feed.always Failure.too_many_requests) "06180" None true) 0
  = Raise (UpdateFailed
             "Rate limit exceeded, will retry: DMI API rate limit exceeded"
             (Some (RateLimitExceeded Api.rate_limit_message None)))
  /\ _async_update_data
       (live (Feed.always (Api.Fails (TimeoutError "Request timed out")))
          "06180" None true) 0
     = Raise (UpdateFailed ("Timeout fetching data: " ++ "Request timed out")
                (Some (TimeoutError "Request timed out")))
  /\ _async_update_data
       (live (Feed.always (Api.Fails (ValueError "Expecting value")))
          "06180" None true) 0
     = Raise (ValueError "Expecting value").
Proof.
  split; [| split].
  - apply (proj1 (live_cycle_failures
                    (Feed.always Failure.too_many_requests) "06180" None true 0)
             {| Api.status := 429;
                Api.raise_for_status := None;
                Api.response_json := Return (JDict []) |});
      reflexivity.
  - apply (proj1 (proj2 (proj2
             (live_cycle_failures
                (Feed.always (Api.Fails (TimeoutError "Request timed out")))
                "06180" None true 0)))).
    apply Failure.fails_on_enter.
  - apply (proj2 (proj2 (proj2
             (live_cycle_failures
                (Feed.always (Api.Fails (ValueError "Expecting value")))
                "06180" None true 0)))).
    + apply Failure.fails_on_enter.
    + reflexivity.
    + reflexivity.
    + reflexivity.
Defined.

(** The cycle on the client itself once the observations are fetched in
    time. *)
Lemma cycle_after_observations (session : Api.ClientSession)
    (station_id : string) (coordinates : option (float * float))
    (include fc_in_time : bool) (utcnow : Z) (observations : Api.record) :
  Api.get_observations session station_id = Return observations ->
  _async_update_data
    (deployed session station_id coordinates include true fc_in_time) utcnow
  = if forecast_pending coordinates include fc_in_time
    then Raise (UpdateFailed "Timeout fetching data: " (Some (TimeoutError "")))
    else Return [("observations", Observations observations);
                 ("forecast", live_forecast session coordinates include);
                 ("last_updated", Datetime utcnow)].
Proof.
  intros Ho. unfold _async_update_data.
  rewrite (fetch_observed _ _ observations) by (simpl; now rewrite Ho).
  unfold live_forecast, forecast_pending. simpl.
  destruct include; [| reflexivity].
  destruct coordinates as [[lat lon] |]; [| reflexivity]. simpl.
  destruct fc_in_time; [| reflexivity].
  destruct (Api.get_forecast session lat lon); reflexivity.
Qed.

(** The same when both requests end in time. *)
Lemma live_cycle (session : Api.ClientSession) (station_id : string)
    (coordinates : option (float * float)) (include : bool) (utcnow : Z)
    (observations : Api.record) :
  Api.get_observations session station_id = Return observations ->
  _async_update_data (live session station_id coordinates include) utcnow
  = Return [("observations", Observations observations);
            ("forecast", live_forecast session coordinates include);
            ("last_updated", Datetime utcnow)].
Proof.
  intros Ho.
  change (live session station_id coordinates include)
    with (deployed session station_id coordinates include true true).
  rewrite (cycle_after_observations _ _ _ _ _ _ _ Ho).
  unfold forecast_pending. destruct include, coordinates; reflexivity.
Qed.

(** The cycle on the client itself, once the observations are fetched in
    time.  If the forecast is requested and the request is still pending
    when the deadline passes, the cycle fails with the timeout
    [UpdateFailed] and the observations are lost.  In every other case,
    whatever the request for the forecast does, the cycle returns the
    snapshot with these observations; the forecast in it is the one
    [get_forecast] returned, if it was requested and returned one, and
    [None] otherwise. *)
Theorem live_cycle_after_observations (session : Api.ClientSession)
    (station_id : string) (coordinates : option (float * float))
    (include fc_in_time : bool) (utcnow : Z) (observations : Api.record) :
  Api.get_observations session station_id = Return observations ->
  let self := deployed session station_id coordinates include true fc_in_time in
  (forecast_pending coordinates include fc_in_time = true ->
   exists failure,
     _async_update_data self utcnow = Raise failure /\
     failure = UpdateFailed "Timeout fetching data: " (Some (TimeoutError "")) /\
     Cycle.kind_of failure = Some Cycle.Timeout) /\
  (forecast_pending coordinates include fc_in_time = false ->
   _async_update_data self utcnow
   = Return [("observations", Observations observations);
             ("forecast", live_forecast session coordinates include);
             ("last_updated", Datetime utcnow)]).
Proof.
  intros Ho self. subst self.
  rewrite (cycle_after_observations _ _ _ _ _ _ _ Ho).
  split; intros ->.
  - eexists. split; [reflexivity |]. split; reflexivity.
  - reflexivity.
Qed.

(** The observations are served; the request for the forecast gets a
    response of status 429 in the first cycle and is still pending at the
    deadline in the second. *)
Lemma live_cycle_after_observations_witness :
  _async_update_data
    (deployed (observations_then
                 (Feed.ok (Feed.feature_collection Feed.ascending_feed))
                 Failure.too_many_requests)
       "06180" (Some (55.614%float, 12.6455%float)) true true true)
    1705320000
  = Return [("observations",
             Observations
               [(JStr "temp_dry",
                 {| Api.value := JFloat 15.5;
                    Api.observed := JStr "2024-01-15T12:00:00Z" |})]);
            ("forecast", PyNone);
            ("last_updated", Datetime 1705320000)]
  /\ exists failure,
       _async_update_data
         (deployed (observations_then
                      (Feed.ok (Feed.feature_collection Feed.ascending_feed))
                      Failure.too_many_requests)
            "06180" (Some (55.614%float, 12.6455%float)) true true false)
         1705320000
       = Raise failure /\
       failure = UpdateFailed "Timeout fetching data: " (Some (TimeoutError "")) /\
       Cycle.kind_of failure = Some Cycle.Timeout.
Proof.
  split.
  - apply (proj2 (live_cycle_after_observations
                    (observations_then
                       (Feed.ok (Feed.feature_collection Feed.ascending_feed))
                       Failure.too_many_requests)
                    "06180" (Some (55.614%float, 12.6455%float)) true true
                    1705320000
                    [(JStr "temp_dry",
                      {| Api.value := JFloat 15.5;
                         Api.observed := JStr "2024-01-15T12:00:00Z" |})]
                    eq_refl)).
    reflexivity.
  - apply (proj1 (live_cycle_after_observations
                    (observations_then
                       (Feed.ok (Feed.feature_collection Feed.ascending_feed))
                       Failure.too_many_requests)
                    "06180" (Some (55.614%float, 12.6455%float)) true false
                    1705320000
                    [(JStr "temp_dry",
                      {| Api.value := JFloat 15.5;
                         Api.observed := JStr "2024-01-15T12:00:00Z" |})]
                    eq_refl)).
    reflexivity.
Defined.

(** * Properties of the weather entity *)

Lemma get_observation_value_spec (data : option snapshot)
    (observations : Api.record) (key : string) :
  has_observations data observations ->
  Weather._get_observation_value data key
  = Return (match Api.lookup observations (JStr key) with
            | Some r => Api.value r
            | None => JNull
            end).
Proof.
  intros (s & -> & Hs). unfold Weather._get_observation_value.
  unfold Weather._observations, Data.get. rewrite Hs. simpl.
  destruct (Api.lookup observations (JStr key)); reflexivity.
Qed.

Lemma condition_map_known (code : Z) :
  In (Const.get Const.CONDITION_MAP code "cloudy") conditions.
Proof.
  unfold Const.CONDITION_MAP, Const.get, conditions.
  repeat match goal with
         | |- context [Z.eqb ?c code] => destruct (Z.eqb c code); [simpl; tauto |]
         end.
  simpl. tauto.
Qed.

Lemma condition_of_cover_known (cover : float) :
  In (Data.condition_of_cover cover) conditions.
Proof.
  unfold Data.condition_of_cover, conditions.
  destruct (Data.float_lt_int cover 20); [simpl; tauto |].
  destruct (Data.float_lt_int cover 60); simpl; tauto.
Qed.

Section WeatherEntity.

Variable int_of_str : string -> option Z.
Variable float_of_str : string -> option float.

Lemma condition_from_cloud_cover_known (data : option snapshot) (c : string) :
  Weather.condition_from_cloud_cover float_of_str data = Return c ->
  In c conditions.
Proof.
  unfold Weather.condition_from_cloud_cover. intros H.
  apply bind_inv in H. destruct H as (cloud_cover & _ & H).
  destruct (Py.is_none cloud_cover).
  - injection H as <-. simpl. tauto.
  - destruct (Data.to_float float_of_str cloud_cover) as [cover | err].
    + injection H as <-. apply condition_of_cover_known.
    + destruct (Data.is_ValueError_or_TypeError err); [| discriminate H].
      injection H as <-. simpl. tauto.
Qed.

(** Whatever the snapshot holds, a condition that [condition] returns is
    one of the ten the tables and the cloud-cover guess can give; it is
    never [None]. *)
Theorem condition_is_known (data : option snapshot) (c : string) :
  Weather.condition int_of_str float_of_str data = Return c ->
  In c conditions.
Proof.
  unfold Weather.condition. intros H.
  apply bind_inv in H. destruct H as (weather_code & _ & H).
  destruct (Py.is_none weather_code).
  - now apply condition_from_cloud_cover_known in H.
  - destruct (Data.int int_of_str weather_code) as [code | err].
    + injection H as <-. apply condition_map_known.
    + destruct (Data.is_ValueError_or_TypeError err); [| discriminate H].
      now apply condition_from_cloud_cover_known in H.
Qed.

(** When the station reports a weather code that [int] accepts, the
    condition is the one of [CONDITION_MAP] for that code, and ["cloudy"]
    for a code that is not in the table, whatever the cloud cover. *)
Theorem condition_weather_code_first (data : option snapshot)
    (observations : Api.record) (r : Api.reading) (code : Z) :
  has_observations data observations ->
  Api.lookup observations (JStr "weather") = Some r ->
  Data.int int_of_str (Api.value r) = Return code ->
  Weather.condition int_of_str float_of_str data
  = Return (Const.get Const.CONDITION_MAP code "cloudy") /\
  (forall c, In (code, c) Const.CONDITION_MAP ->
     Const.get Const.CONDITION_MAP code "cloudy" = c) /\
  ((forall c, ~ In (code, c) Const.CONDITION_MAP) ->
   Const.get Const.CONDITION_MAP code "cloudy" = "cloudy").
Proof.
  intros Hd Hr Hc. split; [| split].
  - unfold Weather.condition.
    rewrite (get_observation_value_spec _ _ "weather" Hd), Hr.
    rewrite bind_Return.
    destruct (Api.value r) eqn:Hv; simpl Py.is_none; cbv iota;
      try (rewrite Hc; reflexivity).
    simpl in Hc. discriminate Hc.
  - intros c Hin. unfold Const.CONDITION_MAP in Hin. simpl in Hin.
    repeat (destruct Hin as [Hin | Hin];
            [injection Hin as <- <-; reflexivity |]).
    destruct Hin.
  - intros Hnot.
    assert (Hgen : forall table,
              (forall c, ~ In (code, c) table) ->
              Const.get table code "cloudy" = "cloudy").
    { induction table as [| [k c] table IH]; intros Hn; simpl; [reflexivity |].
      destruct (Z.eqb k code) eqn:Hk.
      - apply Z.eqb_eq in Hk. subst k. elim (Hn c). now left.
      - apply IH. intros c' Hin. apply (Hn c'). now right. }
    now apply Hgen.
Qed.

End WeatherEntity.

Lemma condition_is_known_witness : In "rainy" conditions.
Proof.
  apply (condition_is_known no_parse no_parse (Some rainy_snapshot)).
  reflexivity.
Defined.

Lemma condition_weather_code_first_witness :
  Weather.condition no_parse no_parse (Some rainy_snapshot)
  = Return (Const.get Const.CONDITION_MAP 61 "cloudy") /\
  (forall c, In (61%Z, c) Const.CONDITION_MAP ->
     Const.get Const.CONDITION_MAP 61 "cloudy" = c) /\
  ((forall c, ~ In (61%Z, c) Const.CONDITION_MAP) ->
   Const.get Const.CONDITION_MAP 61 "cloudy" = "cloudy").
Proof.
  apply (condition_weather_code_first no_parse no_parse (Some rainy_snapshot)
           [(JStr "weather",
             {| Api.value := JInt 61;
                Api.observed := JStr "2024-01-15T12:00:00Z" |});
            (JStr "cloud_cover",
             {| Api.value := JFloat 10.0;
                Api.observed := JStr "2024-01-15T12:00:00Z" |})]
           {| Api.value := JInt 61;
              Api.observed := JStr "2024-01-15T12:00:00Z" |} 61).
  - eexists. split; reflexivity.
  - reflexivity.
  - reflexivity.
Defined.

Section Conversions.

Variable int_of_str : string -> option Z.
Variable float_of_str : string -> option float.

Lemma int_raises (v : json) (err : exn) :
  Data.int int_of_str v = Raise err ->
  Data.is_ValueError_or_TypeError err = true \/ exists m, err = OverflowError m.
Proof.
  destruct v; simpl; intros H; try discriminate H;
    try (injection H as <-; left; reflexivity).
  - unfold Data.int_of_float in H.
    destruct (FloatOps.Prim2SF f); try discriminate H; injection H as <-;
      [right; eauto | left; reflexivity].
  - destruct (int_of_str s); [discriminate H |].
    injection H as <-. left. reflexivity.
Qed.

Lemma to_float_raises (v : json) (err : exn) :
  Data.to_float float_of_str v = Raise err ->
  Data.is_ValueError_or_TypeError err = true \/ exists m, err = OverflowError m.
Proof.
  destruct v; simpl; intros H; try discriminate H;
    try (injection H as <-; left; reflexivity).
  - unfold Py.float_of_int in H.
    destruct (SpecFloat.binary_normalize _ _ _ _ _); try discriminate H.
    injection H as <-. right. eauto.
  - destruct (float_of_str s); [discriminate H |].
    injection H as <-. left. reflexivity.
Qed.

Lemma overflow_not_caught (m : string) :
  Data.is_ValueError_or_TypeError (OverflowError m) = false.
Proof. reflexivity. Qed.

Lemma condition_from_cloud_cover_raises (data : option snapshot)
    (observations : Api.record) (err : exn) :
  has_observations data observations ->
  Weather.condition_from_cloud_cover float_of_str data = Raise err ->
  exists m, err = OverflowError m.
Proof.
  intros Hd. unfold Weather.condition_from_cloud_cover.
  rewrite (get_observation_value_spec _ _ "cloud_cover" Hd), bind_Return.
  destruct (Py.is_none _); [discriminate |].
  destruct (Data.to_float float_of_str _) as [cover | e] eqn:Hf;
    [discriminate |].
  destruct (to_float_raises _ _ Hf) as [Hc | (m & ->)].
  - rewrite Hc. discriminate.
  - rewrite overflow_not_caught. intros H. injection H as <-. eauto.
Qed.

(** On a snapshot of the coordinator, [condition] and [native_visibility]
    raise nothing but [OverflowError], which [except (ValueError,
    TypeError)] does not catch: the value is an infinite float read as a
    weather code, or an int beyond the range of a float. *)
Theorem weather_raises_only_overflow (data : option snapshot)
    (observations : Api.record) (err : exn) :
  has_observations data observations ->
  (Weather.condition int_of_str float_of_str data = Raise err \/
   Weather.native_visibility float_of_str data = Raise err) ->
  exists m, err = OverflowError m.
Proof.
  intros Hd [H | H].
  - unfold Weather.condition in H.
    rewrite (get_observation_value_spec _ _ "weather" Hd), bind_Return in H.
    destruct (Py.is_none _).
    + now apply condition_from_cloud_cover_raises with (observations := observations)
        in H.
    + destruct (Data.int int_of_str _) as [code | e] eqn:Hi; [discriminate H |].
      destruct (int_raises _ _ Hi) as [Hc | (m & ->)].
      * rewrite Hc in H.
        now apply condition_from_cloud_cover_raises
          with (observations := observations) in H.
      * rewrite overflow_not_caught in H. injection H as <-. eauto.
  - unfold Weather.native_visibility in H.
    rewrite (get_observation_value_spec _ _ "visibility" Hd), bind_Return in H.
    destruct (Py.is_none _); [discriminate H |].
    destruct (Data.to_float float_of_str _) as [m | e] eqn:Hf; [discriminate H |].
    destruct (to_float_raises _ _ Hf) as [Hc | (m & ->)].
    + rewrite Hc in H. discriminate H.
    + rewrite overflow_not_caught in H. injection H as <-. eauto.
Qed.

End Conversions.

Lemma weather_raises_only_overflow_witness :
  exists m,
    OverflowError "cannot convert float infinity to integer" = OverflowError m.
Proof.
  apply (weather_raises_only_overflow no_parse no_parse
           (Some infinite_code_snapshot)
           [(JStr "weather",
             {| Api.value := JFloat infinity;
                Api.observed := JStr "2024-01-15T12:00:00Z" |})]).
  - eexists. split; reflexivity.
  - left. reflexivity.
Defined.

(** ** async_forecast_hourly *)

Lemma forecast_of_entry_shown (e : Api.forecast_entry)
    (fo : Weather.Host.Forecast) :
  Weather.forecast_of_entry e = Return fo -> shown_as e fo.
Proof.
  unfold Weather.forecast_of_entry. intros H.
  apply bind_inv in H. destruct H as (cond & Hc & H).
  injection H as <-. unfold shown_as. simpl.
  repeat (split; [reflexivity |]).
  destruct (Api.cloud_cover e) as [cloud |].
  - apply bind_inv in Hc. destruct Hc as (c & Hcloud & Hc).
    injection Hc as <-. split; [split; discriminate |].
    intros z Hz. injection Hz as ->.
    unfold Weather.condition_of_cloud in Hcloud. simpl in Hcloud.
    unfold condition_of_percent.
    destruct (Z.ltb z 20); [now injection Hcloud as <- |].
    simpl in Hcloud. destruct (Z.ltb z 60); now injection Hcloud as <-.
  - injection Hc as <-. split; [split; reflexivity | discriminate].
Qed.

Lemma forecasts_loop_inv (hourly : list Api.forecast_entry) :
  forall forecasts l : list Weather.Host.Forecast,
    Weather.forecasts_loop hourly forecasts = Return l ->
    exists fs,
      l = forecasts ++ fs /\
      List.length fs = List.length hourly /\
      forall i e, nth_error hourly i = Some e ->
        exists fo, nth_error fs i = Some fo /\
                   Weather.forecast_of_entry e = Return fo.
Proof.
  induction hourly as [| entry rest IH]; intros acc l H; simpl in H.
  - injection H as <-. exists []. rewrite app_nil_r.
    split; [reflexivity |]. split; [reflexivity |].
    intros i e Hi. destruct i; discriminate Hi.
  - apply bind_inv in H. destruct H as (fo & Hfo & H).
    apply IH in H. destruct H as (fs & -> & Hlen & Hfs).
    exists (fo :: fs). rewrite <- app_assoc.
    split; [reflexivity |]. split; [simpl; now rewrite Hlen |].
    intros [| i] e Hi; simpl in Hi.
    + injection Hi as <-. exists fo. split; [reflexivity | exact Hfo].
    + apply (Hfs i e Hi).
Qed.

(** A list that [async_forecast_hourly] returns is never empty: it has one
    forecast for each entry of the snapshot's forecast, in the same order,
    with the entry's time and values unchanged and a condition exactly
    where the entry has a cloud cover: for an integer cover below 20
    ["sunny"], below 60 ["partlycloudy"], otherwise ["cloudy"]. *)
Theorem forecast_hourly_shows_entries (data : option snapshot)
    (l : list Weather.Host.Forecast) :
  Weather.async_forecast_hourly data = Return (Some l) ->
  exists s f,
    data = Some s /\
    Py.assoc "forecast" s = Some (Forecast f) /\
    l <> [] /\
    List.length l = List.length (Api.hourly f) /\
    forall i e, nth_error (Api.hourly f) i = Some e ->
      exists fo, nth_error l i = Some fo /\ shown_as e fo.
Proof.
  unfold Weather.async_forecast_hourly. intros H.
  destruct data as [s |]; [| discriminate H].
  unfold Data.get in H.
  destruct (Py.assoc "forecast" s) as [[observations | f | | t] |] eqn:Hs;
    try discriminate H.
  - destruct (Api.lookup observations (JStr "hourly")); discriminate H.
  - exists s, f. split; [reflexivity |]. split; [exact Hs |].
    destruct (Api.hourly f) as [| entry rest] eqn:Hh; [discriminate H |].
    apply bind_inv in H. destruct H as (l' & Hloop & H).
    injection H as <-. apply forecasts_loop_inv in Hloop.
    destruct Hloop as (fs & -> & Hlen & Hfs). simpl app.
    split; [intros ->; discriminate Hlen |]. split; [exact Hlen |].
    intros i e Hi. destruct (Hfs i e Hi) as (fo & Hfo & Hof).
    exists fo. split; [exact Hfo |]. now apply forecast_of_entry_shown.
Qed.

Lemma forecast_hourly_shows_entries_witness :
  exists s f,
    Some clear_sky_snapshot = Some s /\
    Py.assoc "forecast" s = Some (Forecast f) /\
    [{| Weather.Host.datetime := JStr "2024-01-15T12:00:00Z";
        Weather.Host.native_temperature := Some (PrimFloat.sub 288.65 273.15);
        Weather.Host.native_wind_speed := None;
        Weather.Host.wind_bearing := None;
        Weather.Host.humidity := None;
        Weather.Host.native_precipitation := None;
        Weather.Host.condition := Some "sunny" |}] <> [] /\
    List.length
      [{| Weather.Host.datetime := JStr "2024-01-15T12:00:00Z";
          Weather.Host.native_temperature := Some (PrimFloat.sub 288.65 273.15);
          Weather.Host.native_wind_speed := None;
          Weather.Host.wind_bearing := None;
          Weather.Host.humidity := None;
          Weather.Host.native_precipitation := None;
          Weather.Host.condition := Some "sunny" |}]
    = List.length (Api.hourly f) /\
    forall i e, nth_error (Api.hourly f) i = Some e ->
      exists fo,
        nth_error
          [{| Weather.Host.datetime := JStr "2024-01-15T12:00:00Z";
              Weather.Host.native_temperature := Some (PrimFloat.sub 288.65 273.15);
              Weather.Host.native_wind_speed := None;
              Weather.Host.wind_bearing := None;
              Weather.Host.humidity := None;
              Weather.Host.native_precipitation := None;
              Weather.Host.condition := Some "sunny" |}] i = Some fo /\
        shown_as e fo.
Proof.
  apply (forecast_hourly_shows_entries (Some clear_sky_snapshot)).
  reflexivity.
Defined.

(** [async_forecast_hourly] returns [None] exactly when there is no data,
    no forecast in the snapshot, or a forecast without entries, provided
    the snapshot is one of the coordinator (a forecast or [None] under
    ["forecast"]). *)
Theorem forecast_hourly_none (data : option snapshot) :
  (forall s v, data = Some s -> Py.assoc "forecast" s = Some v ->
     v = PyNone \/ exists f, v = Forecast f) ->
  (Weather.async_forecast_hourly data = Return None <->
   data = None \/
   exists s,
     data = Some s /\
     (Py.assoc "forecast" s = None \/
      Py.assoc "forecast" s = Some PyNone \/
      exists f, Py.assoc "forecast" s = Some (Forecast f) /\ Api.hourly f = [])).
Proof.
  intros Hshape. unfold Weather.async_forecast_hourly, Data.get.
  destruct data as [s |]; [| split; auto].
  destruct (Py.assoc "forecast" s) as [v |] eqn:Hs.
  - destruct (Hshape s v eq_refl Hs) as [-> | (f & ->)].
    + split; [| reflexivity]. intros _. right. exists s. rewrite Hs. auto.
    + destruct (Api.hourly f) as [| entry rest] eqn:Hh.
      * split; [| reflexivity]. intros _. right. exists s. rewrite Hs.
        split; [reflexivity |]. right. right. exists f. auto.
      * split.
        -- intros H. destruct (Weather.forecasts_loop _ _); discriminate H.
        -- intros [H | (s' & Hs' & H)]; [discriminate H |].
           injection Hs' as <-. rewrite Hs in H.
           destruct H as [H | [H | (f' & H & Hnil)]]; try discriminate H.
           injection H as <-. congruence.
  - split; [| reflexivity]. intros _. right. exists s. rewrite Hs. auto.
Qed.

Lemma forecast_hourly_none_witness :
  Weather.async_forecast_hourly (Some rainy_snapshot) = Return None <->
  Some rainy_snapshot = None \/
  exists s,
    Some rainy_snapshot = Some s /\
    (Py.assoc "forecast" s = None \/
     Py.assoc "forecast" s = Some PyNone \/
     exists f, Py.assoc "forecast" s = Some (Forecast f) /\ Api.hourly f = []).
Proof.
  apply (forecast_hourly_none (Some rainy_snapshot)).
  intros s v Hs Hv. injection Hs as <-. simpl in Hv. injection Hv as <-.
  left. reflexivity.
Defined.

(** ** From the document of the API to the forecasts of the host *)

Lemma read_nth (l : list json) (i : nat) (v : json) :
  read l i = Some v -> nth_error l i = Some v.
Proof.
  unfold read. destruct (nth_error l i) as [x |]; [| discriminate].
  destruct (Py.is_none x); [discriminate |]. now intros H.
Qed.

Lemma condition_of_cloud_number (cloud : json) (k : float) :
  Feed.as_float cloud = Some k ->
  exists c, Weather.condition_of_cloud cloud = Return c.
Proof.
  unfold Weather.condition_of_cloud.
  destruct cloud; simpl; intros H; try discriminate H.
  - destruct (Z.ltb (if b then 1 else 0) 20); simpl; [eauto |].
    destruct (Z.ltb (if b then 1 else 0) 60); eauto.
  - destruct (Z.ltb z 20); simpl; [eauto |]. destruct (Z.ltb z 60); eauto.
  - destruct (Data.float_lt_int f 20); simpl; [eauto |].
    destruct (Data.float_lt_int f 60); eauto.
Qed.

Lemma forecast_of_entry_total (e : Api.forecast_entry) :
  (forall v, Api.cloud_cover e = Some v -> exists k, Feed.as_float v = Some k) ->
  exists fo, Weather.forecast_of_entry e = Return fo.
Proof.
  intros H. unfold Weather.forecast_of_entry.
  destruct (Api.cloud_cover e) as [cloud |].
  - destruct (H cloud eq_refl) as (k & Hk).
    destruct (condition_of_cloud_number _ _ Hk) as (c & ->). simpl. eauto.
  - simpl. eauto.
Qed.

Lemma forecasts_loop_total (hourly : list Api.forecast_entry) :
  (forall e, In e hourly -> exists fo, Weather.forecast_of_entry e = Return fo) ->
  forall forecasts, exists l, Weather.forecasts_loop hourly forecasts = Return l.
Proof.
  induction hourly as [| entry rest IH]; intros H acc; simpl.
  - eauto.
  - destruct (H entry (or_introl eq_refl)) as (fo & ->). rewrite bind_Return.
    apply IH. intros e He. apply H. now right.
Qed.

(** The whole way of a forecast.  When the observations are fetched and
    the request for the forecast is answered with a forecast document whose
    time axis is not empty and whose cloud covers are numbers or null, the
    cycle returns a snapshot from which [async_forecast_hourly] gives one
    forecast per time step, dated by that step.  Its temperature is there
    exactly when the document has a number for that step, and it is that
    number minus 273.15; its wind speed, wind bearing, humidity and
    precipitation are the values of the document for that step, unchanged,
    and absent where the document has none. *)
Theorem live_forecast_reaches_weather (session : Api.ClientSession)
    (station_id : string) (lat lon : float) (utcnow : Z)
    (observations : Api.record) (data : json) :
  Api.get_observations session station_id = Return observations ->
  Feed.answers session Feed.forecast_url (Api.forecast_query lat lon) data ->
  Feed.forecast_document data = true ->
  forallb Feed.null_or_number
    (Feed.elements (Feed.range_values data (Feed.range_name Feed.CloudCover)))
  = true ->
  Feed.elements (Feed.time_values data) <> [] ->
  let upstream (prm : Feed.parameter) : list json :=
    Feed.elements (Feed.range_values data (Feed.range_name prm)) in
  exists s l,
    _async_update_data (live session station_id (Some (lat, lon)) true) utcnow
    = Return s /\
    Weather.async_forecast_hourly (Some s) = Return (Some l) /\
    List.length l = List.length (Feed.elements (Feed.time_values data)) /\
    forall i fo, nth_error l i = Some fo ->
      nth_error (Feed.elements (Feed.time_values data)) i
      = Some (Weather.Host.datetime fo) /\
      (forall celsius,
         Weather.Host.native_temperature fo = Some celsius <->
         exists v kelvin,
           nth_error (upstream Feed.Temperature) i = Some v /\
           Feed.as_float v = Some kelvin /\
           celsius = PrimFloat.sub kelvin 273.15) /\
      Weather.Host.native_wind_speed fo = read (upstream Feed.WindSpeed) i /\
      Weather.Host.wind_bearing fo = read (upstream Feed.WindDir) i /\
      Weather.Host.humidity fo = read (upstream Feed.Humidity) i /\
      Weather.Host.native_precipitation fo
      = read (upstream Feed.Precipitation) i.
Proof.
  intros Ho Hans Hdoc Hcloud Htime upstream.
  destruct (parse_forecast_document data Hdoc) as (fc & Hparse & Hloop).
  pose proof (forecast_document_inv data Hdoc)
    as (_ & _ & Hprm & _ & _ & _ & _ & _).
  assert (Hlists : forall prm,
            Feed.is_list (array_of (Feed.arrays data) prm) = true).
  { intros prm. rewrite array_of_arrays. apply Hprm. }
  assert (Hfc : Api.get_forecast session lat lon = Return fc).
  { unfold Api.get_forecast. fold Feed.forecast_url.
    now rewrite (request_answers _ _ _ _ Hans). }
  apply forecast_loop_inv in Hloop. destruct Hloop as (es & Hes & Hlen & Hat).
  simpl in Hes.
  (* what an entry holds of each array *)
  assert (Hread : forall i e tv,
            Api.forecast_entry_at (Feed.arrays data) i tv = Return e ->
            forall prm, prm <> Feed.Temperature ->
              Feed.field prm e = read (upstream prm) i).
  { intros i e tv Hentry prm Hne. apply forecast_entry_at_inv in Hentry.
    destruct Hentry as (_ & _ & Hrest). specialize (Hrest prm Hne).
    rewrite (available_array _ Hlists) in Hrest. injection Hrest as Hrest.
    rewrite array_of_arrays in Hrest. now symmetry. }
  (* every entry has a numeric cloud cover, if any *)
  assert (Hconv : forall e, In e (Api.hourly fc) ->
            exists fo, Weather.forecast_of_entry e = Return fo).
  { intros e He. apply forecast_of_entry_total. intros v Hv.
    rewrite Hes in He. apply In_nth_error in He. destruct He as (i & Hi).
    destruct (Hat i e Hi) as (tv & _ & Hentry). simpl in Hentry.
    pose proof (Hread i e tv Hentry Feed.CloudCover) as Hcc.
    simpl Feed.field in Hcc. rewrite Hv in Hcc.
    apply (read_number (upstream Feed.CloudCover) i v Hcloud).
    symmetry. apply Hcc. discriminate. }
  destruct (forecasts_loop_total _ Hconv []) as (l & Hl).
  exists [("observations", Observations observations);
          ("forecast", Forecast fc);
          ("last_updated", Datetime utcnow)], l.
  split.
  { rewrite (live_cycle _ _ _ _ _ _ Ho).
    unfold live_forecast. now rewrite Hfc. }
  split.
  { unfold Weather.async_forecast_hourly, Data.get.
    change (Py.assoc "forecast"
              [("observations", Observations observations);
               ("forecast", Forecast fc);
               ("last_updated", Datetime utcnow)])
      with (Some (Forecast fc)).
    cbv beta iota.
    destruct (Api.hourly fc) as [| entry rest] eqn:Hh.
    - rewrite <- Hes in Hlen. simpl in Hlen.
      destruct (Feed.elements (Feed.time_values data));
        [now elim Htime | discriminate Hlen].
    - now rewrite Hl. }
  pose proof Hl as Hinv. apply forecasts_loop_inv in Hinv.
  destruct Hinv as (fs & -> & Hfslen & Hfs). simpl app in *.
  split; [rewrite Hfslen, Hes; exact Hlen |].
  intros i fo Hfo.
  assert (Hi : i < List.length (Api.hourly fc)).
  { rewrite <- Hfslen. apply nth_error_Some. congruence. }
  destruct (nth_error (Api.hourly fc) i) as [e |] eqn:He;
    [| apply nth_error_None in He; lia].
  destruct (Hfs i e He) as (fo' & Hfo' & Hshown).
  rewrite Hfo in Hfo'. injection Hfo' as <-.
  apply forecast_of_entry_shown in Hshown.
  destruct Hshown as (Hdt & Htemp & Hws & Hwd & Hh & Hpr & _).
  rewrite Hes in He. destruct (Hat i e He) as (tv & Htv & Hentry).
  simpl in Hentry. pose proof (Hread i e tv Hentry) as Hfields.
  apply forecast_entry_at_inv in Hentry.
  destruct Hentry as (Hdate & (t0 & Ht0 & Ht) & _).
  change (Api.temperature_data (Feed.arrays data))
    with (array_of (Feed.arrays data) Feed.Temperature) in Ht0.
  rewrite (available_array _ Hlists) in Ht0.
  assert (Hr0 : read (upstream Feed.Temperature) i = t0)
    by (injection Ht0 as Ht0; exact Ht0).
  clear Ht0. rename Hr0 into Ht0.
  split; [rewrite Hdt, Hdate; exact Htv |].
  split; [| repeat split].
  - intros celsius. rewrite Htemp. split.
    + intros Hc. destruct t0 as [v |]; [| congruence].
      destruct Ht as (c & Hsub & Hc'). rewrite Hc' in Hc. injection Hc as ->.
      apply sub_float_Return in Hsub. destruct Hsub as (k & Hk & ->).
      apply read_nth in Ht0.
      exists v, k. split; [exact Ht0 |]. split; [exact Hk | reflexivity].
    + intros (v & kelvin & Hv & Hk & ->).
      assert (Hr : read (upstream Feed.Temperature) i = Some v).
      { unfold read. rewrite Hv. destruct v; try reflexivity. discriminate Hk. }
      rewrite Hr in Ht0. subst t0.
      destruct Ht as (c & Hsub & Hc).
      rewrite (sub_float_number _ _ _ Hk) in Hsub. now injection Hsub as <-.
  - rewrite Hws. apply (Hfields Feed.WindSpeed). discriminate.
  - rewrite Hwd. apply (Hfields Feed.WindDir). discriminate.
  - rewrite Hh. apply (Hfields Feed.Humidity). discriminate.
  - rewrite Hpr. apply (Hfields Feed.Precipitation). discriminate.
Qed.

Lemma live_forecast_reaches_weather_witness :
  let upstream (prm : Feed.parameter) : list json :=
    Feed.elements (Feed.range_values clear_sky (Feed.range_name prm)) in
  exists s l,
    _async_update_data
      (live (observations_then
               (Feed.ok (Feed.feature_collection Feed.ascending_feed))
               (Feed.ok clear_sky))
         "06180" (Some (55.614%float, 12.6455%float)) true) 1705320000
    = Return s /\
    Weather.async_forecast_hourly (Some s) = Return (Some l) /\
    List.length l = List.length (Feed.elements (Feed.time_values clear_sky)) /\
    forall i fo, nth_error l i = Some fo ->
      nth_error (Feed.elements (Feed.time_values clear_sky)) i
      = Some (Weather.Host.datetime fo) /\
      (forall celsius,
         Weather.Host.native_temperature fo = Some celsius <->
         exists v kelvin,
           nth_error (upstream Feed.Temperature) i = Some v /\
           Feed.as_float v = Some kelvin /\
           celsius = PrimFloat.sub kelvin 273.15) /\
      Weather.Host.native_wind_speed fo = read (upstream Feed.WindSpeed) i /\
      Weather.Host.wind_bearing fo = read (upstream Feed.WindDir) i /\
      Weather.Host.humidity fo = read (upstream Feed.Humidity) i /\
      Weather.Host.native_precipitation fo
      = read (upstream Feed.Precipitation) i.
Proof.
  apply (live_forecast_reaches_weather
           (observations_then
              (Feed.ok (Feed.feature_collection Feed.ascending_feed))
              (Feed.ok clear_sky))
           "06180" 55.614 12.6455 1705320000
           [(JStr "temp_dry",
             {| Api.value := JFloat 15.5;
                Api.observed := JStr "2024-01-15T12:00:00Z" |})]
           clear_sky).
  - reflexivity.
  - eexists. split; [reflexivity |]. simpl.
    split; [discriminate |]. split; reflexivity.
  - reflexivity.
  - reflexivity.
  - discriminate.
Defined.

(** * Properties of the sensors *)

Lemma mem_reported (observations : Api.record)
    (description : Const.SensorEntityDescription) :
  Sensor.mem (Const.key description) (keys observations)
  = reported observations description.
Proof.
  unfold Sensor.mem, reported, keys.
  induction observations as [| [k v] observations IH]; simpl; [reflexivity |].
  destruct (Api.key_eqb k (JStr (Const.key description))); [reflexivity |].
  exact IH.
Qed.

Lemma entities_loop_spec (entry_id : string) (available_params : list json)
    (descriptions : list Const.SensorEntityDescription) :
  forall entities,
    Sensor.entities_loop entry_id available_params descriptions entities
    = entities ++
      map (Sensor.__init__ entry_id)
        (filter (fun d => Sensor.mem (Const.key d) available_params)
           descriptions).
Proof.
  induction descriptions as [| d rest IH]; intros entities; simpl.
  - now rewrite app_nil_r.
  - rewrite IH. destruct (Sensor.mem (Const.key d) available_params); simpl.
    + now rewrite <- app_assoc.
    + reflexivity.
Qed.

Lemma setup_entry_spec (data : option snapshot) (observations : Api.record)
    (entry_id : string) :
  has_observations data observations ->
  Sensor.async_setup_entry data entry_id
  = Return (map (Sensor.__init__ entry_id)
              (filter (reported observations) Const.SENSOR_TYPES)).
Proof.
  intros (s & -> & Hs). unfold Sensor.async_setup_entry.
  destruct s as [| item s]; [discriminate Hs |].
  unfold Data.get. rewrite Hs. simpl Sensor.keys_of. rewrite bind_Return.
  rewrite entities_loop_spec, app_nil_l. f_equal. f_equal.
  apply filter_ext. intros d. apply mem_reported.
Qed.

Lemma native_value_spec (data : option snapshot) (observations : Api.record)
    (sensor : Sensor.DMISensor) :
  has_observations data observations ->
  Sensor.native_value sensor data
  = Return (match Api.lookup observations
                    (JStr (Const.key (Sensor.entity_description sensor))) with
            | Some r => Api.value r
            | None => JNull
            end).
Proof.
  intros (s & -> & Hs). unfold Sensor.native_value, Data.get. rewrite Hs.
  simpl.
  destruct (Api.lookup observations
              (JStr (Const.key (Sensor.entity_description sensor))));
    reflexivity.
Qed.

(** From a snapshot with observations, [async_setup_entry] creates one
    sensor for each description of [SENSOR_TYPES] whose parameter the
    station reports, in the order of the table, and none for any other
    parameter; each of them has a value in that snapshot, the one
    observed. *)
Theorem sensors_for_reported_parameters (data : option snapshot)
    (observations : Api.record) (entry_id : string) :
  has_observations data observations ->
  exists entities,
    Sensor.async_setup_entry data entry_id = Return entities /\
    map Sensor.entity_description entities
    = filter (reported observations) Const.SENSOR_TYPES /\
    forall sensor, In sensor entities ->
      exists r,
        Api.lookup observations
          (JStr (Const.key (Sensor.entity_description sensor))) = Some r /\
        Sensor.native_value sensor data = Return (Api.value r).
Proof.
  intros Hd. eexists. split; [apply (setup_entry_spec _ _ _ Hd) |]. split.
  - rewrite map_map. simpl. apply map_id.
  - intros sensor Hin. apply in_map_iff in Hin.
    destruct Hin as (d & <- & Hin). apply filter_In in Hin.
    destruct Hin as [_ Hrep]. unfold reported in Hrep. simpl.
    destruct (Api.lookup observations (JStr (Const.key d))) as [r |] eqn:Hl;
      [| discriminate Hrep].
    exists r. split; [reflexivity |].
    rewrite (native_value_spec _ _ _ Hd). simpl. now rewrite Hl.
Qed.

Lemma sensors_for_reported_parameters_witness :
  exists entities,
    Sensor.async_setup_entry (Some rainy_snapshot) "entry" = Return entities /\
    map Sensor.entity_description entities
    = filter
        (reported
           [(JStr "weather",
             {| Api.value := JInt 61;
                Api.observed := JStr "2024-01-15T12:00:00Z" |});
            (JStr "cloud_cover",
             {| Api.value := JFloat 10.0;
                Api.observed := JStr "2024-01-15T12:00:00Z" |})])
        Const.SENSOR_TYPES /\
    forall sensor, In sensor entities ->
      exists r,
        Api.lookup
          [(JStr "weather",
            {| Api.value := JInt 61;
               Api.observed := JStr "2024-01-15T12:00:00Z" |});
           (JStr "cloud_cover",
            {| Api.value := JFloat 10.0;
               Api.observed := JStr "2024-01-15T12:00:00Z" |})]
          (JStr (Const.key (Sensor.entity_description sensor))) = Some r /\
        Sensor.native_value sensor (Some rainy_snapshot) = Return (Api.value r).
Proof.
  apply (sensors_for_reported_parameters (Some rainy_snapshot)).
  eexists. split; reflexivity.
Defined.

(** ** The unique ids *)

Lemma append_injective (p a b : string) : (p ++ a = p ++ b)%string -> a = b.
Proof.
  induction p as [| c p IH]; simpl; intros H; [exact H |].
  injection H as H. now apply IH.
Qed.

Lemma sensor_keys_NoDup : NoDup (map Const.key Const.SENSOR_TYPES).
Proof.
  simpl. repeat constructor; simpl; intuition discriminate.
Qed.

(** Dropping descriptions keeps their keys distinct. *)
Lemma filter_keys_NoDup (keep : Const.SensorEntityDescription -> bool)
    (descriptions : list Const.SensorEntityDescription) :
  NoDup (map Const.key descriptions) ->
  NoDup (map Const.key (filter keep descriptions)).
Proof.
  induction descriptions as [| d rest IH]; simpl; intros Hnd; [constructor |].
  apply NoDup_cons_iff in Hnd. destruct Hnd as [Hfresh Hrest].
  destruct (keep d); simpl; [| exact (IH Hrest)].
  apply NoDup_cons_iff. split; [| exact (IH Hrest)].
  intros Hin. apply Hfresh. apply in_map_iff in Hin.
  destruct Hin as (d' & Hkey & Hd'). apply filter_In in Hd'.
  apply in_map_iff. exists d'. tauto.
Qed.

(** Prefixing distinct keys with the id of the entry keeps them distinct. *)
Lemma prefixed_NoDup (entry_id : string) (ks : list string) :
  NoDup ks -> NoDup (map (fun k => (entry_id ++ "_" ++ k)%string) ks).
Proof.
  induction ks as [| k ks IH]; simpl; intros Hnd; [constructor |].
  apply NoDup_cons_iff in Hnd. destruct Hnd as [Hfresh Hrest].
  apply NoDup_cons_iff. split; [| exact (IH Hrest)].
  intros Hin. apply in_map_iff in Hin. destruct Hin as (k' & Hk' & Hin).
  apply append_injective in Hk'. apply (append_injective "_") in Hk'.
  now subst k'.
Qed.

(** Whatever the data, the sensors that [async_setup_entry] creates for
    one entry have pairwise different unique ids, and none of them has the
    unique id of the weather entity of that entry. *)
Theorem sensor_unique_ids_distinct (data : option snapshot)
    (entry_id : string) (entities : list Sensor.DMISensor) :
  Sensor.async_setup_entry data entry_id = Return entities ->
  NoDup (map Sensor.unique_id entities) /\
  ~ In (Weather.unique_id entry_id) (map Sensor.unique_id entities).
Proof.
  unfold Sensor.async_setup_entry. intros H.
  apply bind_inv in H. destruct H as (available_params & _ & H).
  assert (He : entities
               = Sensor.entities_loop entry_id available_params
                   Const.SENSOR_TYPES []) by congruence.
  rewrite He, entities_loop_spec, app_nil_l.
  rewrite map_map. unfold Sensor.__init__. cbn [Sensor.unique_id].
  rewrite <- (map_map Const.key (fun k => (entry_id ++ "_" ++ k)%string)).
  split.
  - apply prefixed_NoDup, filter_keys_NoDup, sensor_keys_NoDup.
  - intros Hin. apply in_map_iff in Hin. destruct Hin as (k & Hk & Hin).
    unfold Weather.unique_id in Hk. apply append_injective in Hk.
    apply (append_injective "_" k "weather") in Hk. subst k.
    apply in_map_iff in Hin. destruct Hin as (d & Hd & Hin).
    apply filter_In in Hin. destruct Hin as [Hin _].
    unfold Const.SENSOR_TYPES in Hin. simpl in Hin.
    repeat (destruct Hin as [<- | Hin]; [discriminate Hd |]). destruct Hin.
Qed.

Lemma sensor_unique_ids_distinct_witness :
  NoDup
    (map Sensor.unique_id
       (map (Sensor.__init__ "entry")
          (filter
             (reported
                [(JStr "weather",
                  {| Api.value := JInt 61;
                     Api.observed := JStr "2024-01-15T12:00:00Z" |});
                 (JStr "cloud_cover",
                  {| Api.value := JFloat 10.0;
                     Api.observed := JStr "2024-01-15T12:00:00Z" |})])
             Const.SENSOR_TYPES))) /\
  ~ In (Weather.unique_id "entry")
      (map Sensor.unique_id
         (map (Sensor.__init__ "entry")
            (filter
               (reported
                  [(JStr "weather",
                    {| Api.value := JInt 61;
                       Api.observed := JStr "2024-01-15T12:00:00Z" |});
                   (JStr "cloud_cover",
                    {| Api.value := JFloat 10.0;
                       Api.observed := JStr "2024-01-15T12:00:00Z" |})])
               Const.SENSOR_TYPES))).
Proof.
  apply (sensor_unique_ids_distinct (Some rainy_snapshot) "entry").
  reflexivity.
Defined.

(** ** The sensors and the weather entity *)

(** A sensor and the weather entity read the observations alike: for every
    data, the value of the sensor of a parameter is the value the weather
    entity gets for that parameter. *)
Theorem sensor_agrees_with_weather (data : option snapshot)
    (sensor : Sensor.DMISensor) :
  Sensor.native_value sensor data
  = Weather._get_observation_value data
      (Const.key (Sensor.entity_description sensor)).
Proof.
  unfold Sensor.native_value, Weather._get_observation_value,
    Weather._observations.
  destruct data as [s |]; reflexivity.
Qed.

(** ** From the feed of the API to the sensors *)

Lemma sensor_key_not_empty (d : Const.SensorEntityDescription) :
  In d Const.SENSOR_TYPES -> Const.key d <> "".
Proof.
  unfold Const.SENSOR_TYPES. simpl. intros H.
  repeat (destruct H as [<- | H]; [discriminate |]). destruct H.
Qed.

(** The whole way of an observation.  When the request for the
    observations is answered before the deadline with a feed of the
    documented shape (an object with an array of observation features,
    whatever its other members) and the request for the forecast, if there
    is one, is not pending at the deadline, the cycle returns a snapshot
    from which [async_setup_entry] creates the sensor of a description of
    [SENSOR_TYPES] exactly when some feature of the feed reports its
    parameter, and the value of each sensor is the value of the last
    feature of the feed that reports its parameter. *)
Theorem live_sensors_show_last_reading (session : Api.ClientSession)
    (station_id : string) (coordinates : option (float * float))
    (include fc_in_time : bool) (utcnow : Z) (entry_id : string)
    (data : json) :
  Feed.answers session
    (Api.METOBS_URL ++ "/collections/observation/items")%string
    (Api.observations_query station_id) data ->
  Feed.observation_collection data = true ->
  forecast_pending coordinates include fc_in_time = false ->
  let features := Feed.elements (Feed.features data) in
  exists s entities,
    _async_update_data
      (deployed session station_id coordinates include true fc_in_time) utcnow
    = Return s /\
    Sensor.async_setup_entry (Some s) entry_id = Return entities /\
    (forall d, In d Const.SENSOR_TYPES ->
       (In (Sensor.__init__ entry_id d) entities <->
        exists feature,
          In feature features /\
          Feed.parameter_id feature = JStr (Const.key d))) /\
    (forall sensor, In sensor entities ->
       exists kept,
         Feed.last_reading (Const.key (Sensor.entity_description sensor))
           features = Some kept /\
         Sensor.native_value sensor (Some s) = Return (Api.value kept)).
Proof.
  intros Hans Hok Hpending features.
  destruct (get_observations_spec _ _ _ Hans Hok) as (r & Hr & _ & _ & Hlk).
  fold features in Hlk.
  pose proof (cycle_after_observations session station_id coordinates
                include fc_in_time utcnow r Hr) as Hs.
  rewrite Hpending in Hs.
  set (s := [("observations", Observations r);
             ("forecast", live_forecast session coordinates include);
             ("last_updated", Datetime utcnow)]) in *.
  assert (Hd : has_observations (Some s) r)
    by (exists s; split; reflexivity).
  exists s. eexists. split; [exact Hs |].
  split; [apply (setup_entry_spec _ _ _ Hd) |]. split.
  - intros d Hin. split.
    + intros H. apply in_map_iff in H. destruct H as (d' & Heq & H).
      assert (d' = d) by (now injection Heq). subst d'.
      apply filter_In in H. destruct H as [_ Hrep]. unfold reported in Hrep.
      rewrite (Hlk _ (sensor_key_not_empty d Hin)) in Hrep.
      destruct (Feed.last_reading (Const.key d) features) as [kept |] eqn:Hl;
        [| discriminate Hrep].
      apply last_reading_Some in Hl. destruct Hl as (feature & Hf & Hid & _).
      exists feature. auto.
    + intros (feature & Hf & Hid). apply in_map. apply filter_In.
      split; [exact Hin |]. unfold reported.
      rewrite (Hlk _ (sensor_key_not_empty d Hin)).
      destruct (last_reading_In _ _ _ Hf Hid) as (kept & ->). reflexivity.
  - intros sensor Hin. apply in_map_iff in Hin.
    destruct Hin as (d & <- & Hin). apply filter_In in Hin.
    destruct Hin as [Hin Hrep]. unfold reported in Hrep.
    rewrite (native_value_spec _ _ _ Hd).
    cbn [Sensor.entity_description Sensor.__init__].
    destruct (Api.lookup r (JStr (Const.key d))) as [kept |] eqn:Hl;
      [| discriminate Hrep].
    exists kept. split; [| reflexivity].
    now rewrite <- (Hlk _ (sensor_key_not_empty d Hin)).
Qed.

(** The feed of a station in a FeatureCollection with its other members;
    the station has no coordinates, so no forecast is requested. *)
Lemma live_sensors_show_last_reading_witness :
  let features :=
    Feed.elements (Feed.features (Feed.feature_collection station_feed)) in
  exists s entities,
    _async_update_data
      (deployed (Feed.always (Feed.ok (Feed.feature_collection station_feed)))
         "06180" None true true false) 1705320000
    = Return s /\
    Sensor.async_setup_entry (Some s) "entry" = Return entities /\
    (forall d, In d Const.SENSOR_TYPES ->
       (In (Sensor.__init__ "entry" d) entities <->
        exists feature,
          In feature features /\
          Feed.parameter_id feature = JStr (Const.key d))) /\
    (forall sensor, In sensor entities ->
       exists kept,
         Feed.last_reading (Const.key (Sensor.entity_description sensor))
           features = Some kept /\
         Sensor.native_value sensor (Some s) = Return (Api.value kept)).
Proof.
  apply (live_sensors_show_last_reading
           (Feed.always (Feed.ok (Feed.feature_collection station_feed)))
           "06180" None true false 1705320000 "entry"
           (Feed.feature_collection station_feed)).
  - apply answers_ok.
  - reflexivity.
  - reflexivity.
Defined.

(** ** The attributes of a sensor *)

Section Attributes.

Variable isoformat : Z -> string.

(** On a snapshot of the coordinator, the attributes of a sensor are the
    time of the snapshot under ["last_updated"] and, exactly when the
    station reports the parameter with a truthy [observed], that value
    under ["observation_time"]; there is no other attribute. *)
Theorem sensor_attributes (data : option snapshot) (observations : Api.record)
    (t : Z) (sensor : Sensor.DMISensor) :
  taken_at data observations t ->
  exists attributes,
    Sensor.extra_state_attributes isoformat sensor data = Return attributes /\
    Py.assoc "last_updated" attributes = Some (Sensor.Text (isoformat t)) /\
    (forall v,
       Py.assoc "observation_time" attributes = Some v <->
       exists r,
         Api.lookup observations
           (JStr (Const.key (Sensor.entity_description sensor))) = Some r /\
         Py.truthy (Api.observed r) = true /\
         v = Sensor.OfJson (Api.observed r)) /\
    (forall k v, In (k, v) attributes ->
       k = "observation_time" \/ k = "last_updated").
Proof.
  intros (s & -> & Ho & Ht).
  unfold Sensor.extra_state_attributes, Data.get. rewrite Ho, Ht. simpl.
  destruct (Api.lookup observations
              (JStr (Const.key (Sensor.entity_description sensor))))
    as [r |] eqn:Hl; simpl.
  - destruct (Py.truthy (Api.observed r)) eqn:Htr; simpl;
      eexists; (split; [reflexivity |]); (split; [reflexivity |]); split.
    + intros v. simpl. split.
      * intros H. injection H as <-. exists r. auto.
      * intros (r' & Hr' & _ & ->). now injection Hr' as <-.
    + intros k v [H | [H | []]]; injection H as <- _; auto.
    + intros v. simpl. split; [discriminate |].
      intros (r' & Hr' & Htr' & _). injection Hr' as <-. congruence.
    + intros k v [H | []]. injection H as <- _. auto.
  - eexists. split; [reflexivity |]. split; [reflexivity |]. split.
    + intros v. simpl. split; [discriminate |].
      intros (r' & Hr' & _). discriminate Hr'.
    + intros k v [H | []]. injection H as <- _. auto.
Qed.

End Attributes.

Lemma sensor_attributes_witness :
  exists attributes,
    Sensor.extra_state_attributes seconds
      (Sensor.__init__ "entry"
         (Const.measurement "cloud_cover" "Cloud Cover" "%" None
            (Some "mdi:cloud")))
      (Some rainy_snapshot) = Return attributes /\
    Py.assoc "last_updated" attributes
    = Some (Sensor.Text (seconds 1705320000)) /\
    (forall v,
       Py.assoc "observation_time" attributes = Some v <->
       exists r,
         Api.lookup
           [(JStr "weather",
             {| Api.value := JInt 61;
                Api.observed := JStr "2024-01-15T12:00:00Z" |});
            (JStr "cloud_cover",
             {| Api.value := JFloat 10.0;
                Api.observed := JStr "2024-01-15T12:00:00Z" |})]
           (JStr (Const.key
                    (Sensor.entity_description
                       (Sensor.__init__ "entry"
                          (Const.measurement "cloud_cover" "Cloud Cover" "%"
                             None (Some "mdi:cloud"))))))
         = Some r /\
         Py.truthy (Api.observed r) = true /\
         v = Sensor.OfJson (Api.observed r)) /\
    (forall k v, In (k, v) attributes ->
       k = "observation_time" \/ k = "last_updated").
Proof.
  apply (sensor_attributes seconds (Some rainy_snapshot)).
  eexists. split; [reflexivity |]. split; reflexivity.
Defined.
